(** * Evidence pipeline of the causal-rationale extraction system

    A shallow embedding of the span extractor, the causal pattern detector,
    the evidence scorer, the causal analyzer, the conversation context
    manager, the explanation generator, the two-task orchestrator, the event
    classification of the query parser and the citation extraction of the
    language-model generator, followed by the properties established about
    them.

    Conventions of the embedding.
    - A Python [dict] with string keys is a [gmap string value].
    - Python numbers ([int] and [float]) are exact rationals [Q]: an [int]
      is a rational of denominator 1, and float arithmetic is idealised
      (no rounding, no NaN, no overflow).
    - A Python [str] is a [string] whose characters are read as the code
      points 0..255.
    - A raised exception ([TypeError], [AttributeError], ...) in pure code
      is the result [None]; stateful code returns [Raised] together with
      the state reached so far. *)

From Stdlib Require Import QArith Qminmax Qabs Lqa ZArith Lia String Ascii List.
From Stdlib Require Import Sorting.Permutation Sorting.Sorted Floats.PrimFloat.
From stdpp Require Import gmap strings list fin_maps pretty.

Set Warnings "-register-all,-inexact-float".
Open Scope Q_scope.

(** ** Python values *)

Inductive value : Type :=
| VNone
| VBool (b : bool)
| VNum (q : Q)
| VStr (s : string)
| VList (l : list value)
| VDict (d : gmap string value).

Abbreviation pydict := (gmap string value).

(** [d.get(k, dflt)] *)
Definition dict_get (d : pydict) (k : string) (dflt : value) : value :=
  match d !! k with
  | Some v => v
  | None => dflt
  end.

(** [d[k]], which raises [KeyError] when [k] is no key of [d]. *)
Definition subscript (d : pydict) (k : string) : option value := d !! k.

(** The operand of an arithmetic operation or of a numeric comparison:
    numbers, and booleans as 0 and 1; anything else raises. *)
Definition as_num (v : value) : option Q :=
  match v with
  | VNum q => Some q
  | VBool b => Some (if b then 1 else 0)
  | _ => None
  end.

(** The receiver of a [str] method. *)
Definition as_str (v : value) : option string :=
  match v with
  | VStr s => Some s
  | _ => None
  end.

(** The receiver of a [dict] method. *)
Definition as_dict (v : value) : option pydict :=
  match v with
  | VDict d => Some d
  | _ => None
  end.

Definition Qltb (x y : Q) : bool := negb (Qle_bool y x).

Definition num_of_nat (n : nat) : Q := inject_Z (Z.of_nat n).

(** A Python slice bound [i] on a sequence of length [len]: negative bounds
    count from the end, and bounds are clipped to the sequence. *)
Definition norm_index (len : nat) (i : Z) : nat :=
  if (i <? 0)%Z then Z.to_nat (Z.of_nat len + i)
  else Nat.min (Z.to_nat i) len.

(** [l[i:j]], [l[i:]] and [l[:j]] *)
Definition slice {A} (i j : Z) (l : list A) : list A :=
  let a := norm_index (length l) i in
  let b := norm_index (length l) j in
  take (b - a) (drop a l).

Definition slice_from {A} (i : Z) (l : list A) : list A :=
  drop (norm_index (length l) i) l.

Definition slice_to {A} (j : Z) (l : list A) : list A :=
  take (norm_index (length l) j) l.

(** [range(n)] *)
Definition range (n : Z) : list Z := Z.of_nat <$> seq 0 (Z.to_nat n).

(** [bool(v)] *)
Definition truthy (v : value) : bool :=
  match v with
  | VNone => false
  | VBool b => b
  | VNum q => negb (Qeq_bool q 0)
  | VStr s => match s with EmptyString => false | _ => true end
  | VList l => match l with [] => false | _ => true end
  | VDict d => match map_to_list d with [] => false | _ => true end
  end.

(** [a == b]: numbers and booleans compare by value, lists element by
    element, dictionaries key by key; values of different kinds differ. *)
Fixpoint py_eq (a b : value) {struct a} : bool :=
  match a, b with
  | VNone, VNone => true
  | VBool x, VBool y => Bool.eqb x y
  | VBool x, VNum y => Qeq_bool (if x then 1 else 0) y
  | VNum x, VBool y => Qeq_bool x (if y then 1 else 0)
  | VNum x, VNum y => Qeq_bool x y
  | VStr s, VStr t => String.eqb s t
  | VList l, VList l' =>
      (fix go (l l' : list value) : bool :=
         match l, l' with
         | [], [] => true
         | x :: l, y :: l' => py_eq x y && go l l'
         | _, _ => false
         end) l l'
  | VDict d, VDict d' =>
      (size d =? size d')%nat
      && map_fold (fun k v acc =>
                     acc && match d' !! k with
                            | Some v' => py_eq v v'
                            | None => false
                            end) true d
  | _, _ => false
  end.

(** The elements that a [for] loop or [list.extend] draws from a value: the
    elements of a list, the characters of a string, the keys of a
    dictionary; anything else is not iterable. *)
Definition as_iter (v : value) : option (list value) :=
  match v with
  | VList l => Some l
  | VStr s => Some ((fun c => VStr (String c EmptyString)) <$> list_ascii_of_string s)
  | VDict d => Some ((fun kv => VStr (fst kv)) <$> map_to_list d)
  | _ => None
  end.

(** A number used as a slice bound: it has to be an integer. *)
Definition as_index (q : Q) : option Z :=
  let r := Qred q in
  if (Qden r =? 1)%positive then Some (Qnum r) else None.

(** [max(a, b)] and [min(a, b)] on numbers: the first argument unless the
    second is strictly larger, respectively smaller. *)
Definition py_max (a b : Q) : Q := if Qltb a b then b else a.
Definition py_min (a b : Q) : Q := if Qltb b a then b else a.

(** A list comprehension with a condition that may raise. *)
Fixpoint filter_opt {A} (p : A -> option bool) (l : list A) : option (list A) :=
  match l with
  | [] => Some []
  | x :: l' =>
      keep ← p x;
      rest ← filter_opt p l';
      Some (if keep : bool then x :: rest else rest)
  end.

(** A hashable value as the member of a [set]: [1], [1.0] and [True] are
    one member; lists and dictionaries cannot be hashed. *)
Inductive atom : Type :=
| ANone
| ANum (q : Qcanon.Qc)
| AStr (s : string).

#[global] Instance atom_eq_dec : EqDecision atom.
Proof. solve_decision. Defined.

#[global] Instance atom_countable : Countable atom.
Proof.
  refine (inj_countable'
            (fun a : atom => match a return unit + (Qcanon.Qc + string) with
                      | ANone => inl tt
                      | ANum q => inr (inl q)
                      | AStr s => inr (inr s)
                      end)
            (fun x : unit + (Qcanon.Qc + string) => match x with
                      | inl _ => ANone
                      | inr (inl q) => ANum q
                      | inr (inr s) => AStr s
                      end) _).
  by intros [].
Defined.

Definition hash_key (v : value) : option atom :=
  match v with
  | VNone => Some ANone
  | VBool b => Some (ANum (Qcanon.Q2Qc (if b then 1 else 0)))
  | VNum q => Some (ANum (Qcanon.Q2Qc q))
  | VStr s => Some (AStr s)
  | _ => None
  end.

(** [set(l)] *)
Definition py_set (l : list value) : option (gset atom) :=
  list_to_set <$> mapM hash_key l.

(** ** Python strings *)

Definition code (c : ascii) : N := N_of_ascii c.

Definition in_range (lo hi n : N) : bool := ((lo <=? n) && (n <=? hi))%N.

(** [str.lower] on one character. *)
Definition char_lower (c : ascii) : ascii :=
  let n := code c in
  if in_range 65 90 n || (in_range 192 222 n && negb (n =? 215)%N)
  then ascii_of_N (n + 32)
  else c.

Fixpoint lower (s : string) : string :=
  match s with
  | EmptyString => EmptyString
  | String c s' => String (char_lower c) (lower s')
  end.

(** [str.isspace] on one character. *)
Definition is_space (c : ascii) : bool :=
  let n := code c in
  in_range 9 13 n || in_range 28 32 n || (n =? 133)%N || (n =? 160)%N.

(** The regular-expression class [\w] on one character: alphanumeric
    characters and the underscore. *)
Definition is_word_char (c : ascii) : bool :=
  let n := code c in
  in_range 48 57 n || in_range 65 90 n || in_range 97 122 n || (n =? 95)%N
  || (n =? 170)%N || (n =? 178)%N || (n =? 179)%N || (n =? 181)%N
  || (n =? 185)%N || (n =? 186)%N || in_range 188 190 n
  || in_range 192 214 n || in_range 216 246 n || in_range 248 255 n.

Definition flush_word (cur : list ascii) : list string :=
  match cur with
  | [] => []
  | _ => [string_of_list_ascii (rev cur)]
  end.

(** [s.split()]: the maximal runs of non-whitespace characters. [cur] holds
    the characters of the current run, last one first. *)
Fixpoint split_go (cur : list ascii) (s : string) : list string :=
  match s with
  | EmptyString => flush_word cur
  | String c s' =>
      if is_space c then flush_word cur ++ split_go [] s'
      else split_go (c :: cur) s'
  end.

Definition split (s : string) : list string := split_go [] s.

(** [needle in hay] *)
Fixpoint str_contains (needle hay : string) : bool :=
  String.prefix needle hay
  || match hay with
     | EmptyString => false
     | String _ hay' => str_contains needle hay'
     end.

(** [sep.join(l)] *)
Definition join (sep : string) (l : list string) : string := String.concat sep l.

(** [s[:n]] for a non-negative [n] *)
Definition str_take (n : nat) (s : string) : string := String.substring 0 n s.

Definition last_char (s : string) : option ascii := last (list_ascii_of_string s).

Definition opt_word (c : option ascii) : bool :=
  match c with
  | Some c => is_word_char c
  | None => false
  end.

(** [len(re.findall(r'\b' + re.escape(lit) + r'\b', s))] for a non-empty
    literal [lit]: the scan goes left to right; [prev] tells whether the
    character before the current position is a word character, and [skip]
    counts the characters of the last match still to be passed, so that
    matches never overlap. *)
Fixpoint count_word_from (lit : string) (prev : bool) (skip : nat) (s : string) : nat :=
  match s with
  | EmptyString => 0
  | String c s' =>
      match skip with
      | S k => count_word_from lit (is_word_char c) k s'
      | O =>
          if xorb prev (is_word_char c)
             && String.prefix lit s
             && xorb (opt_word (last_char lit)) (opt_word (String.get (String.length lit) s))
          then S (count_word_from lit (is_word_char c) (String.length lit - 1) s')
          else count_word_from lit (is_word_char c) 0 s'
      end
  end.

Definition count_word (lit s : string) : nat := count_word_from lit false 0 s.

(** ** Sorting

    [list.sort] and [sorted] are stable.  [stable_sort le] keeps [x] before
    [y] whenever [le x y] holds and [x] came first; with [le] the order of
    the keys it is [sorted(key=...)], with the converse order it is
    [sort(key=..., reverse=True)], which also keeps equal keys in their
    original order. *)

Fixpoint insert_by {A} (le : A -> A -> bool) (x : A) (l : list A) : list A :=
  match l with
  | [] => [x]
  | y :: l' => if le x y then x :: l else y :: insert_by le x l'
  end.

Definition stable_sort {A} (le : A -> A -> bool) (l : list A) : list A :=
  foldr (insert_by le) [] l.

Definition key_le (reverse : bool) {A} (a b : Q * A) : bool :=
  if reverse then Qle_bool (fst b) (fst a) else Qle_bool (fst a) (fst b).

(** [sorted(l, key=key, reverse=reverse)]: every key is computed first, and a
    key that is no number makes the comparison raise. *)
Definition sort_by_key (reverse : bool) (key : pydict -> option Q)
    (l : list pydict) : option (list pydict) :=
  decorated ← mapM (fun x => k ← key x; Some (k, x)) l;
  Some (snd <$> stable_sort (key_le reverse) decorated).


(** ** Span extractor (retrieval/span_extractor.py) *)

Module SpanExtractor.

(** [{s: speakers.count(s) for s in set(speakers)}] *)
Definition speaker_distribution (speakers : list string) : pydict :=
  foldr (fun s m => <[s := VNum (num_of_nat (length (filter (fun s' => s' = s) speakers)))]> m)
        ∅ speakers.

(** The body of the loop of [_create_spans_from_turns] at index [i].  The
    keys of [speaker_distribution] are the speakers, which the dictionaries
    of this embedding take as strings: a speaker that is no string raises
    here. *)
Definition make_span (turns : list pydict) (transcript_id : string)
    (start_index window_size : Z) (i : Z) : option pydict :=
  let span_turns := slice i (i + window_size) turns in
  texts ← mapM (fun turn => as_str (dict_get turn "text" (VStr ""))) span_turns;
  let span_text := join " " texts in
  let speakers := (fun turn => dict_get turn "speaker" (VStr "unknown")) <$> span_turns in
  speaker_names ← mapM as_str speakers;
  let turn_ids :=
    imap (fun j turn => dict_get turn "turn_id" (VNum (inject_Z (start_index + i + Z.of_nat j))))
         span_turns in
  Some (<["span_id" := VStr (transcript_id ++ "_causal_span_" ++ pretty i)]>
       (<["text" := VStr span_text]>
       (<["start_turn_index" := VNum (inject_Z (start_index + i))]>
       (<["end_turn_index" := VNum (inject_Z (start_index + i + window_size - 1))]>
       (<["turn_ids" := VList turn_ids]>
       (<["speakers" := VList speakers]>
       (<["transcript_id" := VStr transcript_id]>
       (<["metadata" := VDict
            (<["window_size" := VNum (inject_Z window_size)]>
            (<["speaker_distribution" := VDict (speaker_distribution speaker_names)]> ∅))]>
        ∅)))))))).

(** [_create_spans_from_turns(turns, transcript_id, start_index, window_size)] *)
Definition create_spans_from_turns (turns : list pydict) (transcript_id : string)
    (start_index window_size : Z) : option (list pydict) :=
  mapM (make_span turns transcript_id start_index window_size)
       (range (Z.of_nat (length turns) - window_size + 1)).

Definition default_window_size : Z := 5.

(** The loop of [extract_causal_spans] that looks for the turn with the
    identifier [id]: the position of the first such turn. *)
Fixpoint find_turn (id : value) (i : nat) (turns : list value) : option (option nat) :=
  match turns with
  | [] => Some None
  | turn :: rest =>
      turn ← as_dict turn;
      if py_eq (dict_get turn "turn_id" VNone) id then Some (Some i)
      else find_turn id (S i) rest
  end.

(** The event turn index that [extract_causal_spans] works with, [VNone]
    when the event gives none. *)
Definition event_position (turns : value) (event : pydict) : option value :=
  match event !! "turn_index" with
  | Some index => Some index
  | None =>
      match event !! "turn_id" with
      | Some id =>
          turns ← as_iter turns;
          found ← find_turn id 0 turns;
          Some (from_option (fun i => VNum (num_of_nat i)) VNone found)
      | None => Some VNone
      end
  end.

(** [turns[start_index:end_index]] on the value under ['turns']: lists and
    strings can be sliced. *)
Definition slice_value (start_index end_index : Z) (turns : value) : option (list value) :=
  match turns with
  | VList _ | VStr _ => slice start_index end_index <$> as_iter turns
  | _ => None
  end.

(** [extract_causal_spans(transcript, event, window_before, window_after)].
    The call of [_create_spans_from_turns] reads every turn of a slice of
    five turns or more, and none of a shorter one.  The transcript
    identifier is taken as a string: the conversion of another value by the
    format string of the span identifier is not modelled. *)
Definition extract_causal_spans (transcript event : pydict)
    (window_before window_after : Z) : option (list pydict) :=
  let turns := dict_get transcript "turns" (VList []) in
  if negb (truthy turns) then Some []
  else
    event_turn_index ← event_position turns event;
    match event_turn_index with
    | VNone => Some []
    | _ =>
        event_turn_index ← as_num event_turn_index;
        all_turns ← as_iter turns;
        let start_index := py_max 0 (event_turn_index - inject_Z window_before) in
        let end_index := py_min (num_of_nat (length all_turns))
                                (event_turn_index + inject_Z window_after + 1) in
        start_index ← as_index start_index;
        end_index ← as_index end_index;
        causal_turns ← slice_value start_index end_index turns;
        if (length causal_turns <? Z.to_nat default_window_size)%nat then Some []
        else
          causal_turns ← mapM as_dict causal_turns;
          transcript_id ← as_str (dict_get transcript "transcript_id" (VStr "unknown"));
          create_spans_from_turns causal_turns transcript_id start_index default_window_size
    end.

(** [extract_event_specific_spans(transcript, event_type, window_before)] *)
Definition extract_event_specific_spans (transcript : pydict) (event_type : string)
    (window_before : Z) : option (list pydict) :=
  events ← as_iter (dict_get transcript "events" (VList []));
  events ← mapM as_dict events;
  relevant_events ←
    filter_opt (fun e : pydict =>
                  e_type ← as_str (dict_get e "event_type" (VStr ""));
                  Some (String.eqb (lower e_type) (lower event_type))) events;
  all_spans ←
    mapM (fun event => extract_causal_spans transcript event window_before 0)
         relevant_events;
  Some (concat all_spans).

(** The distance of a span to the event turn in
    [rank_spans_by_temporal_proximity]; the start of the span is only
    compared when its end does not precede the event. *)
Definition distance_to (event_turn_index : Q) (span : pydict) : option Q :=
  span_end ← as_num (dict_get span "end_turn_index" (VNum 0));
  if Qltb span_end event_turn_index then Some (event_turn_index - span_end)
  else
    span_start ← as_num (dict_get span "start_turn_index" (VNum 0));
    if Qltb event_turn_index span_start then Some (span_start - event_turn_index)
    else Some 0.

Definition distance_key (span : pydict) : option Q :=
  match span !! "temporal_distance" with
  | Some v => as_num v
  | None => None
  end.

(** [rank_spans_by_temporal_proximity(spans, event_turn_index)]; every
    element of [ranked] carries a [temporal_distance], so the default of the
    sort key is never used. *)
Definition rank_spans_by_temporal_proximity (spans : list pydict) (event_turn_index : Q)
    : option (list pydict) :=
  ranked ← mapM (fun span : pydict =>
                   distance ← distance_to event_turn_index span;
                   Some (<["temporal_distance" := VNum distance]> span)) spans;
  sort_by_key false distance_key ranked.

End SpanExtractor.

(** ** Causal pattern detector (causal_analysis/pattern_detector.py) *)

Module PatternDetector.

Definition causal_indicators : list (string * list string) :=
  [ ("temporal", ["before"; "after"; "then"; "next"; "previously"; "earlier"; "later"]);
    ("causal", ["because"; "due to"; "as a result"; "led to"; "caused"; "resulted in"]);
    ("conditional", ["if"; "when"; "unless"; "provided that"]);
    ("consequence", ["therefore"; "thus"; "hence"; "consequently"; "so"]) ].

Definition behavioral_patterns : list (string * list string) :=
  [ ("hesitation", ["um"; "uh"; "well"; "let me think"; "hmm"]);
    ("frustration", ["frustrated"; "annoyed"; "upset"; "disappointed"]);
    ("repetition", ["again"; "repeat"; "same"; "once more"]);
    ("escalation_signals", ["supervisor"; "manager"; "escalate"; "complaint"; "formal"]);
    ("refund_signals", ["refund"; "money back"; "return"; "cancel"; "chargeback"]);
    ("churn_signals", ["cancel"; "close account"; "switch"; "leave"; "terminate"]) ].

(** [self.causal_indicators[name]] *)
Definition indicators_of (name : string) : list string :=
  match List.find (fun kv => String.eqb (fst kv) name) causal_indicators with
  | Some kv => snd kv
  | None => []
  end.

(** [_count_indicators(text, indicators)] *)
Definition count_indicators (text : string) (indicators : list string) : nat :=
  foldl (fun count indicator => (count + count_word indicator text)%nat) 0%nat indicators.

(** [_get_event_specific_patterns(event_type)] *)
Definition get_event_specific_patterns (event_type : string) : list (string * list string) :=
  let event_type_lower := lower event_type in
  if str_contains "escalation" event_type_lower then
    [ ("escalation_triggers",
       ["not satisfied"; "unhappy"; "want to speak"; "need manager";
        "file complaint"; "not helping"; "waste of time"]) ]
  else if str_contains "refund" event_type_lower then
    [ ("refund_triggers",
       ["not working"; "defective"; "broken"; "not as described";
        "want money back"; "dissatisfied"; "poor quality"]) ]
  else if str_contains "churn" event_type_lower then
    [ ("churn_triggers",
       ["too expensive"; "better option"; "switching"; "leaving";
        "not worth it"; "found alternative"; "better deal"]) ]
  else [].

(** One round of the loops of [_detect_behavioral_patterns]: the flag and
    the count of one lexicon, stored under [prefix + pattern_name]. *)
Definition record_pattern (text prefix : string) (detected : pydict)
    (entry : string * list string) : pydict :=
  let count := count_indicators text (snd entry) in
  <[(prefix ++ fst entry ++ "_count")%string := VNum (num_of_nat count)]>
    (<[(prefix ++ fst entry)%string := VBool (0 <? count)%nat]> detected).

(** [_detect_behavioral_patterns(text, event_type)]; [if event_type:] holds
    for a string that is not empty. *)
Definition detect_behavioral_patterns (text : string) (event_type : option string) : pydict :=
  let detected := foldl (record_pattern text "") ∅ behavioral_patterns in
  match event_type with
  | Some (String c et) =>
      foldl (record_pattern text "event_") detected
            (get_event_specific_patterns (String c et))
  | _ => detected
  end.

Definition weights : list (string * Q) :=
  [ ("temporal_indicators", 0.2); ("causal_indicators", 0.4);
    ("conditional_indicators", 0.2); ("consequence_indicators", 0.2) ].

(** [isinstance(v, bool)] and [v] *)
Definition is_true_flag (v : value) : bool :=
  match v with
  | VBool true => true
  | _ => false
  end.

(** [_calculate_pattern_score(patterns)] *)
Definition calculate_pattern_score (patterns : pydict) : option Q :=
  score ← foldl (fun acc iw =>
                   score ← acc;
                   count ← as_num (dict_get patterns (fst iw) (VNum 0));
                   let normalized := Qmin (count / 5) 1 in
                   Some (score + snd iw * normalized))
                (Some 0) weights;
  behavioral ← as_dict (dict_get patterns "behavioral_patterns" (VDict ∅));
  let score :=
    if existsb (fun kv => is_true_flag (snd kv)) (map_to_list behavioral)
    then score + 0.2 else score in
  Some (Qmin score 1).

(** [detect_patterns(span, event_type)] *)
Definition detect_patterns (span : pydict) (event_type : option string) : option pydict :=
  text ← lower <$> as_str (dict_get span "text" (VStr ""));
  let count name := VNum (num_of_nat (count_indicators text (indicators_of name))) in
  let patterns : pydict :=
    <["temporal_indicators" := count "temporal"]>
    (<["causal_indicators" := count "causal"]>
    (<["conditional_indicators" := count "conditional"]>
    (<["consequence_indicators" := count "consequence"]>
    (<["behavioral_patterns" := VDict (detect_behavioral_patterns text event_type)]>
    (<["pattern_score" := VNum 0]> ∅))))) in
  pattern_score ← calculate_pattern_score patterns;
  Some (<["pattern_score" := VNum pattern_score]> patterns).

(** The score of a turn distance in [detect_temporal_patterns]. *)
Definition temporal_score_of (distance : Q) : Q :=
  if Qeq_bool distance 0 then 1 else 1 / (1 + distance / 10).

(** The relation of a span to the event and its turn distance. *)
Definition temporal_relation_of (span_start span_end event_turn_index : Q) : string * Q :=
  if Qltb span_end event_turn_index then ("precedes", event_turn_index - span_end)
  else if Qltb event_turn_index span_start then ("follows", span_start - event_turn_index)
  else ("overlaps", 0).

(** The body of the loop of [detect_temporal_patterns]. *)
Definition annotate_temporal (event_turn_index : Q) (span : pydict) : option pydict :=
  span_start ← as_num (dict_get span "start_turn_index" (VNum 0));
  span_end ← as_num (dict_get span "end_turn_index" (VNum 0));
  let relation := temporal_relation_of span_start span_end event_turn_index in
  let distance := snd relation in
  Some (<["temporal_score" := VNum (temporal_score_of distance)]>
       (<["temporal_distance" := VNum distance]>
       (<["temporal_relation" := VStr (fst relation)]> span))).

(** [detect_temporal_patterns(spans, event_turn_index)] *)
Definition detect_temporal_patterns (spans : list pydict) (event_turn_index : Q)
    : option (list pydict) :=
  mapM (annotate_temporal event_turn_index) spans.

(** [_is_sequential(span1, span2)] *)
Definition is_sequential (span1 span2 : pydict) : option bool :=
  end1 ← as_num (dict_get span1 "end_turn_index" (VNum 0));
  start2 ← as_num (dict_get span2 "start_turn_index" (VNum 0));
  Some (Qle_bool (Qabs (start2 - end1)) 2).

(** One neighbour check of the loop of [detect_sequential_patterns]:
    the increment of [sequential_indicators]. *)
Definition neighbour_count (guard : bool) (first second : option pydict) : option nat :=
  if guard then
    span1 ← first; span2 ← second;
    sequential ← is_sequential span1 span2;
    Some (Nat.b2n sequential)
  else Some 0%nat.

(** The body of the loop of [detect_sequential_patterns] at index [i]. *)
Definition annotate_sequential (sorted_spans : list pydict) (i : nat) : option pydict :=
  span ← sorted_spans !! i;
  with_prev ← neighbour_count (0 <? i)%nat (sorted_spans !! (i - 1)%nat) (Some span);
  with_next ← neighbour_count (i <? length sorted_spans - 1)%nat
                              (Some span) (sorted_spans !! (i + 1)%nat);
  let sequential_indicators := num_of_nat (with_prev + with_next) in
  Some (<["sequential_score" := VNum (Qmin (sequential_indicators / 2) 1)]>
       (<["sequential_indicators" := VNum sequential_indicators]> span)).

Definition start_key (span : pydict) : option Q :=
  as_num (dict_get span "start_turn_index" (VNum 0)).

(** [detect_sequential_patterns(spans)] *)
Definition detect_sequential_patterns (spans : list pydict) : option (list pydict) :=
  if (length spans <? 2)%nat then Some spans
  else
    sorted_spans ← sort_by_key false start_key spans;
    mapM (annotate_sequential sorted_spans) (seq 0 (length sorted_spans)).

End PatternDetector.

(** ** Evidence scorer (causal_analysis/evidence_scorer.py) *)

Module EvidenceScorer.

Record t : Type := {
  relevance_weight : Q;
  temporal_weight : Q;
  pattern_weight : Q;
  similarity_weight : Q
}.

(** [EvidenceScorer()] *)
Definition default : t :=
  {| relevance_weight := 0.4; temporal_weight := 0.3;
     pattern_weight := 0.2; similarity_weight := 0.1 |}.

(** The body of the loop of [score_evidence]. *)
Definition score_span (self : t) (span : pydict) : option pydict :=
  relevance_score ←
    as_num (dict_get span "relevance_score" (dict_get span "combined_score" (VNum 0)));
  similarity_score ← as_num (dict_get span "similarity_score" (VNum 0));
  pattern_score ← as_num (dict_get span "pattern_score" (VNum 0));
  temporal_score ← as_num (dict_get span "temporal_score" (VNum 0.5));
  let evidence_score :=
    relevance_weight self * relevance_score +
    temporal_weight self * temporal_score +
    pattern_weight self * pattern_score +
    similarity_weight self * similarity_score in
  Some (<["evidence_components" := VDict
            (<["relevance" := VNum relevance_score]>
            (<["temporal" := VNum temporal_score]>
            (<["pattern" := VNum pattern_score]>
            (<["similarity" := VNum similarity_score]> ∅))))]>
       (<["evidence_score" := VNum evidence_score]> span)).

(** The weighted sum of [score_evidence] in binary64 arithmetic, under the
    default weights and in the order in which Python evaluates it. *)
Definition evidence_score_binary64 (relevance temporal pattern similarity : float) : float :=
  (0.4 * relevance + 0.3 * temporal + 0.2 * pattern + 0.1 * similarity)%float.

Definition evidence_key (span : pydict) : option Q :=
  as_num (dict_get span "evidence_score" (VNum 0)).

(** [score_evidence(spans, query, event_type, event_turn_index)] *)
Definition score_evidence (self : t) (spans : list pydict) (query : string)
    (event_type : option string) (event_turn_index : option Q) : option (list pydict) :=
  scored_spans ← mapM (score_span self) spans;
  sort_by_key true evidence_key scored_spans.

(** [rank_evidence(spans, top_k)] *)
Definition rank_evidence (self : t) (spans : list pydict) (top_k : option Z)
    : option (list pydict) :=
  spans ← (if forallb (fun span : pydict => bool_decide (is_Some (span !! "evidence_score"))) spans
           then Some spans
           else score_evidence self spans "" None None);
  ranked ← sort_by_key true evidence_key spans;
  match top_k with
  | Some k => Some (slice_to k ranked)
  | None => Some ranked
  end.

(** [filter_evidence(spans, min_score, max_spans)] *)
Definition filter_evidence (spans : list pydict) (min_score : Q) (max_spans : option Z)
    : option (list pydict) :=
  filtered ← filter_opt (fun span => score ← evidence_key span;
                                     Some (Qle_bool min_score score)) spans;
  match max_spans with
  | Some k => Some (slice_to k filtered)
  | None => Some filtered
  end.

(** The dictionary that [aggregate_evidence] returns.  [turn_ids],
    [speakers] and [transcript_ids] are lists made from sets, in an order
    that Python leaves open: they are kept as sets. *)
Record Aggregate : Type := {
  text : string;
  spans : list pydict;
  turn_ids : gset atom;
  speakers : gset atom;
  transcript_ids : gset atom;
  num_spans : nat;
  avg_evidence_score : Q;
  metadata : pydict
}.

(** [span.get('transcript_id') or span.get('metadata', {}).get('transcript_id')] *)
Definition transcript_id_of (span : pydict) : option value :=
  let transcript_id := dict_get span "transcript_id" VNone in
  if truthy transcript_id then Some transcript_id
  else
    metadata ← as_dict (dict_get span "metadata" (VDict ∅));
    Some (dict_get metadata "transcript_id" VNone).

(** [np.mean(scores)] on a list of numbers that is not empty *)
Definition mean (scores : list Q) : Q :=
  foldr Qplus 0 scores / num_of_nat (length scores).

(** [aggregate_evidence(spans, max_spans)] *)
Definition aggregate_evidence (spans : list pydict) (max_spans : Z) : option Aggregate :=
  let top_spans := slice_to max_spans spans in
  texts ← mapM (fun span => as_str (dict_get span "text" (VStr ""))) top_spans;
  all_turn_ids ← mapM (fun span => as_iter (dict_get span "turn_ids" (VList []))) top_spans;
  all_speakers ← mapM (fun span => as_iter (dict_get span "speakers" (VList []))) top_spans;
  transcript_ids ← mapM transcript_id_of top_spans;
  turn_ids ← py_set (concat all_turn_ids);
  speakers ← py_set (concat all_speakers);
  transcript_ids ← py_set (filter (fun v => truthy v) transcript_ids);
  scores ← mapM evidence_key top_spans;
  let avg_evidence_score :=
    match top_spans with
    | [] => 0
    | _ => mean scores
    end in
  Some {| text := join " " texts;
          spans := top_spans;
          turn_ids := turn_ids;
          speakers := speakers;
          transcript_ids := transcript_ids;
          num_spans := length top_spans;
          avg_evidence_score := avg_evidence_score;
          metadata := <["aggregation_method" := VStr "top_k"]>
                      (<["max_spans" := VNum (inject_Z max_spans)]> ∅) |}.

End EvidenceScorer.

(** ** Causal analyzer (causal_analysis/causal_analyzer.py) *)

Module CausalAnalyzer.

(** [analyze_causal_spans(spans, query, event_type, event_turn_index, top_k)];
    [span_copy.update(patterns)] lets the keys of [patterns] win. *)
Definition analyze_causal_spans (scorer : EvidenceScorer.t) (spans : list pydict)
    (query : string) (event_type : option string) (event_turn_index : option Q)
    (top_k : Z) : option (list pydict) :=
  analyzed_spans ←
    mapM (fun span : pydict =>
            patterns ← PatternDetector.detect_patterns span event_type;
            Some (patterns ∪ span)) spans;
  analyzed_spans ←
    match event_turn_index with
    | Some e => PatternDetector.detect_temporal_patterns analyzed_spans e
    | None => Some analyzed_spans
    end;
  analyzed_spans ← PatternDetector.detect_sequential_patterns analyzed_spans;
  scored_spans ← EvidenceScorer.score_evidence scorer analyzed_spans query
                   event_type event_turn_index;
  EvidenceScorer.rank_evidence scorer scored_spans (Some top_k).

(** [a or b] *)
Definition py_or (a b : value) : value := if truthy a then a else b.

(** [analyze_causal_spans] called with an event type and an event turn
    index that were read from a dictionary.  With no span nothing reads
    them.  Otherwise an event type is used when it is true: then it has to
    be a string; and an event turn index other than [None] is compared with
    the turn indices of the spans: it has to be a number. *)
Definition analyze_causal_spans_with (scorer : EvidenceScorer.t) (spans : list pydict)
    (query : string) (event_type event_turn_index : value) (top_k : Z)
    : option (list pydict) :=
  match spans with
  | [] => Some []
  | _ =>
      event_type ← match event_type with
                   | VStr s => Some (Some s)
                   | v => if truthy v then None else Some None
                   end;
      event_turn_index ← match event_turn_index with
                         | VNone => Some None
                         | v => Some <$> as_num v
                         end;
      analyze_causal_spans scorer spans query event_type event_turn_index top_k
  end.

(** The dictionary that [extract_causal_rationale] returns, the entries of
    its ['rationale'] last. *)
Record Rationale : Type := {
  event : pydict;
  query : string;
  causal_spans : list pydict;
  aggregated_evidence : EvidenceScorer.Aggregate;
  top_spans : list pydict;
  num_spans : nat;
  avg_evidence_score : Q
}.

(** [extract_causal_rationale(transcript, event, query, top_k)] *)
Definition extract_causal_rationale (scorer : EvidenceScorer.t) (transcript event : pydict)
    (query : string) (top_k : Z) : option Rationale :=
  let event_type := dict_get event "event_type" (VStr "") in
  let event_turn_index :=
    py_or (dict_get event "turn_index" VNone) (dict_get event "turn_id" VNone) in
  causal_spans ← SpanExtractor.extract_causal_spans transcript event 10 5;
  analyzed_spans ←
    analyze_causal_spans_with scorer causal_spans query event_type event_turn_index top_k;
  aggregated ← EvidenceScorer.aggregate_evidence analyzed_spans top_k;
  Some {| event := event;
          query := query;
          causal_spans := analyzed_spans;
          aggregated_evidence := aggregated;
          top_spans := slice_to top_k analyzed_spans;
          num_spans := length analyzed_spans;
          avg_evidence_score := EvidenceScorer.avg_evidence_score aggregated |}.

(** The dictionary that [analyze_event_patterns] returns, the entries of
    its ['pattern_analysis'] last. *)
Record PatternAnalysis : Type := {
  pa_event_type : string;
  pa_query : string;
  pa_causal_spans : list pydict;
  pa_aggregated_evidence : EvidenceScorer.Aggregate;
  pa_num_events : nat;
  pa_num_spans : nat;
  pa_avg_evidence_score : Q
}.

(** [e.get('event_type') == event_type] *)
Definition has_event_type (event_type : string) (e : pydict) : bool :=
  py_eq (dict_get e "event_type" VNone) (VStr event_type).

(** [analyze_event_patterns(transcript, event_type, query, top_k)] *)
Definition analyze_event_patterns (scorer : EvidenceScorer.t) (transcript : pydict)
    (event_type query : string) (top_k : Z) : option PatternAnalysis :=
  event_spans ← SpanExtractor.extract_event_specific_spans transcript event_type 10;
  analyzed_spans ←
    analyze_causal_spans scorer event_spans query (Some event_type) None top_k;
  aggregated ← EvidenceScorer.aggregate_evidence analyzed_spans top_k;
  events ← as_iter (dict_get transcript "events" (VList []));
  events ← mapM as_dict events;
  Some {| pa_event_type := event_type;
          pa_query := query;
          pa_causal_spans := analyzed_spans;
          pa_aggregated_evidence := aggregated;
          pa_num_events := length (List.filter (has_event_type event_type) events);
          pa_num_spans := length analyzed_spans;
          pa_avg_evidence_score := EvidenceScorer.avg_evidence_score aggregated |}.

End CausalAnalyzer.

(** ** Stateful code: the world, exceptions and the collaborators *)

Inductive exn : Type :=
| PyError                        (* an exception raised by the pipeline itself *)
| ServiceError (service : string) (* a failure or timeout of an external call *).

Inductive outcome (A : Type) : Type :=
| Returned (a : A)
| Raised (e : exn).
Arguments Returned {A} a.
Arguments Raised {A} e.

(** ** Conversation context manager (conversation_manager/context_manager.py) *)

Module ContextManager.

Record ConversationTurn : Type := {
  turn_id : string;
  query : string;
  response : string;
  timestamp : Z;
  metadata : pydict
}.

Record ConversationContext : Type := {
  conversation_id : string;
  turns : list ConversationTurn;
  created_at : Z;
  updated_at : Z;
  context_metadata : pydict
}.

(** The state of the process: the [conversations] of the context manager and
    the number of values already drawn from [uuid.uuid4] and
    [datetime.now]. *)
Record World : Type := {
  conversations : gmap string ConversationContext;
  clock : nat
}.

(** The sources of identifiers and of time. *)
Record Platform : Type := {
  uuid4 : nat -> string;
  now : nat -> Z
}.

Definition M (A : Type) : Type := World -> outcome A * World.

#[global] Instance M_ret : MRet M := fun A a w => (Returned a, w).

#[global] Instance M_bind : MBind M := fun A B f m w =>
  match m w with
  | (Returned a, w') => f a w'
  | (Raised e, w') => (Raised e, w')
  end.

(** A pure computation inside stateful code. *)
Definition lift {A} (o : option A) : M A := fun w =>
  (match o with Some a => Returned a | None => Raised PyError end, w).

(** A call of a collaborator. *)
Definition call {A} (r : outcome A) : M A := fun w => (r, w).

Definition get_conversations : M (gmap string ConversationContext) :=
  fun w => (Returned (conversations w), w).

(** [self.conversations[cid] = c]; also the effect of mutating in place the
    conversation object stored under [cid]. *)
Definition put_conversation (cid : string) (c : ConversationContext) : M unit := fun w =>
  (Returned tt, {| conversations := <[cid := c]> (conversations w);
                   clock := clock w |}).

Definition tick {A} (source : nat -> A) : M A := fun w =>
  (Returned (source (clock w)),
   {| conversations := conversations w; clock := S (clock w) |}).

(** [ConversationContext.get_recent_turns(n)] *)
Definition get_recent_turns (c : ConversationContext) (n : Z) : list ConversationTurn :=
  if (n <? Z.of_nat (length (turns c)))%Z then slice_from (- n) (turns c) else turns c.

Definition newline : string := String (ascii_of_nat 10) EmptyString.

(** [ConversationContext.get_context_summary()] *)
Definition context_summary_of (c : ConversationContext) : string :=
  match turns c with
  | [] => ""
  | _ =>
      join newline
        (flat_map (fun turn => [ ("Q: " ++ query turn)%string;
                                 ("A: " ++ str_take 200 (response turn) ++ "...")%string ])
                  (get_recent_turns c 3))
  end.

(** [get_or_create_conversation(conversation_id)] *)
Definition get_or_create_conversation (pf : Platform) (conversation_id : option string)
    : M ConversationContext :=
  cid ← match conversation_id with
        | Some cid => mret cid
        | None => tick (uuid4 pf)
        end;
  convs ← get_conversations;
  match convs !! cid with
  | Some c => mret c
  | None =>
      created ← tick (now pf);
      updated ← tick (now pf);
      let c := {| conversation_id := cid; turns := []; created_at := created;
                  updated_at := updated; context_metadata := ∅ |} in
      _ ← put_conversation cid c;
      mret c
  end.

(** [ContextManager.add_turn], with [ConversationContext.add_turn] inlined. *)
Definition add_turn (pf : Platform) (cid query response : string) (metadata : pydict)
    : M unit :=
  conversation ← get_or_create_conversation pf (Some cid);
  id ← tick (uuid4 pf);
  stamp ← tick (now pf);
  let turn := {| turn_id := id; query := query; response := response;
                 timestamp := stamp; metadata := metadata |} in
  updated ← tick (now pf);
  put_conversation cid
                   {| conversation_id := conversation_id conversation;
                      turns := turns conversation ++ [turn];
                      created_at := created_at conversation;
                      updated_at := updated;
                      context_metadata := context_metadata conversation |}.

(** [get_context(conversation_id)] *)
Definition get_context (cid : string) : M (option ConversationContext) :=
  convs ← get_conversations; mret (convs !! cid).

(** [ContextManager.get_context_summary(conversation_id)] *)
Definition get_context_summary (pf : Platform) (cid : string) : M string :=
  conversation ← get_or_create_conversation pf (Some cid);
  mret (context_summary_of conversation).

Definition followup_indicators : list string :=
  [ "also"; "additionally"; "furthermore"; "moreover";
    "what about"; "how about"; "tell me more"; "can you";
    "what else"; "another"; "other"; "different";
    "it"; "that"; "this"; "these"; "those"; "they" ].

Definition pronouns : list string :=
  [ "it"; "that"; "this"; "these"; "those"; "they"; "them" ].

(** The decision of [is_followup] once the conversation is known to have
    prior turns. *)
Definition looks_like_followup (query : string) : bool :=
  let query_lower := lower query in
  if existsb (fun indicator => str_contains indicator query_lower) followup_indicators
  then true
  else
    let query_words := split query_lower in
    if existsb (fun word => existsb (String.eqb word) pronouns) query_words then true
    else if (length (split query) <? 5)%nat then true
    else false.

(** [is_followup(query, conversation_id)], on the conversations of the
    manager. *)
Definition is_followup_in (convs : gmap string ConversationContext)
    (query cid : string) : bool :=
  match convs !! cid with
  | None => false
  | Some conversation =>
      match turns conversation with
      | [] => false
      | _ => looks_like_followup query
      end
  end.

Definition is_followup (query cid : string) : M bool :=
  convs ← get_conversations; mret (is_followup_in convs query cid).

(** The turn log of a conversation, empty for an unknown identifier. *)
Definition turn_log (w : World) (cid : string) : list ConversationTurn :=
  match conversations w !! cid with
  | Some c => turns c
  | None => []
  end.

(** [clear_conversation(conversation_id)] *)
Definition clear_conversation (cid : string) : M unit := fun w =>
  (Returned tt,
   match conversations w !! cid with
   | Some _ => {| conversations := delete cid (conversations w); clock := clock w |}
   | None => w
   end).

End ContextManager.

(** ** The collaborators of the orchestrator

    Retrieval, query parsing and the language model are consumed through
    their contracts: each call either returns or raises, and none of them
    holds a reference to the context manager. *)

Record Explanation : Type := {
  explanation : string;
  citations : list pydict
}.

Record Collaborators : Type := {
  platform : ContextManager.Platform;
  scorer : EvidenceScorer.t;
  (* [QueryParser.parse_query(query)] *)
  parse_query : string -> outcome pydict;
  (* [RetrievalPipeline.retrieve(query, top_k, rerank_top_k)] *)
  retrieve : string -> Z -> Z -> outcome (list pydict);
  (* [RetrievalPipeline.retrieve_with_context(query, context, top_k, rerank_top_k)] *)
  retrieve_with_context : string -> list pydict -> Z -> Z -> outcome (list pydict);
  (* [LLMGenerator.generate_with_citations(query, evidence, context)] *)
  generate_with_citations : string -> list pydict -> option string -> outcome Explanation;
  (* the text post-processing of [ExplanationGenerator], pure and total *)
  extract_summary : string -> string;
  extract_key_factors : string -> list string;
  extract_causal_mechanisms : string -> list string
}.

(** [parsed_query.get('event_type')], an optional string by the contract of
    the parser. *)
Definition parsed_event_type (parsed_query : pydict) : option string :=
  match parsed_query !! "event_type" with
  | Some (VStr s) => Some s
  | _ => None
  end.

(** [v[:n]] on a value *)
Definition value_take (n : nat) (v : value) : option value :=
  match v with
  | VStr s => Some (VStr (str_take n s))
  | VList l => Some (VList (take n l))
  | _ => None
  end.

(** One entry of [formatted_evidence] in the two [format_response]s, without
    its [metadata] key. *)
Definition format_evidence_entry (i : nat) (span : pydict) : option pydict :=
  text ← value_take 500 (dict_get span "text" (VStr ""));
  metadata ← as_dict (dict_get span "metadata" (VDict ∅));
  Some (<["evidence_id" := VNum (num_of_nat i)]>
       (<["span_id" := dict_get span "span_id" (VStr ("evidence_" ++ pretty i))]>
       (<["text" := text]>
       (<["transcript_id" := dict_get metadata "transcript_id" (VStr "unknown")]>
       (<["turn_ids" := dict_get span "turn_ids" (VList [])]>
       (<["evidence_score" := dict_get span "evidence_score" (VNum 0)]> ∅)))))).

(** ** Follow-up processor (conversation_manager/followup_processor.py) *)

Module FollowUpProcessor.
Import ContextManager.

Record Result : Type := {
  r_query : string;
  r_enhanced_query : string;
  r_is_followup : bool;
  r_parsed_query : pydict;
  r_explanation : string;
  r_evidence : list pydict;
  r_citations : list pydict;
  r_evidence_count : nat;
  r_context_used : bool;
  r_context_turns : nat
}.

(** [_enhance_query_with_context(query, context)] *)
Definition enhance_query_with_context (query : string) (context : list pydict)
    : option string :=
  match context with
  | [] => Some query
  | _ =>
      let context_queries := (fun item => dict_get item "query" (VStr "")) <$> context in
      context_responses ←
        mapM (fun item => value_take 200 (dict_get item "response" (VStr ""))) context;
      enhanced_parts ←
        match context_queries with
        | [] => Some []
        | _ =>
            previous ← mapM as_str (slice_from (-2) context_queries);
            Some [ ("Previous queries: " ++ join "; " previous)%string ]
        end;
      let enhanced_parts := enhanced_parts ++ [ ("Current query: " ++ query)%string ] in
      Some (join ". " enhanced_parts)
  end.

(** The context item built from a recorded turn. *)
Definition context_item (turn : ConversationTurn) : pydict :=
  <["query" := VStr (query turn)]>
  (<["response" := VStr (response turn)]>
  (<["metadata" := VDict (metadata turn)]> ∅)).

(** The metadata of the turn that [process_followup] records. *)
Definition turn_metadata (is_followup : bool) (evidence_count : nat)
    (enhanced_query : string) : pydict :=
  <["is_followup" := VBool is_followup]>
  (<["evidence_count" := VNum (num_of_nat evidence_count)]>
  (<["enhanced_query" := VStr enhanced_query]> ∅)).

(** [process_followup(query, conversation_id, context)] *)
Definition process_followup (cs : Collaborators) (query cid : string)
    (context : option (list pydict)) : M Result :=
  context ← match context with
            | Some context => mret context
            | None =>
                conversation ← get_context cid;
                match conversation with
                | Some c => mret (context_item <$> get_recent_turns c 3)
                | None => mret []
                end
            end;
  is_followup ← is_followup query cid;
  enhanced_query ← lift (enhance_query_with_context query context);
  parsed_query ← call (parse_query cs enhanced_query);
  retrieved_spans ← call (retrieve_with_context cs enhanced_query context 20 10);
  analyzed_spans ←
    lift (CausalAnalyzer.analyze_causal_spans (scorer cs) retrieved_spans enhanced_query
            (parsed_event_type parsed_query) None 10);
  context_summary ← get_context_summary (platform cs) cid;
  explanation_result ←
    call (generate_with_citations cs enhanced_query analyzed_spans (Some context_summary));
  let response :=
    {| r_query := query;
       r_enhanced_query := enhanced_query;
       r_is_followup := is_followup;
       r_parsed_query := parsed_query;
       r_explanation := explanation explanation_result;
       r_evidence := analyzed_spans;
       r_citations := citations explanation_result;
       r_evidence_count := length analyzed_spans;
       r_context_used := (0 <? length context)%nat;
       r_context_turns := length context |} in
  _ ← add_turn (platform cs) cid query (explanation explanation_result)
        (turn_metadata is_followup (length analyzed_spans) enhanced_query);
  mret response.

(** [format_response(result)] *)
Definition format_response (result : Result) : option pydict :=
  formatted_evidence ←
    mapM (fun ispan => format_evidence_entry (S (fst ispan)) (snd ispan))
         (imap (fun i span => (i, span)) (slice_to 10 (r_evidence result)));
  Some (<["response" := VStr (r_explanation result)]>
       (<["evidence" := VList (VDict <$> formatted_evidence)]>
       (<["citations" := VList (VDict <$> r_citations result)]>
       (<["metadata" := VDict
            (<["query" := VStr (r_query result)]>
            (<["enhanced_query" := VStr (r_enhanced_query result)]>
            (<["is_followup" := VBool (r_is_followup result)]>
            (<["event_type" := dict_get (r_parsed_query result) "event_type" VNone]>
            (<["context_used" := VBool (r_context_used result)]>
            (<["context_turns" := VNum (num_of_nat (r_context_turns result))]>
            (<["evidence_count" := VNum (num_of_nat (r_evidence_count result))]> ∅)))))))]>
        ∅)))).

End FollowUpProcessor.

(** ** Explanation generator (explanation_generation/explanation_generator.py) *)

Module ExplanationGenerator.
Import ContextManager.

(** An optional event type as a value. *)
Definition event_type_value (event_type : option string) : value :=
  match event_type with
  | Some s => VStr s
  | None => VNone
  end.

(** [generate_explanation(query, top_k, event_type)] *)
Definition generate_explanation (cs : Collaborators) (query : string) (top_k : Z)
    (event_type : option string) : M pydict :=
  retrieved_spans ← call (retrieve cs query 20 top_k);
  analyzed_spans ←
    lift (CausalAnalyzer.analyze_causal_spans (scorer cs) retrieved_spans query
            event_type None top_k);
  explanation_result ← call (generate_with_citations cs query analyzed_spans None);
  mret (<["query" := VStr query]>
       (<["explanation" := VStr (explanation explanation_result)]>
       (<["evidence" := VList (VDict <$> analyzed_spans)]>
       (<["citations" := VList (VDict <$> citations explanation_result)]>
       (<["evidence_count" := VNum (num_of_nat (length analyzed_spans))]>
       (<["metadata" := VDict
            (<["top_k" := VNum (inject_Z top_k)]>
            (<["event_type" := event_type_value event_type]> ∅))]> ∅)))))).

(** [generate_structured_explanation(query, top_k, event_type)]; the
    dictionary it returns has the key [full_explanation] and no key
    [explanation]. *)
Definition generate_structured_explanation (cs : Collaborators) (query : string)
    (top_k : Z) (event_type : option string) : M pydict :=
  result ← generate_explanation cs query top_k event_type;
  summary ← lift (extract_summary cs <$> (subscript result "explanation" ≫= as_str));
  key_factors ←
    lift (extract_key_factors cs <$> (subscript result "explanation" ≫= as_str));
  causal_mechanisms ←
    lift (extract_causal_mechanisms cs <$> (subscript result "explanation" ≫= as_str));
  evidence ← lift (subscript result "evidence");
  citations ← lift (subscript result "citations");
  evidence_count ← lift (subscript result "evidence_count");
  full_explanation ← lift (subscript result "explanation");
  mret (<["query" := VStr query]>
       (<["summary" := VStr summary]>
       (<["key_factors" := VList (VStr <$> key_factors)]>
       (<["causal_mechanisms" := VList (VStr <$> causal_mechanisms)]>
       (<["evidence" := evidence]>
       (<["citations" := citations]>
       (<["evidence_count" := evidence_count]>
       (<["full_explanation" := full_explanation]> ∅)))))))).

End ExplanationGenerator.

(** ** Initial-query processor (query_processing/task1_processor.py) *)

Module Task1Processor.
Import ContextManager.

(** [process_query(query)]: the response is built from the keys of the
    structured explanation, [explanation] first. *)
Definition process_query (cs : Collaborators) (query : string) : M pydict :=
  parsed_query ← call (parse_query cs query);
  explanation_result ←
    ExplanationGenerator.generate_structured_explanation cs query 10
      (parsed_event_type parsed_query);
  explanation ← lift (subscript explanation_result "explanation");
  summary ← lift (subscript explanation_result "summary");
  key_factors ← lift (subscript explanation_result "key_factors");
  causal_mechanisms ← lift (subscript explanation_result "causal_mechanisms");
  evidence ← lift (subscript explanation_result "evidence");
  citations ← lift (subscript explanation_result "citations");
  evidence_count ← lift (subscript explanation_result "evidence_count");
  full_explanation ← lift (subscript explanation_result "full_explanation");
  mret (<["query" := VStr query]>
       (<["parsed_query" := VDict parsed_query]>
       (<["explanation" := explanation]>
       (<["summary" := summary]>
       (<["key_factors" := key_factors]>
       (<["causal_mechanisms" := causal_mechanisms]>
       (<["evidence" := evidence]>
       (<["citations" := citations]>
       (<["evidence_count" := evidence_count]>
       (<["full_explanation" := full_explanation]> ∅)))))))))).

Definition format_evidence_entry (i : nat) (span : pydict) : option pydict :=
  entry ← format_evidence_entry i span;
  Some (<["metadata" := VDict
            (<["speakers" := dict_get span "speakers" (VList [])]>
            (<["temporal_relation" := dict_get span "temporal_relation" (VStr "unknown")]>
            (<["pattern_score" := dict_get span "pattern_score" (VNum 0)]> ∅)))]> entry).

(** [format_response(result)] *)
Definition format_response (result : pydict) : option pydict :=
  evidence ← subscript result "evidence";
  evidence ← value_take 10 evidence;
  evidence ← as_iter evidence;
  spans ← mapM as_dict evidence;
  formatted_evidence ←
    mapM (fun ispan => format_evidence_entry (S (fst ispan)) (snd ispan))
         (imap (fun i span => (i, span)) spans);
  response ← subscript result "full_explanation";
  summary ← subscript result "summary";
  key_factors ← subscript result "key_factors";
  causal_mechanisms ← subscript result "causal_mechanisms";
  citations ← subscript result "citations";
  query ← subscript result "query";
  parsed_query ← subscript result "parsed_query" ≫= as_dict;
  evidence_count ← subscript result "evidence_count";
  Some (<["response" := response]>
       (<["summary" := summary]>
       (<["key_factors" := key_factors]>
       (<["causal_mechanisms" := causal_mechanisms]>
       (<["evidence" := VList (VDict <$> formatted_evidence)]>
       (<["citations" := citations]>
       (<["metadata" := VDict
            (<["query" := query]>
            (<["event_type" := dict_get parsed_query "event_type" VNone]>
            (<["intent" := dict_get parsed_query "intent" VNone]>
            (<["evidence_count" := evidence_count]> ∅))))]> ∅))))))).

End Task1Processor.

(** ** Orchestrator (query_processing/task2_processor.py) *)

Module Task2Processor.
Import ContextManager.

(** The metadata of the turn that the initial path records. *)
Definition turn_metadata (event_type evidence_count : value) : pydict :=
  <["is_followup" := VBool false]>
  (<["event_type" := event_type]>
  (<["evidence_count" := evidence_count]> ∅)).

(** [context or self.context_manager.get_context(conversation_id)] *)
Definition has_context (context : option (list pydict))
    (conversation : option ConversationContext) : bool :=
  match context with
  | Some (_ :: _) => true
  | _ => bool_decide (is_Some conversation)
  end.

(** [process_query(query, conversation_id, context)]; the response stored in
    a turn is a string. *)
Definition process_query (cs : Collaborators) (query : string)
    (conversation_id : option string) (context : option (list pydict)) : M pydict :=
  cid ← match conversation_id with
        | Some cid => mret cid
        | None =>
            c ← get_or_create_conversation (platform cs) None;
            mret (ContextManager.conversation_id c)
        end;
  is_followup ← is_followup query cid;
  conversation ← get_context cid;
  if is_followup && has_context context conversation then
    result ← FollowUpProcessor.process_followup cs query cid context;
    lift (FollowUpProcessor.format_response result)
  else
    result ← Task1Processor.process_query cs query;
    formatted ← lift (Task1Processor.format_response result);
    response ← lift (subscript formatted "response" ≫= as_str);
    parsed_query ← lift (subscript result "parsed_query" ≫= as_dict);
    evidence_count ← lift (subscript result "evidence_count");
    _ ← add_turn (platform cs) cid query response
          (turn_metadata (dict_get parsed_query "event_type" VNone) evidence_count);
    metadata ← lift (subscript formatted "metadata" ≫= as_dict);
    mret (<["metadata" := VDict
              (<["is_followup" := VBool false]>
              (<["conversation_id" := VStr cid]> metadata))]> formatted).

End Task2Processor.

(** ** Query parser (query_processing/query_parser.py) *)

Module QueryParser.

Definition event_types : list string :=
  [ "escalation"; "refund"; "churn"; "complaint"; "satisfaction" ].

(** [_extract_event_type(query_lower)] *)
Definition extract_event_type (query_lower : string) : option string :=
  match List.find (fun event_type => str_contains event_type query_lower) event_types with
  | Some event_type => Some event_type
  | None =>
      if str_contains "escalat" query_lower then Some "escalation"%string
      else if str_contains "refund" query_lower then Some "refund"%string
      else if str_contains "churn" query_lower || str_contains "cancel" query_lower
      then Some "churn"%string
      else if str_contains "complain" query_lower then Some "complaint"%string
      else None
  end.

End QueryParser.

(** ** Citations (explanation_generation/llm_generator.py) *)

Module LLMGenerator.

(** The class [\d] on one character. *)
Definition is_digit (c : ascii) : bool := in_range 48 57 (code c).

(** [s] starts with the lower-case literal [lit], letter case apart: what
    is left of [s] after it. *)
Fixpoint skip_literal (lit s : string) : option string :=
  match lit, s with
  | EmptyString, _ => Some s
  | String a lit', String c s' =>
      if Ascii.eqb (char_lower c) a then skip_literal lit' s' else None
  | String _ _, EmptyString => None
  end.

(** The longest run of characters of a class at the start of [s], and what
    is left of [s] after it. *)
Fixpoint run (class : ascii -> bool) (s : string) : list ascii * string :=
  match s with
  | String c s' =>
      if class c then let r := run class s' in (c :: fst r, snd r) else ([], s)
  | EmptyString => ([], s)
  end.

(** [int(digits)] *)
Definition number_of (digits : list ascii) : Z :=
  foldl (fun n c => (10 * n + (Z.of_N (code c) - 48))%Z) 0%Z digits.

(** A match of [\[Evidence\s+(\d+)\]], letter case apart, at the start of
    [s]: the number in the group and the length of the match.  The runs of
    [\s+] and [\d+] are the longest ones: a shorter run is followed by a
    character of the same class, on which the rest of the pattern fails. *)
Definition match_citation (s : string) : option (Z * nat) :=
  match s with
  | String "["%char rest =>
      rest ← skip_literal "evidence" rest;
      let spaces := run is_space rest in
      let digits := run is_digit (snd spaces) in
      match fst spaces, fst digits, snd digits with
      | _ :: _, _ :: _, String "]"%char _ =>
          Some (number_of (fst digits),
                (1 + 8 + length (fst spaces) + length (fst digits) + 1)%nat)
      | _, _, _ => None
      end
  | _ => None
  end.

(** The numbers of [re.finditer(pattern, s)]: the matches are taken from
    left to right and do not overlap; [skip] counts the characters of the
    last match still to be passed. *)
Fixpoint find_citations (skip : nat) (s : string) : list Z :=
  match s with
  | EmptyString => []
  | String _ s' =>
      match skip with
      | S k => find_citations k s'
      | O =>
          match match_citation s with
          | Some (evidence_num, len) => evidence_num :: find_citations (len - 1) s'
          | None => find_citations 0 s'
          end
      end
  end.

(** The citation of the evidence numbered [evidence_num], a number from 1
    to [len(evidence)]. *)
Definition citation (evidence : list pydict) (evidence_num : Z) : option pydict :=
  span ← evidence !! Z.to_nat (evidence_num - 1);
  text ← value_take 200 (dict_get span "text" (VStr ""));
  metadata ← as_dict (dict_get span "metadata" (VDict ∅));
  Some (<["evidence_number" := VNum (inject_Z evidence_num)]>
       (<["span_id" := dict_get span "span_id" (VStr "unknown")]>
       (<["text" := text]>
       (<["transcript_id" := dict_get metadata "transcript_id" (VStr "unknown")]>
       (<["turn_ids" := dict_get span "turn_ids" (VList [])]> ∅))))).

Definition in_evidence (evidence : list pydict) (evidence_num : Z) : bool :=
  (1 <=? evidence_num)%Z && (evidence_num <=? Z.of_nat (length evidence))%Z.

(** [_extract_citations(explanation, evidence)] *)
Definition extract_citations (explanation : string) (evidence : list pydict)
    : option (list pydict) :=
  mapM (citation evidence)
       (List.filter (in_evidence evidence) (find_citations 0 explanation)).

End LLMGenerator.

(** * Vocabulary of the properties *)

(** The key of an element under [sort_by_key], 0 where the key raises. *)
Definition key_of (key : pydict -> option Q) (x : pydict) : Q := default 0 (key x).

(** The order of two elements under [sorted(key=key, reverse=reverse)]. *)
Definition in_order (reverse : bool) (key : pydict -> option Q) (a b : pydict) : Prop :=
  if reverse then key_of key b <= key_of key a else key_of key a <= key_of key b.

(** The field [k] of a dictionary is absent or holds a number. *)
Definition numeric_field (d : pydict) (k : string) : bool :=
  match d !! k with
  | Some v => match as_num v with Some _ => true | None => false end
  | None => true
  end.

(** The number in field [k], [dflt] when the field is absent. *)
Definition num_field (d : pydict) (k : string) (dflt : Q) : Q :=
  match d !! k with
  | Some v => default dflt (as_num v)
  | None => dflt
  end.

(** A span whose score fields, where present, are numbers. *)
Definition well_scored (span : pydict) : bool :=
  numeric_field span "relevance_score" && numeric_field span "combined_score"
  && numeric_field span "similarity_score" && numeric_field span "pattern_score"
  && numeric_field span "temporal_score".

(** The relevance of a span: its relevance score, else its combined score,
    else 0. *)
Definition relevance_of (span : pydict) : Q :=
  match span !! "relevance_score" with
  | Some v => default 0 (as_num v)
  | None => num_field span "combined_score" 0
  end.

(** The evidence score under the default weights. *)
Definition weighted_evidence (span : pydict) : Q :=
  0.4 * relevance_of span + 0.3 * num_field span "temporal_score" 0.5
  + 0.2 * num_field span "pattern_score" 0 + 0.1 * num_field span "similarity_score" 0.

(** Field [k] of [d] holds a number equal to [q]. *)
Definition holds_num (d : pydict) (k : string) (q : Q) : Prop :=
  exists q', d !! k = Some (VNum q') /\ q' == q.

(** [s'] is [s] with evidence annotations attached. *)
Definition scored_copy (s s' : pydict) : Prop :=
  forall k, k <> "evidence_score"%string -> k <> "evidence_components"%string ->
            s' !! k = s !! k.

(** The evidence score that the final sort reads. *)
Definition evidence_of (span : pydict) : Q := key_of EvidenceScorer.evidence_key span.

Definition has_evidence (e : Q) (span : pydict) : bool := Qeq_bool (evidence_of span) e.

(** Two spans that agree on every field but the sequential annotation. *)
Definition same_but_sequential (s1 s2 : pydict) : Prop :=
  forall k, k <> "sequential_score"%string -> k <> "sequential_indicators"%string ->
            s1 !! k = s2 !! k.

(** Two spans that agree but for the sequential annotation and carry the
    same evidence score. *)
Definition same_ranked (s1 s2 : pydict) : Prop :=
  same_but_sequential s1 s2 /\ s1 !! "evidence_score" = s2 !! "evidence_score".

(** A span whose turn indices, where present, are numbers. *)
Definition indexed (span : pydict) : bool :=
  numeric_field span "start_turn_index" && numeric_field span "end_turn_index".

Definition start_of (span : pydict) : Q := num_field span "start_turn_index" 0.

Definition end_of (span : pydict) : Q := num_field span "end_turn_index" 0.

(** [s'] is [s] with temporal annotations attached. *)
Definition temporal_copy (s s' : pydict) : Prop :=
  forall k, k <> "temporal_relation"%string -> k <> "temporal_distance"%string ->
            k <> "temporal_score"%string -> s' !! k = s !! k.

(** What [detect_temporal_patterns] attaches to span [s] for an event at
    turn [e]: the relation, the distance [d] and the score. *)
Definition temporal_annotation (e : Q) (s s' : pydict) : Prop :=
  exists (relation : string) (d score : Q),
    temporal_copy s s' /\
    s' !! "temporal_relation" = Some (VStr relation) /\
    s' !! "temporal_distance" = Some (VNum d) /\
    s' !! "temporal_score" = Some (VNum score) /\
    (end_of s < e -> relation = "precedes"%string /\ d == e - end_of s) /\
    (~ end_of s < e -> e < start_of s -> relation = "follows"%string /\ d == start_of s - e) /\
    (~ end_of s < e -> ~ e < start_of s -> relation = "overlaps"%string /\ d == 0) /\
    (start_of s <= end_of s -> e < start_of s -> relation = "follows"%string) /\
    0 <= d /\
    (d == 0 -> score == 1) /\
    (~ d == 0 -> score == 1 / (1 + d / 10)) /\
    score = PatternDetector.temporal_score_of d /\
    0 < score /\ score <= 1.

(** A span whose text, where present, is a string. *)
Definition has_text (span : pydict) : bool :=
  match span !! "text" with
  | Some (VStr _) | None => true
  | Some _ => false
  end.

(** The lower-cased text that [detect_patterns] scans. *)
Definition text_of (span : pydict) : string :=
  match span !! "text" with
  | Some (VStr s) => lower s
  | _ => ""
  end.

(** An indicator count normalized by [min(count/5, 1)]. *)
Definition normalized (count : nat) : Q := Qmin (num_of_nat count / 5) 1.

(** At least one behavioral flag fired. *)
Definition flag_fired (behavioral : pydict) : Prop :=
  exists k, behavioral !! k = Some (VBool true).

(** The weighted sum of the four normalized indicator counts. *)
Definition indicator_sum (temporal causal conditional consequence : nat) : Q :=
  0.2 * normalized temporal + 0.4 * normalized causal
  + 0.2 * normalized conditional + 0.2 * normalized consequence.

(** The result of [detect_patterns] on a text, as the specification
    describes it. *)
Definition pattern_result (text : string) (event_type : option string) (p : pydict) : Prop :=
  exists (temporal causal conditional consequence : nat) (behavioral : pydict) (score : Q),
    temporal = PatternDetector.count_indicators text (PatternDetector.indicators_of "temporal") /\
    causal = PatternDetector.count_indicators text (PatternDetector.indicators_of "causal") /\
    conditional =
      PatternDetector.count_indicators text (PatternDetector.indicators_of "conditional") /\
    consequence =
      PatternDetector.count_indicators text (PatternDetector.indicators_of "consequence") /\
    behavioral = PatternDetector.detect_behavioral_patterns text event_type /\
    p !! "temporal_indicators" = Some (VNum (num_of_nat temporal)) /\
    p !! "causal_indicators" = Some (VNum (num_of_nat causal)) /\
    p !! "conditional_indicators" = Some (VNum (num_of_nat conditional)) /\
    p !! "consequence_indicators" = Some (VNum (num_of_nat consequence)) /\
    p !! "behavioral_patterns" = Some (VDict behavioral) /\
    p !! "pattern_score" = Some (VNum score) /\
    (flag_fired behavioral ->
       score == Qmin (indicator_sum temporal causal conditional consequence + 0.2) 1) /\
    (~ flag_fired behavioral ->
       score == Qmin (indicator_sum temporal causal conditional consequence) 1) /\
    0 <= score /\ score <= 1.

(** Two spans are sequential, the first one before the second: the second
    starts within 2 turns of the end of the first, on either side. *)
Definition sequential_pair (s1 s2 : pydict) : bool :=
  Qle_bool (Qabs (start_of s2 - end_of s1)) 2.

(** The span at position [i] of [sorted] is sequential with the one before
    it, and with the one after it. *)
Definition prev_sequential (sorted : list pydict) (i : nat) : bool :=
  match i with
  | O => false
  | S j =>
      match sorted !! j, sorted !! i with
      | Some p, Some s => sequential_pair p s
      | _, _ => false
      end
  end.

Definition next_sequential (sorted : list pydict) (i : nat) : bool :=
  match sorted !! i, sorted !! S i with
  | Some s, Some n => sequential_pair s n
  | _, _ => false
  end.

Definition sequential_neighbours (sorted : list pydict) (i : nat) : nat :=
  (Nat.b2n (prev_sequential sorted i) + Nat.b2n (next_sequential sorted i))%nat.

(** [s'] is [s] with sequential annotations attached. *)
Definition sequential_copy (s s' : pydict) : Prop :=
  forall k, k <> "sequential_score"%string -> k <> "sequential_indicators"%string ->
            s' !! k = s !! k.

(** The signed gap from the end of the first span to the start of the
    second, as the specification reads it. *)
Definition gap (s1 s2 : pydict) : Q := start_of s2 - end_of s1.

(** A turn whose text and speaker, where present, are strings. *)
Definition turn_ok (turn : pydict) : bool :=
  match turn !! "text" with Some (VStr _) | None => true | Some _ => false end
  && match turn !! "speaker" with Some (VStr _) | None => true | Some _ => false end.

Definition turn_text (turn : pydict) : string :=
  match turn !! "text" with Some (VStr s) => s | _ => "" end.

Definition turn_speaker (turn : pydict) : string :=
  match turn !! "speaker" with Some (VStr s) => s | _ => "unknown" end.

(** The id of the turn at position [k] of a slice that starts at turn
    [start_index] of the transcript: its [turn_id], else its turn number. *)
Definition turn_id_at (start_index : Z) (k : nat) (turn : pydict) : value :=
  dict_get turn "turn_id" (VNum (inject_Z (start_index + Z.of_nat k))).

(** The turns [i], ..., [i + w - 1]. *)
Definition window (turns : list pydict) (i w : nat) : list pydict := take w (drop i turns).

(** [span] is the window of [w] turns that starts at position [i]. *)
Definition covers (turns : list pydict) (transcript_id : string) (start_index : Z)
    (w i : nat) (span : pydict) : Prop :=
  exists (first last : Q) (ids : list value),
    span !! "start_turn_index" = Some (VNum first) /\
    span !! "end_turn_index" = Some (VNum last) /\
    first == inject_Z (start_index + Z.of_nat i) /\
    last == inject_Z (start_index + Z.of_nat i + Z.of_nat w - 1) /\
    last - first + 1 == inject_Z (Z.of_nat w) /\
    span !! "turn_ids" = Some (VList ids) /\
    length ids = w /\
    (forall j turn, (j < w)%nat -> turns !! (i + j)%nat = Some turn ->
                    ids !! j = Some (turn_id_at start_index (i + j) turn)) /\
    span !! "text" = Some (VStr (join " " (turn_text <$> window turns i w))) /\
    span !! "speakers" = Some (VList ((fun t => VStr (turn_speaker t)) <$> window turns i w)) /\
    span !! "transcript_id" = Some (VStr transcript_id) /\
    span !! "span_id"
      = Some (VStr (transcript_id ++ "_causal_span_" ++ pretty (Z.of_nat i))) /\
    exists metadata, span !! "metadata" = Some (VDict metadata) /\
                     metadata !! "window_size" = Some (VNum (inject_Z (Z.of_nat w))).

(** [needle] occurs in [hay]. *)
Definition occurs_in (needle hay : string) : Prop :=
  exists before after, hay = (before ++ needle ++ after)%string.

(** The connectives and reference phrases among the follow-up cues. *)
Definition cue_phrases : list string :=
  [ "also"; "additionally"; "furthermore"; "moreover";
    "what about"; "how about"; "tell me more"; "can you";
    "what else"; "another"; "other"; "different" ].

(** [word] is one of the words of the lower-cased query, which are
    separated by whitespace. *)
Definition whole_word (word query : string) : Prop := In word (split (lower query)).

(** What [is_followup] looks for in a query, once the conversation has
    prior turns: a cue phrase or one of six pronouns anywhere in the
    lower-cased query, also inside a longer word; or one of seven pronouns
    as a whole word; or fewer than five words. *)
Definition followup_evidence (query : string) : Prop :=
  (exists cue,
     In cue (cue_phrases ++ [ "it"; "that"; "this"; "these"; "those"; "they" ]) /\
     occurs_in cue (lower query)) \/
  (exists word,
     whole_word word query /\
     In word [ "it"; "that"; "this"; "these"; "those"; "they"; "them" ]) \/
  (length (split query) < 5)%nat.

(** The same with the pronouns counted as whole words only. *)
Definition whole_word_evidence (query : string) : Prop :=
  (exists cue, In cue cue_phrases /\ occurs_in cue (lower query)) \/
  (exists word,
     whole_word word query /\
     In word [ "it"; "that"; "this"; "these"; "those"; "they"; "them" ]) \/
  (length (split query) < 5)%nat.

(** The turn logs of [w'] are those of [w]. *)
Definition same_logs (w w' : ContextManager.World) : Prop :=
  forall cid, ContextManager.turn_log w' cid = ContextManager.turn_log w cid.

(** A computation that never changes a turn log, whatever its outcome. *)
Definition preserves_logs {A} (m : ContextManager.M A) : Prop :=
  forall w, same_logs w (snd (m w)).

(** A call of the explanation service: the arguments of
    [generate_with_citations]. *)
Record ExplanationCall : Type := {
  call_query : string;
  call_evidence : list pydict;
  call_context : option string
}.

(** What the explanation service does on a call. *)
Definition explanation_outcome (cs : Collaborators) (c : ExplanationCall)
    : outcome Explanation :=
  generate_with_citations cs (call_query c) (call_evidence c) (call_context c).

(** The steps of [process_followup] that come before its explanation call;
    they return the call that the request is about to make. *)
Definition followup_explanation_call (cs : Collaborators) (query cid : string)
    (context : option (list pydict)) : ContextManager.M ExplanationCall :=
  context ← match context with
            | Some context => mret context
            | None =>
                conversation ← ContextManager.get_context cid;
                match conversation with
                | Some c =>
                    mret (FollowUpProcessor.context_item
                            <$> ContextManager.get_recent_turns c 3)
                | None => mret []
                end
            end;
  is_followup ← ContextManager.is_followup query cid;
  enhanced_query ← ContextManager.lift
                     (FollowUpProcessor.enhance_query_with_context query context);
  parsed_query ← ContextManager.call (parse_query cs enhanced_query);
  retrieved_spans ←
    ContextManager.call (retrieve_with_context cs enhanced_query context 20 10);
  analyzed_spans ←
    ContextManager.lift
      (CausalAnalyzer.analyze_causal_spans (scorer cs) retrieved_spans enhanced_query
         (parsed_event_type parsed_query) None 10);
  context_summary ← ContextManager.get_context_summary (platform cs) cid;
  mret {| call_query := enhanced_query;
          call_evidence := analyzed_spans;
          call_context := Some context_summary |}.

(** The steps of [Task1Processor.process_query] that come before the
    explanation call, which [generate_explanation] makes. *)
Definition initial_explanation_call (cs : Collaborators) (query : string)
    : ContextManager.M ExplanationCall :=
  parsed_query ← ContextManager.call (parse_query cs query);
  retrieved_spans ← ContextManager.call (retrieve cs query 20 10);
  analyzed_spans ←
    ContextManager.lift
      (CausalAnalyzer.analyze_causal_spans (scorer cs) retrieved_spans query
         (parsed_event_type parsed_query) None 10);
  mret {| call_query := query; call_evidence := analyzed_spans; call_context := None |}.

(** The explanation call of a request to the orchestrator: the routing of
    [Task2Processor.process_query], then the steps of the path taken. *)
Definition explanation_call (cs : Collaborators) (query : string)
    (conversation_id : option string) (context : option (list pydict))
    : ContextManager.M ExplanationCall :=
  cid ← match conversation_id with
        | Some cid => mret cid
        | None =>
            c ← ContextManager.get_or_create_conversation (platform cs) None;
            mret (ContextManager.conversation_id c)
        end;
  is_followup ← ContextManager.is_followup query cid;
  conversation ← ContextManager.get_context cid;
  if is_followup && Task2Processor.has_context context conversation
  then followup_explanation_call cs query cid context
  else initial_explanation_call cs query.

(** The turn logs of [w'] are those of [w] but for one turn appended to
    the log of [cid], whose response is [response]. *)
Definition one_turn_recorded (w w' : ContextManager.World) (cid response : string) : Prop :=
  exists turn,
    ContextManager.turn_log w' cid = ContextManager.turn_log w cid ++ [turn] /\
    ContextManager.response turn = response /\
    forall cid', cid' <> cid ->
      ContextManager.turn_log w' cid' = ContextManager.turn_log w cid'.

(** A computation that changes no turn log when it raises. *)
Definition raises_quietly {A} (m : ContextManager.M A) : Prop :=
  forall w e w', m w = (Raised e, w') -> same_logs w w'.

(** How the run of a request from the world [w] is decided by [reached],
    the run of the steps before its explanation call.  The request raises
    what these steps raise, or what the call raises, in the state reached
    and with the turn logs of [w]; when the call returns, the request
    either raises with the turn logs of [w], or has recorded one turn that
    holds the explanation returned. *)
Definition decided_by_call (cs : Collaborators) {A} (w : ContextManager.World)
    (reached : outcome ExplanationCall * ContextManager.World)
    (run : outcome A * ContextManager.World) : Prop :=
  match reached with
  | (Raised e, w1) => run = (Raised e, w1) /\ same_logs w w1
  | (Returned c, w1) =>
      same_logs w w1 /\
      match explanation_outcome cs c with
      | Raised e => run = (Raised e, w1)
      | Returned r =>
          (exists e, fst run = Raised e /\ same_logs w (snd run)) \/
          (exists cid, one_turn_recorded w (snd run) cid (explanation r))
      end
  end.

(** The last two elements of a list. *)
Definition last_two {A} (l : list A) : list A := drop (length l - 2) l.

(** The context that [process_followup] works with: the explicit one, else
    the last three recorded turns of the conversation. *)
Definition followup_context (w : ContextManager.World) (cid : string)
    (context : option (list pydict)) : list pydict :=
  match context with
  | Some context => context
  | None =>
      match ContextManager.conversations w !! cid with
      | Some c => FollowUpProcessor.context_item <$> ContextManager.get_recent_turns c 3
      | None => []
      end
  end.

(** The query of a context item, when it is a string. *)
Definition item_query (item : pydict) (q : string) : Prop :=
  dict_get item "query" (VStr "") = VStr q.

(** A context item whose query and response, where present, are strings. *)
Definition item_ok (item : pydict) : bool :=
  match item !! "query" with Some (VStr _) | None => true | Some _ => false end
  && match item !! "response" with Some (VStr _) | None => true | Some _ => false end.

(** The query of an item that is [item_ok]. *)
Definition query_of (item : pydict) : string :=
  match item !! "query" with Some (VStr q) => q | _ => "" end.

(** The enhanced query, as the specification writes it. *)
Definition enhanced_text (previous : list string) (query : string) : string :=
  ("Previous queries: " ++ join "; " previous ++ ". Current query: " ++ query)%string.

(** What a returning run of [process_followup] on [query] leaves behind:
    the enhanced query in the response [resp], and the recorded turn. *)
Definition followup_outcome (w : ContextManager.World) (query cid : string)
    (context : option (list pydict)) (resp : FollowUpProcessor.Result)
    (w' : ContextManager.World) : Prop :=
  let ctx := followup_context w cid context in
  let enhanced := FollowUpProcessor.r_enhanced_query resp in
  (ctx = [] -> enhanced = query) /\
  (ctx <> [] ->
   exists previous,
     Forall2 item_query (last_two ctx) previous /\
     enhanced = enhanced_text previous query) /\
  (context = None -> ContextManager.turn_log w cid <> [] ->
   enhanced
   = enhanced_text (ContextManager.query <$> last_two (ContextManager.turn_log w cid)) query) /\
  exists turn,
    ContextManager.turn_log w' cid = ContextManager.turn_log w cid ++ [turn] /\
    ContextManager.query turn = query /\
    ContextManager.response turn = FollowUpProcessor.r_explanation resp /\
    ContextManager.metadata turn
    = <["is_followup" := VBool (FollowUpProcessor.r_is_followup resp)]>
      (<["evidence_count" :=
           VNum (num_of_nat (length (FollowUpProcessor.r_evidence resp)))]>
      (<["enhanced_query" := VStr enhanced]> ∅)) /\
    forall cid', cid' <> cid ->
      ContextManager.turn_log w' cid' = ContextManager.turn_log w cid'.

(** A span that carries an evidence score, and that score is a number. *)
Definition scored (span : pydict) : bool :=
  match span !! "evidence_score" with
  | Some v => bool_decide (is_Some (as_num v))
  | None => false
  end.

(** The sum of the evidence scores of a list of spans. *)
Definition total_evidence (spans : list pydict) : Q :=
  foldr Qplus 0 (evidence_of <$> spans).

(** A value that [list.extend] can draw from and whose elements can be put
    into a set. *)
Definition hashable_items (v : value) : bool :=
  match as_iter v with
  | Some l => forallb (fun x => bool_decide (is_Some (hash_key x))) l
  | None => false
  end.

(** The values drawn from field [k] of a span, none when it is absent. *)
Definition items_of (span : pydict) (k : string) : list value :=
  default [] (as_iter (dict_get span k (VList []))).

(** A span that [aggregate_evidence] can read: its text is a string, its
    turn ids and speakers are lists of hashable values, its transcript
    identifier is found and hashable, and its evidence score is a number;
    each of them may be absent. *)
Definition aggregable (span : pydict) : bool :=
  match span !! "text" with Some (VStr _) | None => true | Some _ => false end
  && hashable_items (dict_get span "turn_ids" (VList []))
  && hashable_items (dict_get span "speakers" (VList []))
  && match EvidenceScorer.transcript_id_of span with
     | Some v => bool_decide (is_Some (hash_key v))
     | None => false
     end
  && numeric_field span "evidence_score".

(** [span] is the window of five turns that starts at turn [first] of the
    transcript with the turns [turns]: its bounds are [first] and
    [first + 4], its text is theirs, and its turn ids are theirs, the
    position in the transcript standing for a missing [turn_id]. *)
Definition transcript_window (turns : list pydict) (first : nat) (span : pydict) : Prop :=
  exists ids,
    holds_num span "start_turn_index" (inject_Z (Z.of_nat first)) /\
    holds_num span "end_turn_index" (inject_Z (Z.of_nat first + 4)) /\
    span !! "text" = Some (VStr (join " " (turn_text <$> window turns first 5))) /\
    span !! "turn_ids" = Some (VList ids) /\
    length ids = 5%nat /\
    forall j turn, (j < 5)%nat -> turns !! (first + j)%nat = Some turn ->
                   ids !! j = Some (turn_id_at 0 (first + j) turn).

(** The identifier of a turn, [None] for a turn without one. *)
Definition turn_id_of (turn : pydict) : value := dict_get turn "turn_id" VNone.

(** The turn at position [k] is the first one with the identifier [id]. *)
Definition first_with_id (turns : list pydict) (id : value) (k : nat) : Prop :=
  (exists turn, turns !! k = Some turn /\ py_eq (turn_id_of turn) id = true) /\
  forall j turn, (j < k)%nat -> turns !! j = Some turn -> py_eq (turn_id_of turn) id = false.

(** No turn has the identifier [id]. *)
Definition no_turn_with_id (turns : list pydict) (id : value) : Prop :=
  Forall (fun turn => py_eq (turn_id_of turn) id = false) turns.

(** The event gives no turn to look around: the transcript has no turns,
    the event has no turn index (or [None]) and no turn identifier, or no
    turn of the transcript carries its turn identifier. *)
Definition no_event_turn (transcript event : pydict) : Prop :=
  truthy (dict_get transcript "turns" (VList [])) = false \/
  event !! "turn_index" = Some VNone \/
  (event !! "turn_index" = None /\ event !! "turn_id" = None) \/
  (event !! "turn_index" = None /\
   exists id turns, event !! "turn_id" = Some id /\
                    transcript !! "turns" = Some (VList (VDict <$> turns)) /\
                    no_turn_with_id turns id).

(** The type of an event, empty when it has none. *)
Definition event_type_of (event : pydict) : string :=
  match event !! "event_type" with Some (VStr s) => s | _ => ""%string end.

(** The integer turn index of an event. *)
Definition event_index (event : pydict) : option Z :=
  match event !! "turn_index" with
  | Some (VNum q) => as_index q
  | _ => None
  end.

(** An event whose type, where present, is a string and whose turn index is
    an integer from -1 on. *)
Definition event_ok (event : pydict) : bool :=
  match event !! "event_type" with Some (VStr _) | None => true | Some _ => false end
  && match event_index event with Some e => (-1 <=? e)%Z | None => false end.

(** The event is of the type asked for, case apart. *)
Definition of_type (event_type : string) (event : pydict) : bool :=
  String.eqb (lower (event_type_of event)) (lower event_type).

(** The distance of a span to the event turn [e]: 0 when the span contains
    the turn. *)
Definition distance_of (e : Q) (span : pydict) : Q :=
  if Qltb (end_of span) e then e - end_of span
  else if Qltb e (start_of span) then start_of span - e
  else 0.

(** [s'] is [s] with its distance to the event turn [e] attached. *)
Definition with_distance (e : Q) (s s' : pydict) : Prop :=
  s' = <["temporal_distance" := VNum (distance_of e s)]> s.

(** The distance that a ranked span carries. *)
Definition distance_in (span : pydict) : Q := key_of SpanExtractor.distance_key span.

(** A result of the shape that [Task1Processor.process_query] builds: it
    holds the evidence, the parsed query and the other keys that
    [format_response] reads. *)
Definition initial_result (result : pydict) (evidence : list pydict)
    (parsed_query : pydict) : Prop :=
  result !! "evidence" = Some (VList (VDict <$> evidence)) /\
  result !! "parsed_query" = Some (VDict parsed_query) /\
  is_Some (result !! "full_explanation") /\
  is_Some (result !! "summary") /\
  is_Some (result !! "key_factors") /\
  is_Some (result !! "causal_mechanisms") /\
  is_Some (result !! "citations") /\
  is_Some (result !! "query") /\
  is_Some (result !! "evidence_count").

(** The decision of [is_followup] in the world [w]. *)
Definition followup_decision (w : ContextManager.World) (query cid : string) : bool :=
  ContextManager.is_followup_in (ContextManager.conversations w) query cid.

(** A span that [format_response] can format: its text, where present, is a
    string, and its metadata, where present, is a dictionary. *)
Definition formattable (span : pydict) : bool :=
  has_text span
  && match span !! "metadata" with Some (VDict _) | None => true | Some _ => false end.

(** The text of a span as it stands, empty when the span has none. *)
Definition raw_text (span : pydict) : string :=
  match span !! "text" with Some (VStr s) => s | _ => ""%string end.

(** The entry that [format_response] makes of the span at position [i]: its
    number is [i + 1], its text is the first 500 characters of the text of
    the span, and its evidence score is that of the span, 0 when the span
    has none. *)
Definition formatted_entry (i : nat) (span entry : pydict) : Prop :=
  entry !! "evidence_id" = Some (VNum (num_of_nat (S i))) /\
  entry !! "text" = Some (VStr (str_take 500 (raw_text span))) /\
  (String.length (str_take 500 (raw_text span)) <= 500)%nat /\
  String.prefix (str_take 500 (raw_text span)) (raw_text span) = true /\
  entry !! "evidence_score" = Some (dict_get span "evidence_score" (VNum 0)) /\
  entry !! "turn_ids" = Some (dict_get span "turn_ids" (VList [])).

(** The evidence list of a formatted response: one entry for each of the
    first ten spans, in their order. *)
Definition formatted_evidence (evidence : list pydict) (body : pydict) : Prop :=
  exists entries,
    body !! "evidence" = Some (VList (VDict <$> entries)) /\
    length entries = Nat.min 10 (length evidence) /\
    forall i entry, entries !! i = Some entry ->
      exists span, evidence !! i = Some span /\ formatted_entry i span entry.

(** [s'] agrees with [s] on every key outside [keys]. *)
Definition carried (keys : list string) (s s' : pydict) : Prop :=
  forall k, k ∉ keys -> s' !! k = s !! k.

Definition pattern_keys : list string :=
  [ "temporal_indicators"; "causal_indicators"; "conditional_indicators";
    "consequence_indicators"; "behavioral_patterns"; "pattern_score" ]%string.

Definition temporal_keys : list string :=
  [ "temporal_relation"; "temporal_distance"; "temporal_score" ]%string.

Definition sequential_keys : list string :=
  [ "sequential_score"; "sequential_indicators" ]%string.

Definition evidence_keys : list string :=
  [ "evidence_score"; "evidence_components" ]%string.

(** The keys that [analyze_causal_spans] writes. *)
Definition analysis_keys : list string :=
  pattern_keys ++ temporal_keys ++ sequential_keys ++ evidence_keys.

(** A span that [analyze_causal_spans] can read: its text is a string, and
    its turn indices, its relevance, combined and similarity scores are
    numbers, each of them where present; so is its temporal score when no
    event turn is given.  The pattern score it came with is not read. *)
Definition analyzable (event_turn_index : option Q) (span : pydict) : bool :=
  has_text span && indexed span
  && numeric_field span "relevance_score" && numeric_field span "combined_score"
  && numeric_field span "similarity_score"
  && match event_turn_index with
     | Some _ => true
     | None => numeric_field span "temporal_score"
     end.

(** The pattern score that [detect_patterns] gives a span. *)
Definition detected_pattern_score (event_type : option string) (span : pydict) : Q :=
  num_field (default ∅ (PatternDetector.detect_patterns span event_type)) "pattern_score" 0.

(** The temporal score that enters the evidence score: the score of the
    distance to the event turn when one is given, else the temporal score
    the span came with, else 0.5. *)
Definition analyzed_temporal_score (event_turn_index : option Q) (span : pydict) : Q :=
  match event_turn_index with
  | Some e => PatternDetector.temporal_score_of (distance_of e span)
  | None => num_field span "temporal_score" 0.5
  end.

(** The evidence score of an analyzed span. *)
Definition analyzed_evidence (scorer : EvidenceScorer.t) (event_type : option string)
    (event_turn_index : option Q) (span : pydict) : Q :=
  EvidenceScorer.relevance_weight scorer * relevance_of span
  + EvidenceScorer.temporal_weight scorer * analyzed_temporal_score event_turn_index span
  + EvidenceScorer.pattern_weight scorer * detected_pattern_score event_type span
  + EvidenceScorer.similarity_weight scorer * num_field span "similarity_score" 0.

(** [s'] is the span [s] after the analysis: what the analysis does not
    write is as in [s]; the pattern score is the detected one, between 0 and
    1; with an event turn the temporal score is that of the distance to it;
    and the evidence score is the weighted sum of the four scores. *)
Definition analyzed (scorer : EvidenceScorer.t) (event_type : option string)
    (event_turn_index : option Q) (s s' : pydict) : Prop :=
  carried analysis_keys s s' /\
  s' !! "pattern_score" = Some (VNum (detected_pattern_score event_type s)) /\
  0 <= detected_pattern_score event_type s /\
  detected_pattern_score event_type s <= 1 /\
  (is_Some event_turn_index ->
   s' !! "temporal_score"
   = Some (VNum (analyzed_temporal_score event_turn_index s))) /\
  s' !! "evidence_score"
  = Some (VNum (analyzed_evidence scorer event_type event_turn_index s)).

(** [s'] is the span [s] part of the way through the analysis: outside
    [keys] it is as [s]; it carries the detected pattern score; and its
    temporal score is that of the distance to the event turn once that has
    been attached, the one [s] came with before. *)
Definition partly_analyzed (event_type : option string) (event_turn_index : option Q)
    (keys : list string) (s s' : pydict) : Prop :=
  carried keys s s' /\
  s' !! "pattern_score" = Some (VNum (detected_pattern_score event_type s)) /\
  s' !! "temporal_score"
  = match event_turn_index with
    | Some e => Some (VNum (PatternDetector.temporal_score_of (distance_of e s)))
    | None => s !! "temporal_score"
    end.

(** The stems that [_extract_event_type] looks for. *)
Definition event_stems : list string :=
  [ "escalat"; "refund"; "churn"; "cancel"; "complain"; "satisfaction" ].

(** The citation [c] refers to the evidence numbered [n], counted from 1:
    it carries the number, the identifier and turn ids of that span and the
    first 200 characters of its text. *)
Definition cites (evidence : list pydict) (n : Z) (c : pydict) : Prop :=
  (1 <= n <= Z.of_nat (length evidence))%Z /\
  exists span,
    evidence !! Z.to_nat (n - 1) = Some span /\
    c !! "evidence_number" = Some (VNum (inject_Z n)) /\
    c !! "span_id" = Some (dict_get span "span_id" (VStr "unknown")) /\
    c !! "text" = Some (VStr (str_take 200 (raw_text span))) /\
    c !! "turn_ids" = Some (dict_get span "turn_ids" (VList [])).

(** The keys of a span that [_create_spans_from_turns] builds. *)
Definition span_keys : list string :=
  [ "span_id"; "text"; "start_turn_index"; "end_turn_index"; "turn_ids";
    "speakers"; "transcript_id"; "metadata" ]%string.

(** A span as [_create_spans_from_turns] builds it for the transcript
    [tid]: it has the keys above and no other; its text is a string, its
    bounds are numbers, its speakers are strings, and its metadata names no
    transcript. *)
Definition span_made (tid : string) (span : pydict) : Prop :=
  (forall k, k ∉ span_keys -> span !! k = None) /\
  (exists text, span !! "text" = Some (VStr text)) /\
  (exists first last, span !! "start_turn_index" = Some (VNum first) /\
                      span !! "end_turn_index" = Some (VNum last)) /\
  (exists names, span !! "speakers" = Some (VList (VStr <$> names))) /\
  span !! "transcript_id" = Some (VStr tid) /\
  exists metadata, span !! "metadata" = Some (VDict metadata) /\
                   metadata !! "transcript_id" = None.

(** A turn whose identifier, where present, can be put into a set. *)
Definition turn_hashable (turn : pydict) : bool :=
  match turn !! "turn_id" with
  | Some v => bool_decide (is_Some (hash_key v))
  | None => true
  end.

(** The evidence score of a span that carries no relevance and no
    similarity score: the weighted temporal and pattern scores. *)
Definition rationale_evidence (scorer : EvidenceScorer.t) (temporal pattern : Q) : Q :=
  EvidenceScorer.relevance_weight scorer * 0
  + EvidenceScorer.temporal_weight scorer * temporal
  + EvidenceScorer.pattern_weight scorer * pattern
  + EvidenceScorer.similarity_weight scorer * 0.

(** [s'] is an analyzed window of the transcript: the window of five turns
    that starts at turn [first], with a pattern score [p] between 0 and 1, a
    temporal score [t], and the evidence score that these two give. *)
Definition analyzed_window (scorer : EvidenceScorer.t) (turns : list pydict) (first : nat)
    (t : Q) (s' : pydict) : Prop :=
  transcript_window turns first s' /\
  exists p, s' !! "pattern_score" = Some (VNum p) /\ 0 <= p /\ p <= 1 /\
            s' !! "evidence_score" = Some (VNum (rationale_evidence scorer t p)).


(** An event whose type, where present, is a string. *)
Definition event_type_ok (event : pydict) : bool :=
  match event !! "event_type" with Some (VStr _) | None => true | Some _ => false end.

(** The two lines that the summary of a conversation holds for a turn. *)
Definition summary_lines (turn : ContextManager.ConversationTurn) : list string :=
  [ ("Q: " ++ ContextManager.query turn)%string;
    ("A: " ++ str_take 200 (ContextManager.response turn) ++ "...")%string ].

(** The summary of a turn log: the lines of its last three turns. *)
Definition summary_of (log : list ContextManager.ConversationTurn) : string :=
  join ContextManager.newline (flat_map summary_lines (drop (length log - 3) log)).

(** * Sample data *)

Module Sample.

(** A span of relevance 1 whose other components are 0. *)
Definition relevant_span : pydict :=
  <["relevance_score" := VNum 1]>
  (<["temporal_score" := VNum 0]>
  (<["pattern_score" := VNum 0]>
  (<["similarity_score" := VNum 0]> ∅))).

(** A span that only carries a combined score. *)
Definition combined_span : pydict := <["combined_score" := VNum 0.5]> ∅.

Definition spans : list pydict := [combined_span; relevant_span].

End Sample.

Module SampleText.

(** A span and the indicators in it: "because" (causal), "so"
    (consequence), "then" (temporal) and "upset" (frustration). *)
Definition upset_span : pydict :=
  <["text" := VStr "Hello, because I am upset, so then I want to speak to someone"]> ∅.

(** What [detect_patterns] returns on it for an escalation event, and the
    behavioral flags in that result. *)
Definition upset_patterns : pydict :=
  default ∅ (PatternDetector.detect_patterns upset_span (Some "Escalation"%string)).

Definition upset_flags : pydict :=
  default ∅ (as_dict (dict_get upset_patterns "behavioral_patterns" VNone)).

End SampleText.

Module SampleTurns.

Definition turn (text : string) : pydict := <["text" := VStr text]> ∅.

(** Six turns: two windows of the default size 5 at stride 1. *)
Definition six_turns : list pydict :=
  [turn "a"; turn "b"; turn "c"; turn "d"; turn "e"; turn "f"].

Definition span_between (first last : Z) : pydict :=
  <["start_turn_index" := VNum (inject_Z first)]>
  (<["end_turn_index" := VNum (inject_Z last)]> ∅).

(** The windows of the default size over the six turns, and the same
    windows after [detect_sequential_patterns]. *)
Definition windows : list pydict :=
  default [] (SpanExtractor.create_spans_from_turns six_turns "t" 0
                SpanExtractor.default_window_size).

Definition window_at (i : nat) : pydict := default ∅ (windows !! i).

Definition annotated_at (i : nat) : pydict :=
  default ∅ (PatternDetector.detect_sequential_patterns windows ≫= (fun out => out !! i)).

End SampleTurns.

Module SampleWorld.
Import ContextManager.

Definition pf : Platform :=
  {| uuid4 := fun n => ("id-" ++ pretty n)%string; now := fun n => Z.of_nat n |}.

Definition evidence : list pydict := [ <["text" := VStr "so then I asked for a manager"]> ∅ ].

(** Collaborators that all answer. *)
Definition answering : Collaborators :=
  {| platform := pf;
     scorer := EvidenceScorer.default;
     parse_query := fun q => Returned (<["event_type" := VStr "escalation"]> ∅);
     retrieve := fun q top_k rerank_top_k => Returned evidence;
     retrieve_with_context := fun q context top_k rerank_top_k => Returned evidence;
     generate_with_citations := fun q evidence context =>
       Returned {| explanation := "Because of the wait."; citations := [] |};
     extract_summary := fun text => text;
     extract_key_factors := fun text => [];
     extract_causal_mechanisms := fun text => [] |}.

(** The same collaborators with the explanation service down. *)
Definition explanation_down : Collaborators :=
  {| platform := pf;
     scorer := EvidenceScorer.default;
     parse_query := parse_query answering;
     retrieve := retrieve answering;
     retrieve_with_context := retrieve_with_context answering;
     generate_with_citations := fun q evidence context => Raised (ServiceError "generation");
     extract_summary := extract_summary answering;
     extract_key_factors := extract_key_factors answering;
     extract_causal_mechanisms := extract_causal_mechanisms answering |}.

(** The same collaborators with an explanation service that fails on one
    query, the enhanced query of the sample follow-up, and answers the
    others. *)
Definition failing_once : Collaborators :=
  {| platform := pf;
     scorer := EvidenceScorer.default;
     parse_query := parse_query answering;
     retrieve := retrieve answering;
     retrieve_with_context := retrieve_with_context answering;
     generate_with_citations := fun q evidence context =>
       if String.eqb q
            "Previous queries: Why are escalations happening?. Current query: what about that?"
       then Raised (ServiceError "generation")
       else generate_with_citations answering q evidence context;
     extract_summary := extract_summary answering;
     extract_key_factors := extract_key_factors answering;
     extract_causal_mechanisms := extract_causal_mechanisms answering |}.

Definition first_turn : ConversationTurn :=
  {| turn_id := "t-1"; query := "Why are escalations happening?";
     response := "Long waits."; timestamp := 0; metadata := ∅ |}.

(** A world with one conversation, "c", of one recorded turn. *)
Definition one_turn : World :=
  {| conversations :=
       {[ "c"%string := {| conversation_id := "c"; turns := [first_turn];
                           created_at := 0; updated_at := 0; context_metadata := ∅ |} ]};
     clock := 0 |}.

End SampleWorld.

Module SampleScored.

(** The two sample spans as [score_evidence] returns them. *)
Definition scored : list pydict :=
  default [] (EvidenceScorer.score_evidence EvidenceScorer.default Sample.spans "why" None None).

End SampleScored.

Module SampleTranscript.

Definition turn (id : string) (text : string) : value :=
  VDict (<["turn_id" := VStr id]> (<["text" := VStr text]> ∅)).

(** Eight turns; the customer asks for a refund at turn 6, "t6". *)
Definition turns : list value :=
  [ turn "t0" "hello"; turn "t1" "hi"; turn "t2" "my order is late";
    turn "t3" "let me check"; turn "t4" "it is still late";
    turn "t5" "sorry about that"; turn "t6" "I want a refund";
    turn "t7" "I will process it" ].

Definition turn_dicts : list pydict := omap as_dict turns.

Definition refund_event : pydict :=
  <["event_type" := VStr "Refund"]> (<["turn_index" := VNum 6]> ∅).

Definition refund_by_id : pydict :=
  <["event_type" := VStr "refund"]> (<["turn_id" := VStr "t6"]> ∅).

Definition unknown_event : pydict :=
  <["event_type" := VStr "refund"]> (<["turn_id" := VStr "t9"]> ∅).

Definition transcript : pydict :=
  <["transcript_id" := VStr "call-1"]>
  (<["turns" := VList turns]>
  (<["events" := VList [VDict refund_event]]> ∅)).

End SampleTranscript.

Module SampleRun.

(** A follow-up request on the conversation "c" of [SampleWorld.one_turn],
    its answer and the world after it. *)
Definition followup_run : outcome pydict * ContextManager.World :=
  Task2Processor.process_query SampleWorld.answering "what about that?"
    (Some "c"%string) None SampleWorld.one_turn.

Definition followup_answer : pydict :=
  match fst followup_run with
  | Returned d => d
  | Raised _ => ∅
  end.

Definition followup_world : ContextManager.World := snd followup_run.

End SampleRun.

Module SampleCall.

(** The sample follow-up with the explanation service that fails on its
    enhanced query: the explanation call that the request reaches, and the
    world in which it reaches it. *)
Definition run : outcome ExplanationCall * ContextManager.World :=
  explanation_call SampleWorld.failing_once "what about that?" (Some "c"%string) None
    SampleWorld.one_turn.

Definition reached : ExplanationCall :=
  match fst run with
  | Returned c => c
  | Raised _ => {| call_query := ""; call_evidence := []; call_context := None |}
  end.

Definition world : ContextManager.World := snd run.

End SampleCall.

Module SampleResult.

(** Results over the evidence of [SampleWorld]. *)
Definition initial : pydict :=
  <["query" := VStr "Why are escalations happening?"]>
  (<["parsed_query" := VDict (<["event_type" := VStr "escalation"]> ∅)]>
  (<["explanation" := VStr "Because of the wait."]>
  (<["summary" := VStr "Because of the wait."]>
  (<["key_factors" := VList []]>
  (<["causal_mechanisms" := VList []]>
  (<["evidence" := VList (VDict <$> SampleWorld.evidence)]>
  (<["citations" := VList []]>
  (<["evidence_count" := VNum 1]>
  (<["full_explanation" := VStr "Because of the wait."]> ∅))))))))).

Definition followup : FollowUpProcessor.Result :=
  {| FollowUpProcessor.r_query := "what about that?";
     FollowUpProcessor.r_enhanced_query := "Current query: what about that?";
     FollowUpProcessor.r_is_followup := true;
     FollowUpProcessor.r_parsed_query := ∅;
     FollowUpProcessor.r_explanation := "Because of the wait.";
     FollowUpProcessor.r_evidence := SampleWorld.evidence;
     FollowUpProcessor.r_citations := [];
     FollowUpProcessor.r_evidence_count := 1;
     FollowUpProcessor.r_context_used := false;
     FollowUpProcessor.r_context_turns := 0 |}.

End SampleResult.

(** * Properties *)

(** Lookups in a dictionary built by insertions under literal keys. *)
Ltac lookup_inserts :=
  repeat (rewrite lookup_insert_eq || (rewrite lookup_insert_ne by done)).

(** ** Stable sorting *)

Section StableSort.
Context {A : Type} (le : A -> A -> bool).

Lemma insert_by_perm x l : insert_by le x l ≡ₚ x :: l.
Proof.
  induction l as [|y l IH]; simpl; [done|].
  destruct (le x y); [done|].
  rewrite IH. apply Permutation_swap.
Qed.

Lemma stable_sort_perm l : stable_sort le l ≡ₚ l.
Proof.
  induction l as [|x l IH]; simpl; [done|].
  rewrite insert_by_perm. by rewrite IH.
Qed.

Lemma stable_sort_length l : length (stable_sort le l) = length l.
Proof. apply Permutation_length, stable_sort_perm. Qed.

Hypothesis le_total : forall x y, le x y = false -> le y x = true.
Hypothesis le_trans : forall x y z, le x y = true -> le y z = true -> le x z = true.

Lemma insert_by_sorted x l :
  StronglySorted (fun a b => le a b = true) l ->
  StronglySorted (fun a b => le a b = true) (insert_by le x l).
Proof.
  induction 1 as [|y l Hl IH Hy]; simpl.
  - repeat constructor.
  - destruct (le x y) eqn:Hxy.
    + constructor; [by constructor|].
      constructor; [done|].
      eapply Forall_impl; [exact Hy|]. intros z Hz. by eapply le_trans.
    + constructor; [done|].
      rewrite insert_by_perm. constructor; [by apply le_total | done].
Qed.

Lemma stable_sort_sorted l :
  StronglySorted (fun a b => le a b = true) (stable_sort le l).
Proof.
  induction l as [|x l IH]; simpl; [constructor|].
  by apply insert_by_sorted.
Qed.

(** Stability: a class [P] of elements that the order does not separate
    keeps its original order. *)
Lemma insert_by_filter (P : A -> bool) x l :
  (forall y, P x = true -> P y = true -> le x y = true) ->
  List.filter P (insert_by le x l) = List.filter P (x :: l).
Proof.
  intros HP. induction l as [|y l IH]; [done|].
  cbn [insert_by]. destruct (le x y) eqn:Hxy; [done|].
  cbn [List.filter] in *.
  destruct (P x) eqn:Px, (P y) eqn:Py; rewrite IH; try done.
  rewrite HP in Hxy; done.
Qed.

Lemma stable_sort_filter (P : A -> bool) l :
  (forall x y, P x = true -> P y = true -> le x y = true) ->
  List.filter P (stable_sort le l) = List.filter P l.
Proof.
  intros HP. induction l as [|x l IH]; [done|].
  cbn [stable_sort foldr]. rewrite insert_by_filter by (intros; by apply HP).
  cbn [List.filter]. fold (stable_sort le l). by rewrite IH.
Qed.

End StableSort.

Lemma StronglySorted_weaken {A} (R R' : A -> A -> Prop) l :
  (forall a b, R a b -> R' a b) -> StronglySorted R l -> StronglySorted R' l.
Proof.
  intros HR. induction 1 as [|x l Hl IH Hx]; constructor; [done|].
  eapply Forall_impl; [exact Hx|]. intros y. apply HR.
Qed.

Lemma insert_by_fmap {A B} (f : A -> B) (le : B -> B -> bool) x l :
  insert_by le (f x) (f <$> l) = f <$> insert_by (fun a b => le (f a) (f b)) x l.
Proof.
  induction l as [|y l IH]; [done|].
  cbn. destruct (le (f x) (f y)); [done|]. cbn. by rewrite IH.
Qed.

Lemma stable_sort_fmap {A B} (f : A -> B) (le : B -> B -> bool) l :
  stable_sort le (f <$> l) = f <$> stable_sort (fun a b => le (f a) (f b)) l.
Proof.
  induction l as [|x l IH]; [done|].
  cbn. fold (stable_sort le (f <$> l)). rewrite IH. apply insert_by_fmap.
Qed.

(** Sorting two lists that are related element by element, with orders that
    agree on related elements, gives related lists. *)
Lemma insert_by_Forall2 {A B} (R : A -> B -> Prop) le1 le2 x1 x2 l1 l2 :
  (forall a1 a2 b1 b2, R a1 a2 -> R b1 b2 -> le1 a1 b1 = le2 a2 b2) ->
  R x1 x2 -> Forall2 R l1 l2 ->
  Forall2 R (insert_by le1 x1 l1) (insert_by le2 x2 l2).
Proof.
  intros Hle Hx Hl. induction Hl as [|y1 y2 l1 l2 Hy Hl IH]; cbn.
  - by repeat constructor.
  - rewrite (Hle x1 x2 y1 y2) by done.
    destruct (le2 x2 y2); repeat constructor; done.
Qed.

Lemma stable_sort_Forall2 {A B} (R : A -> B -> Prop) le1 le2 l1 l2 :
  (forall a1 a2 b1 b2, R a1 a2 -> R b1 b2 -> le1 a1 b1 = le2 a2 b2) ->
  Forall2 R l1 l2 ->
  Forall2 R (stable_sort le1 l1) (stable_sort le2 l2).
Proof.
  intros Hle Hl. induction Hl; cbn; [constructor|].
  by apply insert_by_Forall2.
Qed.

(** ** [sort_by_key] *)

Lemma key_le_total reverse {A} (a b : Q * A) :
  key_le reverse a b = false -> key_le reverse b a = true.
Proof.
  unfold key_le. destruct reverse; intros H; apply Qle_bool_iff;
    apply not_true_iff_false in H; rewrite Qle_bool_iff in H; lra.
Qed.

Lemma key_le_trans reverse {A} (a b c : Q * A) :
  key_le reverse a b = true -> key_le reverse b c = true -> key_le reverse a c = true.
Proof.
  unfold key_le. destruct reverse; rewrite !Qle_bool_iff; lra.
Qed.

Lemma decorate_Some (key : pydict -> option Q) l decorated :
  mapM (fun x => k ← key x; Some (k, x)) l = Some decorated ->
  Forall (fun x => is_Some (key x)) l /\ decorated = (fun x => (key_of key x, x)) <$> l.
Proof.
  rewrite mapM_Some. induction 1 as [|x [k x'] l dec Hx Hl [IH1 IH2]]; [done|].
  destruct (key x) as [kx|] eqn:Hk; simplify_eq/=.
  split; [constructor; [by rewrite Hk | done]|].
  do 2 f_equal. unfold key_of. by rewrite Hk.
Qed.

Lemma sort_by_key_Some reverse key l out :
  sort_by_key reverse key l = Some out ->
  Forall (fun x => is_Some (key x)) l /\
  out = stable_sort (fun a b => key_le reverse (key_of key a, a) (key_of key b, b)) l.
Proof.
  unfold sort_by_key. intros H.
  destruct (mapM _ l) as [dec|] eqn:Hdec; simplify_eq/=.
  apply decorate_Some in Hdec as [Hall ->]. split; [done|].
  rewrite stable_sort_fmap, <- list_fmap_compose.
  apply list_fmap_id.
Qed.

Lemma sort_by_key_is_Some reverse key l :
  Forall (fun x => is_Some (key x)) l -> is_Some (sort_by_key reverse key l).
Proof.
  intros Hall. unfold sort_by_key.
  destruct (mapM _ l) as [dec|] eqn:Hdec; [by eexists|].
  exfalso. apply eq_None_not_Some in Hdec. apply Hdec, mapM_is_Some.
  eapply Forall_impl; [exact Hall|]. intros x [k Hk]. cbn. rewrite Hk. by eexists.
Qed.

Lemma sort_by_key_perm reverse key l out :
  sort_by_key reverse key l = Some out -> out ≡ₚ l.
Proof. intros [_ ->]%sort_by_key_Some. apply stable_sort_perm. Qed.

Lemma sort_by_key_sorted reverse key l out :
  sort_by_key reverse key l = Some out ->
  StronglySorted (in_order reverse key) out.
Proof.
  intros [_ ->]%sort_by_key_Some.
  eapply StronglySorted_weaken; last first.
  - apply stable_sort_sorted.
    + intros x y. apply key_le_total.
    + intros x y z. apply key_le_trans.
  - intros a b. unfold key_le, in_order. cbn.
    destruct reverse; by rewrite Qle_bool_iff.
Qed.

Lemma sort_by_key_stable reverse key l out (P : pydict -> bool) :
  sort_by_key reverse key l = Some out ->
  (forall x y, P x = true -> P y = true -> key_of key x == key_of key y) ->
  List.filter P out = List.filter P l.
Proof.
  intros [_ ->]%sort_by_key_Some HP.
  apply stable_sort_filter. intros x y Px Py.
  specialize (HP x y Px Py). unfold key_le. cbn.
  destruct reverse; apply Qle_bool_iff; lra.
Qed.

(** ** Evidence scorer *)

Lemma numeric_field_get d k dflt :
  numeric_field d k -> is_Some (as_num dflt) ->
  as_num (dict_get d k dflt) = Some (num_field d k (default 0 (as_num dflt))).
Proof.
  unfold numeric_field, dict_get, num_field. intros Hk [q Hq].
  destruct (d !! k) as [v|]; [|by rewrite Hq].
  destruct (as_num v); [done | by destruct Hk].
Qed.

Lemma score_span_well_scored self span :
  well_scored span ->
  exists s', EvidenceScorer.score_span self span = Some s' /\
    scored_copy span s' /\
    s' !! "evidence_score" =
      Some (VNum (EvidenceScorer.relevance_weight self * relevance_of span
                  + EvidenceScorer.temporal_weight self * num_field span "temporal_score" 0.5
                  + EvidenceScorer.pattern_weight self * num_field span "pattern_score" 0
                  + EvidenceScorer.similarity_weight self * num_field span "similarity_score" 0)).
Proof.
  unfold well_scored. rewrite !andb_True. intros [[[[Hr Hc] Hs] Hp] Ht].
  unfold EvidenceScorer.score_span.
  assert (as_num (dict_get span "relevance_score" (dict_get span "combined_score" (VNum 0)))
          = Some (relevance_of span)) as ->.
  { unfold relevance_of, dict_get at 1.
    unfold numeric_field in Hr. destruct (span !! "relevance_score") as [v|].
    - destruct (as_num v); [done | by destruct Hr].
    - by rewrite (numeric_field_get span "combined_score" (VNum 0)) by (done || by eexists). }
  rewrite (numeric_field_get span "similarity_score" (VNum 0)) by (done || by eexists).
  rewrite (numeric_field_get span "pattern_score" (VNum 0)) by (done || by eexists).
  rewrite (numeric_field_get span "temporal_score" (VNum 0.5)) by (done || by eexists).
  cbn. eexists. split; [done|]. split.
  - intros k Hk1 Hk2. by rewrite !lookup_insert_ne.
  - rewrite lookup_insert_ne by done. by rewrite lookup_insert_eq.
Qed.

Lemma score_span_evidence_key self span s' :
  EvidenceScorer.score_span self span = Some s' ->
  is_Some (EvidenceScorer.evidence_key s').
Proof.
  unfold EvidenceScorer.score_span. intros H.
  repeat (match type of H with
          | context [as_num ?v] => destruct (as_num v); simplify_eq/=
          end).
  unfold EvidenceScorer.evidence_key, dict_get.
  rewrite lookup_insert_ne by done. rewrite lookup_insert_eq. by eexists.
Qed.

Lemma score_evidence_Some self spans query event_type event_turn_index scored :
  mapM (EvidenceScorer.score_span self) spans = Some scored ->
  exists out,
    EvidenceScorer.score_evidence self spans query event_type event_turn_index = Some out /\
    out ≡ₚ scored /\
    StronglySorted (fun a b => evidence_of b <= evidence_of a) out /\
    forall e, List.filter (has_evidence e) out = List.filter (has_evidence e) scored.
Proof.
  intros Hscored. unfold EvidenceScorer.score_evidence. rewrite Hscored. cbn.
  destruct (sort_by_key_is_Some true EvidenceScorer.evidence_key scored) as [out Hout].
  { apply mapM_Some in Hscored.
    induction Hscored; constructor; eauto using score_span_evidence_key. }
  exists out. split; [done|]. split; [by eapply sort_by_key_perm|]. split.
  - by apply sort_by_key_sorted in Hout.
  - intros e. eapply sort_by_key_stable; [done|].
    unfold has_evidence, evidence_of. intros x y Hx%Qeq_bool_iff Hy%Qeq_bool_iff. lra.
Qed.

Lemma mapM_score_span self spans :
  Forall (fun s => well_scored s) spans ->
  exists scored, mapM (EvidenceScorer.score_span self) spans = Some scored.
Proof.
  intros Hall. apply mapM_is_Some.
  eapply Forall_impl; [exact Hall|]. intros s Hs. cbn.
  destruct (score_span_well_scored self s Hs) as (s' & -> & _). by eexists.
Qed.

Lemma scored_spans_weighted spans scored :
  Forall (fun s => well_scored s) spans ->
  mapM (EvidenceScorer.score_span EvidenceScorer.default) spans = Some scored ->
  Forall2 (fun s s' =>
             scored_copy s s' /\ holds_num s' "evidence_score" (weighted_evidence s)) spans scored.
Proof.
  intros Hall Hscored%mapM_Some.
  induction Hscored as [|s s' spans scored Hs _ IH]; [constructor|].
  inversion_clear Hall as [|? ? Hws Hall'].
  constructor; [|by apply IH].
  destruct (score_span_well_scored EvidenceScorer.default s Hws) as (s'' & Hs'' & Hcopy & Hscore).
  rewrite Hs in Hs''. injection Hs'' as <-.
  split; [done|]. eexists. split; [exact Hscore|]. unfold weighted_evidence. by cbn.
Qed.

(** C1: under the default weights every span receives the evidence score
    0.4*relevance + 0.3*temporal + 0.2*pattern + 0.1*similarity, where
    temporal defaults to 0.5 and relevance falls back to the combined score
    and then to 0; the output holds exactly the scored copies of the input
    spans; a span with relevance 1 and the other components 0 scores 0.4. *)
Theorem score_evidence_weighted_sum (spans : list pydict) (query : string)
    (event_type : option string) (event_turn_index : option Q) :
  Forall (fun s => well_scored s) spans ->
  exists out scored,
    EvidenceScorer.score_evidence EvidenceScorer.default spans query
      event_type event_turn_index = Some out /\
    out ≡ₚ scored /\
    Forall2 (fun s s' =>
               scored_copy s s' /\
               holds_num s' "evidence_score" (weighted_evidence s) /\
               (relevance_of s == 1 -> num_field s "temporal_score" 0.5 == 0 ->
                num_field s "pattern_score" 0 == 0 -> num_field s "similarity_score" 0 == 0 ->
                holds_num s' "evidence_score" 0.4))
            spans scored.
Proof.
  intros Hall.
  destruct (mapM_score_span EvidenceScorer.default spans Hall) as [scored Hscored].
  destruct (score_evidence_Some _ _ query event_type event_turn_index _ Hscored)
    as (out & Hout & Hperm & _).
  exists out, scored. split; [done|]. split; [done|].
  eapply Forall2_impl; [by apply scored_spans_weighted|].
  intros s s' [Hcopy (q & Hq & Heq)]. split; [done|]. split; [by exists q|].
  intros Hr Ht Hp Hs. exists q. split; [done|].
  rewrite Heq. unfold weighted_evidence. rewrite Hr, Ht, Hp, Hs. reflexivity.
Qed.


(** *** The sequential annotation does not reach the evidence score *)

Lemma same_but_sequential_get s1 s2 k dflt1 dflt2 :
  same_but_sequential s1 s2 ->
  k <> "sequential_score"%string -> k <> "sequential_indicators"%string ->
  dflt1 = dflt2 ->
  dict_get s1 k dflt1 = dict_get s2 k dflt2.
Proof. intros H ? ? ->. unfold dict_get. by rewrite (H k). Qed.

Lemma score_span_same_ranked self s1 s2 :
  same_but_sequential s1 s2 ->
  option_Forall2 same_ranked (EvidenceScorer.score_span self s1)
                 (EvidenceScorer.score_span self s2).
Proof.
  intros H. unfold EvidenceScorer.score_span.
  rewrite (same_but_sequential_get s1 s2 "relevance_score" _
             (dict_get s2 "combined_score" (VNum 0)) H)
    by (done || by apply same_but_sequential_get).
  rewrite (same_but_sequential_get s1 s2 "similarity_score" _ (VNum 0) H) by done.
  rewrite (same_but_sequential_get s1 s2 "pattern_score" _ (VNum 0) H) by done.
  rewrite (same_but_sequential_get s1 s2 "temporal_score" _ (VNum 0.5) H) by done.
  destruct (as_num (dict_get s2 "relevance_score" _)); [|constructor].
  destruct (as_num (dict_get s2 "similarity_score" _)); [|constructor].
  destruct (as_num (dict_get s2 "pattern_score" _)); [|constructor].
  destruct (as_num (dict_get s2 "temporal_score" _)); [|constructor].
  cbn. constructor. split.
  - intros k Hk1 Hk2. rewrite !lookup_insert.
    repeat case_decide; try done. by apply H.
  - rewrite !(lookup_insert_ne _ "evidence_components") by done.
    by rewrite !lookup_insert_eq.
Qed.

Lemma mapM_option_Forall2 {A B A' B'} (R : A -> B -> Prop) (R' : A' -> B' -> Prop)
    (f : A -> option A') (g : B -> option B') l1 l2 :
  (forall a b, R a b -> option_Forall2 R' (f a) (g b)) ->
  Forall2 R l1 l2 ->
  option_Forall2 (Forall2 R') (mapM f l1) (mapM g l2).
Proof.
  intros Hfg Hl. induction Hl as [|a b l1 l2 Hab _ IH]; cbn.
  - repeat constructor.
  - destruct (Hfg a b Hab) as [a' b' Hab'|]; cbn; [|constructor].
    destruct IH as [l1' l2' Hl'|]; cbn; constructor. by constructor.
Qed.

Lemma same_ranked_key s1 s2 :
  same_ranked s1 s2 -> EvidenceScorer.evidence_key s1 = EvidenceScorer.evidence_key s2.
Proof. intros [_ H]. unfold EvidenceScorer.evidence_key, dict_get. by rewrite H. Qed.

Lemma sort_by_key_same_ranked reverse l1 l2 :
  Forall2 same_ranked l1 l2 ->
  option_Forall2 (Forall2 same_ranked)
    (sort_by_key reverse EvidenceScorer.evidence_key l1)
    (sort_by_key reverse EvidenceScorer.evidence_key l2).
Proof.
  intros Hl.
  assert (Forall (fun x => is_Some (EvidenceScorer.evidence_key x)) l1 <->
          Forall (fun x => is_Some (EvidenceScorer.evidence_key x)) l2) as Hsome.
  { induction Hl as [|a b l1 l2 Hab _ IH]; [done|].
    rewrite !Forall_cons, IH, (same_ranked_key a b Hab). done. }
  destruct (sort_by_key reverse _ l1) as [o1|] eqn:H1,
           (sort_by_key reverse _ l2) as [o2|] eqn:H2.
  - apply sort_by_key_Some in H1 as [_ ->]. apply sort_by_key_Some in H2 as [_ ->].
    constructor. apply (stable_sort_Forall2 same_ranked); [|done].
    intros a1 a2 b1 b2 Ha Hb. unfold key_le, key_of. cbn.
    by rewrite (same_ranked_key _ _ Ha), (same_ranked_key _ _ Hb).
  - apply sort_by_key_Some in H1 as [H1 _]. apply Hsome in H1.
    apply (sort_by_key_is_Some reverse) in H1. rewrite H2 in H1. by destruct H1.
  - apply sort_by_key_Some in H2 as [H2 _]. apply Hsome in H2.
    apply (sort_by_key_is_Some reverse) in H2. rewrite H1 in H2. by destruct H2.
  - constructor.
Qed.

Lemma score_evidence_same_ranked self l1 l2 q1 q2 et1 et2 eti1 eti2 :
  Forall2 same_but_sequential l1 l2 ->
  option_Forall2 (Forall2 same_ranked)
    (EvidenceScorer.score_evidence self l1 q1 et1 eti1)
    (EvidenceScorer.score_evidence self l2 q2 et2 eti2).
Proof.
  intros Hl. unfold EvidenceScorer.score_evidence.
  destruct (mapM_option_Forall2 same_but_sequential same_ranked
              (EvidenceScorer.score_span self) (EvidenceScorer.score_span self) l1 l2
              (score_span_same_ranked self) Hl) as [s1 s2 Hs|]; cbn; [|constructor].
  by apply sort_by_key_same_ranked.
Qed.

Lemma same_ranked_weaken s1 s2 : same_ranked s1 s2 -> same_but_sequential s1 s2.
Proof. by intros [? _]. Qed.

Lemma rank_evidence_same_ranked self l1 l2 top_k :
  Forall2 same_ranked l1 l2 ->
  option_Forall2 (Forall2 same_ranked)
    (EvidenceScorer.rank_evidence self l1 top_k)
    (EvidenceScorer.rank_evidence self l2 top_k).
Proof.
  intros Hl. unfold EvidenceScorer.rank_evidence.
  assert (forallb (fun span : pydict => bool_decide (is_Some (span !! "evidence_score"))) l1
          = forallb (fun span : pydict => bool_decide (is_Some (span !! "evidence_score"))) l2)
    as ->.
  { induction Hl as [|a b l1 l2 [_ Hab] _ IH]; [done|]. cbn. by rewrite IH, Hab. }
  assert (option_Forall2 (Forall2 same_ranked)
            (if forallb (fun span : pydict => bool_decide (is_Some (span !! "evidence_score"))) l2
             then Some l1 else EvidenceScorer.score_evidence self l1 "" None None)
            (if forallb (fun span : pydict => bool_decide (is_Some (span !! "evidence_score"))) l2
             then Some l2 else EvidenceScorer.score_evidence self l2 "" None None)) as Hspans.
  { destruct (forallb _ l2); [by constructor|].
    apply score_evidence_same_ranked.
    eapply Forall2_impl; [exact Hl|]. apply same_ranked_weaken. }
  destruct Hspans as [s1 s2 Hs|]; cbn; [|constructor].
  destruct (sort_by_key_same_ranked true s1 s2 Hs) as [r1 r2 Hr|]; cbn; [|constructor].
  destruct top_k as [k|]; constructor; [|done].
  unfold slice_to. rewrite (Forall2_length _ _ _ Hr). by apply Forall2_take.
Qed.

(** C10: two spans that differ only in [sequential_score] and
    [sequential_indicators] receive equal evidence scores, and two span
    lists that differ only so are scored and ranked alike: both runs raise,
    or both return, position by position, spans that agree but for the
    sequential annotation and carry equal evidence scores. *)
Theorem sequential_annotation_noninterference (self : EvidenceScorer.t)
    (l1 l2 : list pydict) (query : string) (event_type : option string)
    (event_turn_index : option Q) (top_k : Z) :
  Forall2 same_but_sequential l1 l2 ->
  Forall2 (fun s1 s2 => option_Forall2 same_ranked (EvidenceScorer.score_span self s1)
                                       (EvidenceScorer.score_span self s2)) l1 l2 /\
  option_Forall2 (Forall2 same_ranked)
    (EvidenceScorer.score_evidence self l1 query event_type event_turn_index)
    (EvidenceScorer.score_evidence self l2 query event_type event_turn_index) /\
  option_Forall2 (Forall2 same_ranked)
    (scored ← EvidenceScorer.score_evidence self l1 query event_type event_turn_index;
     EvidenceScorer.rank_evidence self scored (Some top_k))
    (scored ← EvidenceScorer.score_evidence self l2 query event_type event_turn_index;
     EvidenceScorer.rank_evidence self scored (Some top_k)).
Proof.
  intros Hl. split; [|split].
  - eapply Forall2_impl; [exact Hl|]. apply score_span_same_ranked.
  - by apply score_evidence_same_ranked.
  - destruct (score_evidence_same_ranked self l1 l2 query query event_type event_type
                event_turn_index event_turn_index Hl) as [s1 s2 Hs|]; cbn; [|constructor].
    by apply rank_evidence_same_ranked.
Qed.

Lemma score_evidence_weighted_sum_witness :
  exists out scored,
    EvidenceScorer.score_evidence EvidenceScorer.default Sample.spans "why" None None
      = Some out /\
    out ≡ₚ scored /\
    Forall2 (fun s s' =>
               scored_copy s s' /\
               holds_num s' "evidence_score" (weighted_evidence s) /\
               (relevance_of s == 1 -> num_field s "temporal_score" 0.5 == 0 ->
                num_field s "pattern_score" 0 == 0 -> num_field s "similarity_score" 0 == 0 ->
                holds_num s' "evidence_score" 0.4))
            Sample.spans scored.
Proof.
  apply (score_evidence_weighted_sum Sample.spans "why" None None).
  repeat (constructor; [vm_compute; exact I|]). constructor.
Defined.

(** In binary64 arithmetic too, relevance 1 with the other components 0
    scores exactly the float 0.4. *)
Example unit_relevance_binary64 :
  PrimFloat.eqb (EvidenceScorer.evidence_score_binary64 1 0 0 0) 0.4 = true.
Proof. vm_compute. reflexivity. Qed.


Lemma sequential_annotation_noninterference_witness :
  let l1 := [<["sequential_score" := VNum 1]> Sample.relevant_span] in
  let l2 := [<["sequential_indicators" := VNum 2]> Sample.relevant_span] in
  Forall2 (fun s1 s2 => option_Forall2 same_ranked
                          (EvidenceScorer.score_span EvidenceScorer.default s1)
                          (EvidenceScorer.score_span EvidenceScorer.default s2)) l1 l2 /\
  option_Forall2 (Forall2 same_ranked)
    (EvidenceScorer.score_evidence EvidenceScorer.default l1 "why" None None)
    (EvidenceScorer.score_evidence EvidenceScorer.default l2 "why" None None) /\
  option_Forall2 (Forall2 same_ranked)
    (scored ← EvidenceScorer.score_evidence EvidenceScorer.default l1 "why" None None;
     EvidenceScorer.rank_evidence EvidenceScorer.default scored (Some 10%Z))
    (scored ← EvidenceScorer.score_evidence EvidenceScorer.default l2 "why" None None;
     EvidenceScorer.rank_evidence EvidenceScorer.default scored (Some 10%Z)).
Proof.
  intros l1 l2.
  apply (sequential_annotation_noninterference EvidenceScorer.default l1 l2 "why" None None 10).
  constructor; [|constructor].
  intros k Hk1 Hk2. by rewrite !lookup_insert_ne.
Defined.

(** ** Temporal annotation *)

Lemma Qltb_lt x y : Qltb x y = true <-> x < y.
Proof.
  unfold Qltb. rewrite negb_true_iff, <- not_true_iff_false, Qle_bool_iff. split; lra.
Qed.

Lemma Qltb_ge x y : Qltb x y = false <-> ~ x < y.
Proof. rewrite <- Qltb_lt. destruct (Qltb x y); naive_solver. Qed.

Lemma temporal_score_of_zero d : d == 0 -> PatternDetector.temporal_score_of d = 1.
Proof.
  intros Hd. unfold PatternDetector.temporal_score_of.
  apply Qeq_bool_iff in Hd. by rewrite Hd.
Qed.

Lemma temporal_score_of_far d :
  ~ d == 0 -> PatternDetector.temporal_score_of d = 1 / (1 + d / 10).
Proof.
  intros Hd. unfold PatternDetector.temporal_score_of.
  destruct (Qeq_bool d 0) eqn:E; [|done].
  by apply Qeq_bool_iff in E.
Qed.

Lemma decay_pos x : 0 < x -> 0 < 1 / x.
Proof. intros Hx. unfold Qdiv. rewrite Qmult_1_l. by apply Qinv_lt_0_compat. Qed.

Lemma decay_decreasing x y : 0 < x -> x < y -> 1 / y < 1 / x.
Proof.
  intros Hx Hxy. unfold Qdiv. rewrite !Qmult_1_l.
  assert (0 < y) as Hy by lra.
  by apply (proj1 (Qinv_lt_contravar x y Hx Hy)).
Qed.

Lemma Qnonzero_pos d : 0 <= d -> ~ d == 0 -> 0 < d.
Proof.
  intros Hd E. destruct (Qlt_le_dec 0 d) as [|Hle]; [done|].
  exfalso. apply E. lra.
Qed.

Lemma decay_below_one x : 1 < x -> 1 / x < 1.
Proof. intros Hx. apply Qlt_shift_div_r; lra. Qed.

Lemma tenth_increasing d1 d2 : d1 < d2 -> 1 + d1 / 10 < 1 + d2 / 10.
Proof.
  intros H. assert (d1 / 10 < d2 / 10) by (by apply Qmult_lt_compat_r). lra.
Qed.

Lemma tenth_pos d : 0 < d -> 1 < 1 + d / 10.
Proof.
  intros H. assert (0 < d / 10) by (by apply Qmult_lt_0_compat). lra.
Qed.

Lemma temporal_score_bounds d :
  0 <= d ->
  0 < PatternDetector.temporal_score_of d /\ PatternDetector.temporal_score_of d <= 1.
Proof.
  intros Hd. destruct (Qeq_dec d 0) as [E|E].
  - rewrite (temporal_score_of_zero d E). lra.
  - rewrite (temporal_score_of_far d E).
    pose proof (tenth_pos d (Qnonzero_pos d Hd E)) as Hx.
    split; [apply decay_pos; lra|].
    by apply Qlt_le_weak, decay_below_one.
Qed.

Lemma temporal_score_decreasing d1 d2 :
  0 <= d1 -> d1 < d2 ->
  PatternDetector.temporal_score_of d2 < PatternDetector.temporal_score_of d1.
Proof.
  intros H1 H12.
  rewrite (temporal_score_of_far d2) by (intros E; lra).
  destruct (Qeq_dec d1 0) as [E|E].
  - rewrite (temporal_score_of_zero d1 E).
    assert (0 < d2) as Hpos by lra. apply tenth_pos in Hpos.
    by apply decay_below_one.
  - rewrite (temporal_score_of_far d1 E).
    pose proof (tenth_pos d1 (Qnonzero_pos d1 H1 E)) as Hpos.
    apply decay_decreasing; [lra | by apply tenth_increasing].
Qed.

Lemma temporal_relation_of_spec s_start s_end e :
  let r := PatternDetector.temporal_relation_of s_start s_end e in
  (s_end < e -> fst r = "precedes"%string /\ snd r == e - s_end) /\
  (~ s_end < e -> e < s_start -> fst r = "follows"%string /\ snd r == s_start - e) /\
  (~ s_end < e -> ~ e < s_start -> fst r = "overlaps"%string /\ snd r == 0) /\
  0 <= snd r.
Proof.
  unfold PatternDetector.temporal_relation_of.
  destruct (Qltb s_end e) eqn:E1; [|destruct (Qltb e s_start) eqn:E2]; cbn;
    rewrite ?Qltb_lt, ?Qltb_ge in *; repeat split; intros; try done; try lra.
Qed.

Lemma annotate_temporal_indexed e s :
  indexed s ->
  exists s', PatternDetector.annotate_temporal e s = Some s' /\ temporal_annotation e s s'.
Proof.
  unfold indexed. rewrite andb_True. intros [Hs He].
  unfold PatternDetector.annotate_temporal.
  rewrite (numeric_field_get s "start_turn_index" (VNum 0)) by (done || by eexists).
  rewrite (numeric_field_get s "end_turn_index" (VNum 0)) by (done || by eexists).
  cbn. fold (start_of s) (end_of s).
  destruct (temporal_relation_of_spec (start_of s) (end_of s) e) as (Hp & Hf & Ho & Hd).
  set (r := PatternDetector.temporal_relation_of (start_of s) (end_of s) e) in *.
  destruct (temporal_score_bounds (snd r) Hd) as [Hpos Hle].
  eexists. split; [done|].
  exists (fst r), (snd r), (PatternDetector.temporal_score_of (snd r)).
  split; [intros k ? ? ?; by lookup_inserts|].
  do 3 (split; [by lookup_inserts|]).
  repeat split; try done.
  - by apply Hp.
  - by apply Hp.
  - by apply Hf.
  - by apply Hf.
  - by apply Ho.
  - by apply Ho.
  - intros Hwf Hlt. apply Hf; [lra | done].
  - intros E. by rewrite (temporal_score_of_zero _ E).
  - intros E. by rewrite (temporal_score_of_far _ E).
Qed.

(** C6: for an event at turn [e] every span is annotated 'precedes' when its
    end index is before the event, else 'follows' when its start index is
    after it, else 'overlaps' with distance 0; the score is 1 at distance 0
    and 1/(1+distance/10) otherwise, lies in (0, 1], and strictly decreases
    as the distance grows. *)
Theorem detect_temporal_patterns_classifies (spans : list pydict) (e : Q) :
  Forall (fun s => indexed s) spans ->
  (exists out,
     PatternDetector.detect_temporal_patterns spans e = Some out /\
     Forall2 (temporal_annotation e) spans out) /\
  (forall d1 d2, 0 <= d1 -> d1 < d2 ->
     PatternDetector.temporal_score_of d2 < PatternDetector.temporal_score_of d1) /\
  (forall d, 0 <= d ->
     0 < PatternDetector.temporal_score_of d /\ PatternDetector.temporal_score_of d <= 1).
Proof.
  intros Hall. split; [|split].
  - unfold PatternDetector.detect_temporal_patterns.
    induction Hall as [|s spans Hs _ (out & Hout & Hann)]; cbn.
    + exists []. by split.
    + destruct (annotate_temporal_indexed e s Hs) as (s' & -> & Hs').
      rewrite Hout. cbn. exists (s' :: out). split; [done | by constructor].
  - apply temporal_score_decreasing.
  - apply temporal_score_bounds.
Qed.

Lemma detect_temporal_patterns_classifies_witness :
  let spans := [ <["start_turn_index" := VNum 0]> (<["end_turn_index" := VNum 4]> ∅);
                 <["start_turn_index" := VNum 8]> (<["end_turn_index" := VNum 12]> ∅) ] in
  (exists out,
     PatternDetector.detect_temporal_patterns spans 6 = Some out /\
     Forall2 (temporal_annotation 6) spans out) /\
  (forall d1 d2, 0 <= d1 -> d1 < d2 ->
     PatternDetector.temporal_score_of d2 < PatternDetector.temporal_score_of d1) /\
  (forall d, 0 <= d ->
     0 < PatternDetector.temporal_score_of d /\ PatternDetector.temporal_score_of d <= 1).
Proof.
  intros spans. apply (detect_temporal_patterns_classifies spans 6).
  repeat (constructor; [vm_compute; exact I|]). constructor.
Defined.

(** ** Pattern score *)

Lemma num_of_nat_nonneg n : 0 <= num_of_nat n.
Proof.
  unfold num_of_nat. replace 0 with (inject_Z 0) by done.
  rewrite <- Zle_Qle. lia.
Qed.

Lemma normalized_bounds n : 0 <= normalized n /\ normalized n <= 1.
Proof.
  unfold normalized. split; [|apply Q.le_min_r].
  apply Q.min_glb; [|lra].
  apply Qle_shift_div_l; [lra|]. pose proof (num_of_nat_nonneg n). lra.
Qed.

Lemma any_flag_fired (behavioral : pydict) :
  existsb (fun kv => PatternDetector.is_true_flag (snd kv)) (map_to_list behavioral) = true
  <-> flag_fired behavioral.
Proof.
  rewrite existsb_exists. unfold flag_fired. split.
  - intros ([k v] & Hin & Hv). exists k.
    apply list_elem_of_In, elem_of_map_to_list in Hin. cbn in Hv.
    destruct v as [|[|]| | | |]; try done.
  - intros [k Hk]. exists (k, VBool true). split; [|done].
    by apply list_elem_of_In, elem_of_map_to_list.
Qed.

Lemma detect_patterns_result span event_type :
  has_text span ->
  exists p, PatternDetector.detect_patterns span event_type = Some p /\
            pattern_result (text_of span) event_type p.
Proof.
  intros Htext.
  assert (as_str (dict_get span "text" (VStr "")) ≫= (fun s => Some (lower s))
          = Some (text_of span)) as Hlower.
  { unfold has_text in Htext. unfold dict_get, text_of.
    destruct (span !! "text") as [[| | | | |]|]; try done. }
  unfold PatternDetector.detect_patterns.
  change (lower <$> as_str (dict_get span "text" (VStr "")))
    with (as_str (dict_get span "text" (VStr "")) ≫= (fun s => Some (lower s))).
  rewrite Hlower. cbn [mbind option_bind].
  set (text := text_of span).
  set (ct := PatternDetector.count_indicators text (PatternDetector.indicators_of "temporal")).
  set (cc := PatternDetector.count_indicators text (PatternDetector.indicators_of "causal")).
  set (cd := PatternDetector.count_indicators text (PatternDetector.indicators_of "conditional")).
  set (cs := PatternDetector.count_indicators text (PatternDetector.indicators_of "consequence")).
  set (behavioral := PatternDetector.detect_behavioral_patterns text event_type).
  unfold PatternDetector.calculate_pattern_score, PatternDetector.weights.
  cbn [foldl fst snd]. unfold dict_get. lookup_inserts.
  cbn [as_num as_dict mbind option_bind].
  eexists. split; [done|].
  exists ct, cc, cd, cs, behavioral. eexists.
  do 5 (split; [done|]).
  do 6 (split; [by lookup_inserts|]).
  fold (normalized ct) (normalized cc) (normalized cd) (normalized cs).
  pose proof (normalized_bounds ct) as [? ?].
  pose proof (normalized_bounds cc) as [? ?].
  pose proof (normalized_bounds cd) as [? ?].
  pose proof (normalized_bounds cs) as [? ?].
  destruct (existsb _ (map_to_list behavioral)) eqn:Hany.
  - apply any_flag_fired in Hany. split; [|split; [done|]].
    + intros _. unfold indicator_sum. apply Q.min_compat; [lra | done].
    + split; [apply Q.min_glb; lra | apply Q.le_min_r].
  - apply not_true_iff_false in Hany. rewrite any_flag_fired in Hany.
    split; [done|]. split.
    + intros _. unfold indicator_sum. apply Q.min_compat; [lra | done].
    + split; [apply Q.min_glb; lra | apply Q.le_min_r].
Qed.

Lemma behavioral_flag_recorded text event_type name keywords :
  In (name, keywords) PatternDetector.behavioral_patterns ->
  PatternDetector.detect_behavioral_patterns text event_type !! name
  = Some (VBool (0 <? PatternDetector.count_indicators text keywords)%nat).
Proof.
  intros Hin. unfold PatternDetector.detect_behavioral_patterns.
  assert (forall detected : pydict,
            detected !! name
            = Some (VBool (0 <? PatternDetector.count_indicators text keywords)%nat) ->
            match event_type with
            | Some (String c et) =>
                foldl (PatternDetector.record_pattern text "event_") detected
                      (PatternDetector.get_event_specific_patterns (String c et))
            | _ => detected
            end !! name
            = Some (VBool (0 <? PatternDetector.count_indicators text keywords)%nat)) as Hevent.
  { intros detected Hd. destruct event_type as [[|c et]|]; try done.
    unfold PatternDetector.get_event_specific_patterns.
    cbn in Hin.
    repeat (destruct (str_contains _ _); [
      cbn; unfold PatternDetector.record_pattern; cbn;
      repeat (destruct Hin as [Hin|Hin]; [injection Hin as <- <-; by lookup_inserts|]);
      done |]).
    done. }
  apply Hevent. cbn in Hin |- *. unfold PatternDetector.record_pattern. cbn.
  repeat (destruct Hin as [Hin|Hin]; [injection Hin as <- <-; by lookup_inserts|]).
  done.
Qed.

Lemma event_flag_recorded text e name keywords :
  e <> ""%string ->
  In (name, keywords) (PatternDetector.get_event_specific_patterns e) ->
  PatternDetector.detect_behavioral_patterns text (Some e) !! ("event_" ++ name)%string
  = Some (VBool (0 <? PatternDetector.count_indicators text keywords)%nat).
Proof.
  intros He Hin. unfold PatternDetector.detect_behavioral_patterns.
  destruct e as [|c et]; [done|].
  unfold PatternDetector.get_event_specific_patterns in *.
  repeat (destruct (str_contains _ _); [
    cbn in Hin |- *; unfold PatternDetector.record_pattern; cbn;
    destruct Hin as [Hin|[]]; injection Hin as <- <-; by lookup_inserts |]).
  done.
Qed.

(** C5: the pattern score of a span is the sum of the temporal, causal,
    conditional and consequence counts, each normalized by min(count/5, 1)
    and weighted 0.2, 0.4, 0.2, 0.2, plus 0.2 when a behavioral flag fired,
    capped at 1; the flags are those of the six behavioral lexicons and,
    when an event type is given, of its event-specific lexicon; the score
    lies in [0, 1]. *)
Theorem detect_patterns_score (span : pydict) (event_type : option string) :
  has_text span ->
  exists p,
    PatternDetector.detect_patterns span event_type = Some p /\
    pattern_result (text_of span) event_type p /\
    (forall name keywords,
       In (name, keywords) PatternDetector.behavioral_patterns ->
       PatternDetector.detect_behavioral_patterns (text_of span) event_type !! name
       = Some (VBool (0 <? PatternDetector.count_indicators (text_of span) keywords)%nat)) /\
    (forall e name keywords,
       event_type = Some e -> e <> ""%string ->
       In (name, keywords) (PatternDetector.get_event_specific_patterns e) ->
       PatternDetector.detect_behavioral_patterns (text_of span) event_type
         !! ("event_" ++ name)%string
       = Some (VBool (0 <? PatternDetector.count_indicators (text_of span) keywords)%nat)).
Proof.
  intros Htext.
  destruct (detect_patterns_result span event_type Htext) as (p & Hp & Hres).
  exists p. split; [done|]. split; [done|]. split.
  - intros name keywords. apply behavioral_flag_recorded.
  - intros e name keywords -> He. by apply event_flag_recorded.
Qed.

Lemma detect_patterns_score_witness :
  exists p,
    PatternDetector.detect_patterns SampleText.upset_span (Some "Escalation"%string) = Some p /\
    pattern_result (text_of SampleText.upset_span) (Some "Escalation"%string) p /\
    (forall name keywords,
       In (name, keywords) PatternDetector.behavioral_patterns ->
       PatternDetector.detect_behavioral_patterns (text_of SampleText.upset_span)
         (Some "Escalation"%string) !! name
       = Some (VBool (0 <? PatternDetector.count_indicators
                             (text_of SampleText.upset_span) keywords)%nat)) /\
    (forall e name keywords,
       Some "Escalation"%string = Some e -> e <> ""%string ->
       In (name, keywords) (PatternDetector.get_event_specific_patterns e) ->
       PatternDetector.detect_behavioral_patterns (text_of SampleText.upset_span)
         (Some "Escalation"%string) !! ("event_" ++ name)%string
       = Some (VBool (0 <? PatternDetector.count_indicators
                             (text_of SampleText.upset_span) keywords)%nat)).
Proof.
  apply (detect_patterns_score SampleText.upset_span (Some "Escalation"%string)).
  vm_compute. exact I.
Defined.

(** On the sample span one indicator of three categories and two flags
    (frustration, and the escalation trigger "want to speak") give
    0.2*0.2 + 0.4*0.2 + 0.2*0.2 + 0.2 = 0.36. *)
Example detect_patterns_sample :
  exists p d,
    PatternDetector.detect_patterns SampleText.upset_span (Some "Escalation"%string) = Some p /\
    holds_num p "pattern_score" 0.36 /\
    p !! "behavioral_patterns" = Some (VDict d) /\
    d !! "event_escalation_triggers" = Some (VBool true) /\
    d !! "frustration" = Some (VBool true) /\
    d !! "hesitation" = Some (VBool false).
Proof.
  exists SampleText.upset_patterns, SampleText.upset_flags.
  split; [reflexivity|].
  split; [eexists; split; [vm_compute; reflexivity | reflexivity]|].
  split; [reflexivity|].
  repeat split; vm_compute; reflexivity.
Qed.

(** ** Sequential annotation *)

Lemma key_of_start_key s : key_of PatternDetector.start_key s = start_of s.
Proof.
  unfold key_of, PatternDetector.start_key, start_of, num_field, dict_get.
  by destruct (s !! "start_turn_index").
Qed.

Lemma indexed_start_key s : indexed s -> is_Some (PatternDetector.start_key s).
Proof.
  unfold indexed. rewrite andb_True. intros [Hs _].
  unfold PatternDetector.start_key.
  rewrite (numeric_field_get s "start_turn_index" (VNum 0)) by (done || by eexists).
  by eexists.
Qed.

Lemma is_sequential_indexed s1 s2 :
  indexed s1 -> indexed s2 ->
  PatternDetector.is_sequential s1 s2 = Some (sequential_pair s1 s2).
Proof.
  unfold indexed. rewrite !andb_True. intros [_ He] [Hs _].
  unfold PatternDetector.is_sequential.
  rewrite (numeric_field_get s1 "end_turn_index" (VNum 0)) by (done || by eexists).
  rewrite (numeric_field_get s2 "start_turn_index" (VNum 0)) by (done || by eexists).
  done.
Qed.

Lemma sequential_pair_spec s1 s2 :
  sequential_pair s1 s2 = true <-> Qabs (start_of s2 - end_of s1) <= 2.
Proof. apply Qle_bool_iff. Qed.

Lemma annotate_sequential_spec sorted i s :
  Forall (fun s => indexed s) sorted ->
  sorted !! i = Some s ->
  PatternDetector.annotate_sequential sorted i
  = Some (<["sequential_score" :=
              VNum (Qmin (num_of_nat (sequential_neighbours sorted i) / 2) 1)]>
         (<["sequential_indicators" := VNum (num_of_nat (sequential_neighbours sorted i))]> s)).
Proof.
  intros Hall Hs. unfold PatternDetector.annotate_sequential. rewrite Hs.
  cbn [mbind option_bind].
  pose proof (Forall_lookup_1 _ _ _ _ Hall Hs) as Hidx.
  assert (PatternDetector.neighbour_count (0 <? i)%nat (sorted !! (i - 1)%nat) (Some s)
          = Some (Nat.b2n (prev_sequential sorted i))) as ->.
  { unfold prev_sequential. destruct i as [|j]; [done|].
    cbn. rewrite Nat.sub_0_r.
    destruct (lookup_lt_is_Some_2 sorted j) as [p Hp].
    { apply lookup_lt_Some in Hs. lia. }
    rewrite Hp, Hs. cbn.
    by rewrite (is_sequential_indexed p s (Forall_lookup_1 _ _ _ _ Hall Hp) Hidx). }
  assert (PatternDetector.neighbour_count (i <? length sorted - 1)%nat (Some s)
            (sorted !! (i + 1)%nat)
          = Some (Nat.b2n (next_sequential sorted i))) as ->.
  { unfold next_sequential. rewrite Nat.add_1_r, Hs.
    destruct (sorted !! S i) as [n|] eqn:Hn.
    - assert ((i <? length sorted - 1)%nat = true) as ->.
      { apply Nat.ltb_lt. apply lookup_lt_Some in Hn. lia. }
      cbn. by rewrite (is_sequential_indexed s n Hidx (Forall_lookup_1 _ _ _ _ Hall Hn)).
    - assert ((i <? length sorted - 1)%nat = false) as ->.
      { apply Nat.ltb_ge. apply lookup_ge_None in Hn. lia. }
      done. }
  done.
Qed.

Lemma annotate_all_sequential sorted :
  Forall (fun s => indexed s) sorted ->
  exists out,
    mapM (PatternDetector.annotate_sequential sorted) (seq 0 (length sorted)) = Some out /\
    length out = length sorted /\
    forall i s, sorted !! i = Some s ->
      out !! i
      = Some (<["sequential_score" :=
                  VNum (Qmin (num_of_nat (sequential_neighbours sorted i) / 2) 1)]>
             (<["sequential_indicators" :=
                  VNum (num_of_nat (sequential_neighbours sorted i))]> s)).
Proof.
  intros Hall.
  destruct (mapM (PatternDetector.annotate_sequential sorted) (seq 0 (length sorted)))
    as [out|] eqn:Hout.
  - exists out. split; [done|]. apply mapM_Some in Hout.
    pose proof (Forall2_length _ _ _ Hout) as Hlen. rewrite length_seq in Hlen.
    split; [done|]. intros i s Hs.
    pose proof (lookup_lt_Some _ _ _ Hs) as Hi.
    destruct (Forall2_lookup_l _ _ _ i i Hout) as (s' & Hs' & Hann).
    { by apply lookup_seq_lt. }
    rewrite Hs'. by rewrite (annotate_sequential_spec sorted i s Hall Hs) in Hann.
  - exfalso. apply eq_None_not_Some in Hout. apply Hout, mapM_is_Some.
    apply Forall_forall. intros i Hi%elem_of_seq. cbn.
    destruct (lookup_lt_is_Some_2 sorted i) as [s Hs]; [lia|].
    rewrite (annotate_sequential_spec sorted i s Hall Hs). by eexists.
Qed.

(** C4, as amended: [detect_sequential_patterns] returns a list of fewer
    than two spans as it is, so that its spans get no sequential score; on
    at least two spans it sorts the spans by start index, keeping the order
    of equal starts, and counts two spans adjacent in that order as
    sequential exactly when the start of the second lies within 2 turns of
    the end of the first on either side, that is when |start2 - end1| <= 2;
    every span gets [sequential_indicators], the number of its sequential
    neighbours, and [sequential_score] = min(sequential_indicators/2, 1). *)
Theorem detect_sequential_patterns_counts (spans : list pydict) :
  ((length spans < 2)%nat ->
   PatternDetector.detect_sequential_patterns spans = Some spans) /\
  (Forall (fun s => indexed s) spans ->
   (2 <= length spans)%nat ->
   exists sorted out,
     sort_by_key false PatternDetector.start_key spans = Some sorted /\
     sorted ≡ₚ spans /\
     StronglySorted (fun a b => start_of a <= start_of b) sorted /\
     (forall q, List.filter (fun s => Qeq_bool (start_of s) q) sorted
                = List.filter (fun s => Qeq_bool (start_of s) q) spans) /\
     PatternDetector.detect_sequential_patterns spans = Some out /\
     length out = length sorted /\
     (forall s1 s2, sequential_pair s1 s2 = true <-> Qabs (start_of s2 - end_of s1) <= 2) /\
     (forall i s, sorted !! i = Some s ->
        PatternDetector.is_sequential s s = Some (sequential_pair s s) /\
        exists s',
          out !! i = Some s' /\
          sequential_copy s s' /\
          holds_num s' "sequential_indicators" (num_of_nat (sequential_neighbours sorted i)) /\
          holds_num s' "sequential_score"
            (Qmin (num_of_nat (sequential_neighbours sorted i) / 2) 1)) /\
     (forall i s1 s2, sorted !! i = Some s1 -> sorted !! S i = Some s2 ->
        PatternDetector.is_sequential s1 s2 = Some (sequential_pair s1 s2))).
Proof.
  split.
  { intros Hshort. unfold PatternDetector.detect_sequential_patterns.
    by assert ((length spans <? 2)%nat = true) as -> by (apply Nat.ltb_lt; lia). }
  intros Hall Hlen.
  destruct (sort_by_key_is_Some false PatternDetector.start_key spans) as [sorted Hsorted].
  { eapply Forall_impl; [exact Hall|]. apply indexed_start_key. }
  pose proof (sort_by_key_perm _ _ _ _ Hsorted) as Hperm.
  assert (Forall (fun s => indexed s) sorted) as Hall' by (by rewrite Hperm).
  destruct (annotate_all_sequential sorted Hall') as (out & Hout & Hlen' & Hann).
  exists sorted, out. split; [done|]. split; [done|]. split.
  { eapply StronglySorted_weaken; [|by eapply sort_by_key_sorted].
    intros a b. unfold in_order. by rewrite !key_of_start_key. }
  split.
  { intros q. eapply sort_by_key_stable; [done|].
    intros x y Hx%Qeq_bool_iff Hy%Qeq_bool_iff. rewrite !key_of_start_key. lra. }
  split.
  { unfold PatternDetector.detect_sequential_patterns.
    assert ((length spans <? 2)%nat = false) as -> by (apply Nat.ltb_ge; lia).
    rewrite Hsorted. done. }
  split; [done|]. split; [apply sequential_pair_spec|]. split.
  - intros i s Hs.
    pose proof (Forall_lookup_1 _ _ _ _ Hall' Hs) as Hidx.
    split; [by apply is_sequential_indexed|].
    eexists. split; [by apply Hann|]. split.
    + intros k ? ?. by lookup_inserts.
    + split; (eexists; split; [by lookup_inserts | reflexivity]).
  - intros i s1 s2 H1 H2.
    apply is_sequential_indexed.
    + exact (Forall_lookup_1 _ _ _ _ Hall' H1).
    + exact (Forall_lookup_1 _ _ _ _ Hall' H2).
Qed.

Lemma detect_sequential_patterns_counts_witness :
  let spans := [ SampleTurns.span_between 5 9; SampleTurns.span_between 0 4 ] in
  PatternDetector.detect_sequential_patterns [ SampleTurns.span_between 5 9 ]
  = Some [ SampleTurns.span_between 5 9 ] /\
  exists sorted out,
    sort_by_key false PatternDetector.start_key spans = Some sorted /\
    sorted ≡ₚ spans /\
    StronglySorted (fun a b => start_of a <= start_of b) sorted /\
    (forall q, List.filter (fun s => Qeq_bool (start_of s) q) sorted
               = List.filter (fun s => Qeq_bool (start_of s) q) spans) /\
    PatternDetector.detect_sequential_patterns spans = Some out /\
    length out = length sorted /\
    (forall s1 s2, sequential_pair s1 s2 = true <-> Qabs (start_of s2 - end_of s1) <= 2) /\
    (forall i s, sorted !! i = Some s ->
       PatternDetector.is_sequential s s = Some (sequential_pair s s) /\
       exists s',
         out !! i = Some s' /\
         sequential_copy s s' /\
         holds_num s' "sequential_indicators" (num_of_nat (sequential_neighbours sorted i)) /\
         holds_num s' "sequential_score"
           (Qmin (num_of_nat (sequential_neighbours sorted i) / 2) 1)) /\
    (forall i s1 s2, sorted !! i = Some s1 -> sorted !! S i = Some s2 ->
       PatternDetector.is_sequential s1 s2 = Some (sequential_pair s1 s2)).
Proof.
  intros spans. split.
  - apply (proj1 (detect_sequential_patterns_counts [ SampleTurns.span_between 5 9 ])).
    cbn. lia.
  - apply (proj2 (detect_sequential_patterns_counts spans)).
    + repeat (constructor; [vm_compute; exact I|]). constructor.
    + cbn. lia.
Defined.

(** C4 as stated fails.  The two windows of the default size 5 over six
    turns are adjacent in start order and the gap from the end of the first
    (turn 4) to the start of the second (turn 1) is -3, at most 2, yet they
    are not counted as sequential: both get 0 sequential indicators.  And a
    single span is returned as it is, with no sequential score at all. *)
Lemma consecutive_windows_not_sequential :
  exists w0 w1 out0 out1,
    SpanExtractor.create_spans_from_turns SampleTurns.six_turns "t" 0
      SpanExtractor.default_window_size = Some [w0; w1] /\
    start_of w0 == 0 /\ end_of w0 == 4 /\ start_of w1 == 1 /\ end_of w1 == 5 /\
    gap w0 w1 <= 2 /\
    PatternDetector.is_sequential w0 w1 = Some false /\
    PatternDetector.detect_sequential_patterns [w0; w1] = Some [out0; out1] /\
    holds_num out0 "sequential_indicators" 0 /\ holds_num out0 "sequential_score" 0 /\
    holds_num out1 "sequential_indicators" 0 /\ holds_num out1 "sequential_score" 0 /\
    PatternDetector.detect_sequential_patterns [w0] = Some [w0] /\
    w0 !! "sequential_score" = None.
Proof.
  exists (SampleTurns.window_at 0), (SampleTurns.window_at 1),
         (SampleTurns.annotated_at 0), (SampleTurns.annotated_at 1).
  split; [reflexivity|].
  do 4 (split; [vm_compute; reflexivity|]).
  split; [vm_compute; discriminate|].
  split; [vm_compute; reflexivity|].
  split; [reflexivity|].
  do 4 (split; [eexists; split; [vm_compute; reflexivity | reflexivity]|]).
  split; [reflexivity | vm_compute; reflexivity].
Qed.

(** ** Sliding windows *)

Lemma mapM_total {A B} (f : A -> option B) (g : A -> B) l :
  Forall (fun x => f x = Some (g x)) l -> mapM f l = Some (g <$> l).
Proof.
  induction 1 as [|x l Hx _ IH]; [done|]. cbn. by rewrite Hx, IH.
Qed.

Lemma turn_ok_text turn :
  turn_ok turn -> as_str (dict_get turn "text" (VStr "")) = Some (turn_text turn).
Proof.
  unfold turn_ok, dict_get, turn_text. rewrite andb_True. intros [H _].
  by destruct (turn !! "text") as [[| | | | |]|].
Qed.

Lemma turn_ok_speaker turn :
  turn_ok turn ->
  dict_get turn "speaker" (VStr "unknown") = VStr (turn_speaker turn).
Proof.
  unfold turn_ok, dict_get, turn_speaker. rewrite andb_True. intros [_ H].
  by destruct (turn !! "speaker") as [[| | | | |]|].
Qed.

Lemma slice_window {A} (l : list A) (i w : nat) :
  (i + w <= length l)%nat ->
  slice (Z.of_nat i) (Z.of_nat i + Z.of_nat w) l = take w (drop i l).
Proof.
  intros H. unfold slice, norm_index.
  assert ((Z.of_nat i <? 0)%Z = false) as -> by lia.
  assert ((Z.of_nat i + Z.of_nat w <? 0)%Z = false) as -> by lia.
  f_equal; [|f_equal]; lia.
Qed.

Lemma make_span_window turns transcript_id start_index (w i : nat) :
  Forall (fun t => turn_ok t) turns ->
  (i + w <= length turns)%nat ->
  exists span,
    SpanExtractor.make_span turns transcript_id start_index (Z.of_nat w) (Z.of_nat i)
    = Some span /\
    covers turns transcript_id start_index w i span.
Proof.
  intros Hok Hlen. unfold SpanExtractor.make_span.
  rewrite slice_window by done. fold (window turns i w).
  assert (Forall (fun t => turn_ok t) (window turns i w)) as Hwin.
  { unfold window. by apply Forall_take, Forall_drop. }
  rewrite (mapM_total _ turn_text) by
    (eapply Forall_impl; [exact Hwin|]; apply turn_ok_text).
  cbn [mbind option_bind].
  assert ((fun turn : pydict => dict_get turn "speaker" (VStr "unknown")) <$> window turns i w
          = VStr <$> (turn_speaker <$> window turns i w)) as Hsp.
  { rewrite <- list_fmap_compose. apply Forall_fmap_ext_1.
    eapply Forall_impl; [exact Hwin|]. intros t Ht. by apply turn_ok_speaker. }
  rewrite Hsp.
  rewrite (mapM_total as_str (fun v => default "" (as_str v)) (VStr <$> _)) by
    (apply Forall_fmap, Forall_forall; intros; done).
  cbn [mbind option_bind].
  eexists. split; [done|].
  do 3 eexists.
  split; [by lookup_inserts|]. split; [by lookup_inserts|].
  split; [done|]. split; [done|]. split.
  { unfold Qminus. rewrite <- inject_Z_opp, <- inject_Z_plus.
    change 1 with (inject_Z 1). rewrite <- inject_Z_plus.
    apply inject_Z_injective. lia. }
  split; [by lookup_inserts|]. split.
  { rewrite length_imap. unfold window. rewrite length_take, length_drop. lia. }
  split.
  { intros j turn Hj Hturn. rewrite list_lookup_imap. unfold window.
    rewrite lookup_take_lt by done. rewrite lookup_drop, Hturn. cbn.
    unfold turn_id_at. do 4 f_equal. lia. }
  split; [by lookup_inserts|]. split.
  { lookup_inserts. by rewrite <- list_fmap_compose. }
  split; [by lookup_inserts|]. split; [by lookup_inserts|].
  eexists. split; by lookup_inserts.
Qed.

(** C2: for a window size W >= 1 over N turns with W <= N,
    [_create_spans_from_turns] returns exactly N-W+1 spans in the order of
    their start index; the i-th covers the turns i, ..., i+W-1: its turn ids
    are theirs, its text and speakers are theirs in order, and
    end - start + 1 = W; on an empty turn list, or when W > N, the result is
    the empty list. *)
Theorem create_spans_from_turns_windows (turns : list pydict) (transcript_id : string)
    (start_index window_size : Z) :
  (1 <= window_size)%Z ->
  Forall (fun t => turn_ok t) turns ->
  ((window_size <= Z.of_nat (length turns))%Z ->
   exists spans,
     SpanExtractor.create_spans_from_turns turns transcript_id start_index window_size
     = Some spans /\
     Z.of_nat (length spans) = (Z.of_nat (length turns) - window_size + 1)%Z /\
     forall i, (i < length spans)%nat ->
       exists span, spans !! i = Some span /\
                    covers turns transcript_id start_index (Z.to_nat window_size) i span) /\
  (turns = [] \/ (Z.of_nat (length turns) < window_size)%Z ->
   SpanExtractor.create_spans_from_turns turns transcript_id start_index window_size
   = Some []).
Proof.
  intros HW Hok. unfold SpanExtractor.create_spans_from_turns, range. split.
  - intros Hle.
    assert (exists w, window_size = Z.of_nat w) as [w ->]
      by (exists (Z.to_nat window_size); lia).
    set (m := Z.to_nat (Z.of_nat (length turns) - Z.of_nat w + 1)).
    assert (forall i, (i < m)%nat -> (i + w <= length turns)%nat) as Hfit by lia.
    destruct (mapM _ (Z.of_nat <$> seq 0 m)) as [spans|] eqn:Hspans.
    + exists spans. split; [done|]. apply mapM_Some in Hspans.
      pose proof (Forall2_length _ _ _ Hspans) as Hlen.
      rewrite length_fmap, length_seq in Hlen.
      split; [lia|]. intros i Hi.
      destruct (Forall2_lookup_l _ _ _ i (Z.of_nat i) Hspans) as (span & Hspan & Hmake).
      { rewrite list_lookup_fmap, lookup_seq_lt by lia. done. }
      exists span. split; [done|].
      destruct (make_span_window turns transcript_id start_index w i Hok) as (span' & Hs' & Hc).
      { apply Hfit. lia. }
      rewrite Nat2Z.id. rewrite Hmake in Hs'. by injection Hs' as <-.
    + exfalso. apply eq_None_not_Some in Hspans. apply Hspans, mapM_is_Some.
      apply Forall_fmap, Forall_forall. intros i Hi%elem_of_seq. cbn.
      destruct (make_span_window turns transcript_id start_index w i Hok) as (span' & -> & _);
        [apply Hfit; lia | by eexists].
  - intros Hshort.
    assert (Z.to_nat (Z.of_nat (length turns) - window_size + 1) = 0%nat) as ->.
    { destruct Hshort as [-> | ?]; cbn; lia. }
    done.
Qed.

Lemma create_spans_from_turns_windows_witness :
  (SpanExtractor.default_window_size <= Z.of_nat (length SampleTurns.six_turns))%Z /\
  (exists spans,
     SpanExtractor.create_spans_from_turns SampleTurns.six_turns "t" 0
       SpanExtractor.default_window_size = Some spans /\
     Z.of_nat (length spans)
     = (Z.of_nat (length SampleTurns.six_turns) - SpanExtractor.default_window_size + 1)%Z /\
     forall i, (i < length spans)%nat ->
       exists span, spans !! i = Some span /\
                    covers SampleTurns.six_turns "t" 0
                      (Z.to_nat SpanExtractor.default_window_size) i span).
Proof.
  split; [vm_compute; discriminate|].
  apply (create_spans_from_turns_windows SampleTurns.six_turns "t" 0
           SpanExtractor.default_window_size).
  - vm_compute. discriminate.
  - repeat (constructor; [vm_compute; exact I|]). constructor.
  - vm_compute. discriminate.
Defined.

(** ** Follow-up classification *)

Lemma append_String c s t : (String c s ++ t)%string = String c (s ++ t).
Proof. reflexivity. Qed.

Lemma append_Empty t : ("" ++ t)%string = t.
Proof. reflexivity. Qed.

Lemma prefix_spec p s : String.prefix p s = true <-> exists after, s = (p ++ after)%string.
Proof.
  revert s. induction p as [|a p IH]; intros s; cbn.
  - destruct s; split; eauto.
  - destruct s as [|b s]; cbn.
    + split; [done | by intros [? ?]].
    + destruct (ascii_dec a b) as [->|Hne].
      * rewrite IH. split; intros [after H]; exists after;
          rewrite append_String in *; congruence.
      * split; [done|]. intros [after H]. rewrite append_String in H. congruence.
Qed.

Lemma str_contains_spec needle hay :
  str_contains needle hay = true <-> occurs_in needle hay.
Proof.
  unfold occurs_in. induction hay as [|c hay IH].
  - cbn [str_contains]. rewrite orb_false_r, prefix_spec. split.
    + intros [after H]. by exists ""%string, after.
    + intros ([|? ?] & after & H); [by exists after | by rewrite append_String in H].
  - cbn [str_contains]. rewrite orb_true_iff, prefix_spec, IH. split.
    + intros [[after H] | (before & after & H)].
      * by exists ""%string, after.
      * exists (String c before), after. by rewrite append_String, H.
    + intros ([|c' before] & after & H).
      * left. by exists after.
      * right. exists before, after. rewrite append_String in H. congruence.
Qed.

Lemma looks_like_followup_spec query :
  ContextManager.looks_like_followup query = true <-> followup_evidence query.
Proof.
  unfold ContextManager.looks_like_followup, followup_evidence, whole_word.
  change (cue_phrases ++ _) with ContextManager.followup_indicators.
  change [ "it"; "that"; "this"; "these"; "those"; "they"; "them" ]
    with ContextManager.pronouns.
  destruct (existsb (fun indicator => str_contains indicator (lower query)) _) eqn:Hcue.
  { split; [|done]. intros _. left.
    apply existsb_exists in Hcue as (cue & Hin & Hc). exists cue.
    split; [done | by apply str_contains_spec]. }
  destruct (existsb (fun word => existsb (String.eqb word) _) _) eqn:Hpro.
  { split; [|done]. intros _. right. left.
    apply existsb_exists in Hpro as (word & Hin & Hw). exists word. split; [done|].
    apply existsb_exists in Hw as (p & Hp & ->%String.eqb_eq). done. }
  destruct (length (split query) <? 5)%nat eqn:Hlen.
  { split; [|done]. intros _. right. right. by apply Nat.ltb_lt. }
  split; [done|]. intros [(cue & Hin & Hc) | [(word & Hin & Hw) | Hshort]].
  - apply not_true_iff_false in Hcue. destruct Hcue. apply existsb_exists.
    exists cue. split; [done | by apply str_contains_spec].
  - apply not_true_iff_false in Hpro. destruct Hpro. apply existsb_exists.
    exists word. split; [done|]. apply existsb_exists. exists word.
    split; [done | by apply String.eqb_eq].
  - apply Nat.ltb_ge in Hlen. lia.
Qed.

Lemma whole_word_evidence_suffices query :
  whole_word_evidence query -> followup_evidence query.
Proof.
  intros [(cue & Hin & Hc) | H]; [|by right].
  left. exists cue. split; [|done]. apply in_or_app. by left.
Qed.

(** C3, as amended: [is_followup] leaves the state as it is and answers
    [false] for a conversation without recorded turns, whatever the query;
    for a conversation with turns it answers [true] exactly when the
    lower-cased query contains, anywhere and also inside a longer word, one
    of the twelve cue phrases or one of it, that, this, these, those, they,
    or contains one of it, that, this, these, those, they, them as a
    whitespace-separated word, or the query has fewer than 5 words; so it
    answers [true] whenever a cue phrase occurs, a pronoun is a whole word
    or the query is short, and "what about it?" is a follow-up of any
    conversation with turns. *)
Theorem is_followup_decision (w : ContextManager.World) (query cid : string) :
  exists b,
    ContextManager.is_followup query cid w = (Returned b, w) /\
    (ContextManager.turn_log w cid = [] -> b = false) /\
    (ContextManager.turn_log w cid <> [] -> (b = true <-> followup_evidence query)) /\
    (ContextManager.turn_log w cid <> [] -> whole_word_evidence query -> b = true) /\
    (ContextManager.turn_log w cid <> [] ->
     ContextManager.is_followup "what about it?" cid w = (Returned true, w)).
Proof.
  exists (ContextManager.is_followup_in (ContextManager.conversations w) query cid).
  split; [done|].
  assert (forall q, ContextManager.is_followup q cid w
                    = (Returned (ContextManager.is_followup_in
                                   (ContextManager.conversations w) q cid), w)) as -> by done.
  unfold ContextManager.is_followup_in, ContextManager.turn_log.
  destruct (ContextManager.conversations w !! cid) as [c|];
    [destruct (ContextManager.turns c) as [|t ts]|];
    (split; [done|]); (split; [|split; [|done]]); try done.
  - intros _. apply looks_like_followup_spec.
  - intros _ H. by apply looks_like_followup_spec, whole_word_evidence_suffices.
Qed.

Lemma is_followup_decision_witness :
  ContextManager.turn_log SampleWorld.one_turn "c" <> [] /\
  whole_word_evidence "what about them in the last quarter" /\
  ContextManager.is_followup "what about them in the last quarter" "c" SampleWorld.one_turn
  = (Returned true, SampleWorld.one_turn).
Proof.
  assert (ContextManager.turn_log SampleWorld.one_turn "c" <> []) as Hlog by done.
  assert (whole_word_evidence "what about them in the last quarter") as Hev.
  { right. left. exists "them"%string. split; vm_compute; tauto. }
  split; [exact Hlog|]. split; [exact Hev|].
  destruct (is_followup_decision SampleWorld.one_turn
              "what about them in the last quarter" "c") as (b & Hrun & _ & _ & Hb & _).
  rewrite Hrun. f_equal. f_equal. exact (Hb Hlog Hev).
Defined.

(** C3 as stated fails.  The query "why did the customer visit us today"
    has seven words, none of them a pronoun, and contains no cue phrase, yet
    it is a follow-up of a conversation with turns: "it" occurs inside
    "visit". *)
Lemma pronoun_inside_word_is_followup :
  let query := "why did the customer visit us today"%string in
  ContextManager.turn_log SampleWorld.one_turn "c" <> [] /\
  ContextManager.is_followup query "c" SampleWorld.one_turn
  = (Returned true, SampleWorld.one_turn) /\
  ~ whole_word_evidence query /\
  split (lower query) = [ "why"; "did"; "the"; "customer"; "visit"; "us"; "today" ]%string /\
  occurs_in "it" (lower query).
Proof.
  intros query. split; [done|]. split; [reflexivity|]. split; [|split].
  - intros [(cue & Hin & Hocc) | [(word & Hw & Hin) | Hlen]].
    + apply str_contains_spec in Hocc.
      unfold cue_phrases in Hin. cbn [In] in Hin.
      repeat (destruct Hin as [<- | Hin]; [vm_compute in Hocc; discriminate Hocc|]).
      done.
    + unfold whole_word in Hw. vm_compute in Hw, Hin.
      repeat (destruct Hw as [<- | Hw];
              [repeat (destruct Hin as [Hin | Hin]; [discriminate Hin|]); done|]).
      done.
    + vm_compute in Hlen. lia.
  - vm_compute. reflexivity.
  - apply str_contains_spec. vm_compute. reflexivity.
Qed.

(** ** Stateful code *)

Section Monad.
Import ContextManager.
Context {A B : Type}.

Lemma bind_Returned (m : M A) (f : A -> M B) w b w' :
  (m ≫= f) w = (Returned b, w') ->
  exists a w1, m w = (Returned a, w1) /\ f a w1 = (Returned b, w').
Proof.
  unfold mbind, M_bind. destruct (m w) as [[a|e] w1]; [|done]. eauto.
Qed.

Lemma bind_step (m : M A) (f : A -> M B) w a w1 :
  m w = (Returned a, w1) -> (m ≫= f) w = f a w1.
Proof. unfold mbind, M_bind. by intros ->. Qed.

Lemma same_logs_refl w : same_logs w w.
Proof. done. Qed.

Lemma same_logs_trans w1 w2 w3 : same_logs w1 w2 -> same_logs w2 w3 -> same_logs w1 w3.
Proof. intros H12 H23 cid. by rewrite H23, H12. Qed.

Lemma preserves_bind (m : M A) (f : A -> M B) :
  preserves_logs m -> (forall a, preserves_logs (f a)) -> preserves_logs (m ≫= f).
Proof.
  intros Hm Hf w. specialize (Hm w). unfold mbind, M_bind.
  destruct (m w) as [[a|e] w1]; [|done].
  eapply same_logs_trans; [exact Hm | apply Hf].
Qed.

Lemma preserves_ret (a : A) : preserves_logs (mret a : M A).
Proof. done. Qed.

Lemma preserves_lift (o : option A) : preserves_logs (lift o).
Proof. done. Qed.

Lemma preserves_call (r : outcome A) : preserves_logs (call r).
Proof. done. Qed.

Lemma preserves_tick (source : nat -> A) : preserves_logs (tick source).
Proof. done. Qed.

End Monad.

Section ContextManagerFacts.
Import ContextManager.

Lemma preserves_get_context cid : preserves_logs (get_context cid).
Proof. done. Qed.

Lemma preserves_is_followup query cid : preserves_logs (is_followup query cid).
Proof. done. Qed.

(** [get_or_create_conversation] returns the conversation stored under the
    identifier, creating an empty one when there is none. *)
Lemma get_or_create_known pf cid w :
  exists c w1,
    get_or_create_conversation pf (Some cid) w = (Returned c, w1) /\
    conversations w1 !! cid = Some c /\
    turns c = turn_log w cid /\
    forall cid', cid' <> cid -> conversations w1 !! cid' = conversations w !! cid'.
Proof.
  unfold get_or_create_conversation, turn_log.
  unfold mbind, M_bind, mret, M_ret, get_conversations. cbn.
  destruct (conversations w !! cid) as [c|] eqn:Hc.
  - by exists c, w.
  - eexists _, _. split; [done|]. cbn. split; [by rewrite lookup_insert_eq|].
    split; [done|]. intros cid' Hne. by rewrite lookup_insert_ne.
Qed.

Lemma preserves_get_or_create pf conversation_id :
  preserves_logs (get_or_create_conversation pf conversation_id).
Proof.
  intros w cid. unfold get_or_create_conversation, turn_log.
  unfold mbind, M_bind, mret, M_ret, get_conversations.
  destruct conversation_id as [k|]; cbn.
  - destruct (conversations w !! k) as [c|] eqn:Hc; cbn; [done|].
    destruct (decide (k = cid)) as [->|Hne].
    + by rewrite lookup_insert_eq, Hc.
    + by rewrite lookup_insert_ne.
  - destruct (conversations w !! uuid4 pf (clock w)) as [c|] eqn:Hc; cbn; [done|].
    destruct (decide (uuid4 pf (clock w) = cid)) as [<-|Hne].
    + by rewrite lookup_insert_eq, Hc.
    + by rewrite lookup_insert_ne.
Qed.

Lemma preserves_get_context_summary pf cid : preserves_logs (get_context_summary pf cid).
Proof.
  unfold get_context_summary. apply preserves_bind; [apply preserves_get_or_create|].
  intros c. apply preserves_ret.
Qed.

(** [add_turn] appends one turn to the log of its conversation and leaves
    the other logs alone. *)
Lemma add_turn_appends pf cid q r md w :
  exists turn w',
    add_turn pf cid q r md w = (Returned tt, w') /\
    turn_log w' cid = turn_log w cid ++ [turn] /\
    query turn = q /\ response turn = r /\ metadata turn = md /\
    forall cid', cid' <> cid -> turn_log w' cid' = turn_log w cid'.
Proof.
  destruct (get_or_create_known pf cid w) as (c & w1 & Hc & Hstored & Hturns & Hother).
  unfold add_turn. rewrite (bind_step _ _ _ _ _ Hc).
  unfold mbind, M_bind, tick, put_conversation. cbn.
  eexists _, _. split; [done|]. unfold turn_log. cbn.
  rewrite lookup_insert_eq. cbn. split; [by rewrite Hturns|].
  do 3 (split; [done|]).
  intros cid' Hne. rewrite lookup_insert_ne by done. by rewrite Hother.
Qed.

End ContextManagerFacts.

(** ** A failed explanation records no turn *)

Lemma lift_Returned {A} (o : option A) w a w' :
  ContextManager.lift o w = (Returned a, w') -> o = Some a /\ w' = w.
Proof. unfold ContextManager.lift. destruct o; intros [=]; by subst. Qed.

Lemma call_Returned {A} (r : outcome A) w a w' :
  ContextManager.call r w = (Returned a, w') -> r = Returned a /\ w' = w.
Proof. unfold ContextManager.call. intros [=]. by subst. Qed.

Ltac preserves :=
  repeat first
    [ apply preserves_ret | apply preserves_lift | apply preserves_call
    | apply preserves_tick | apply preserves_get_context | apply preserves_is_followup
    | apply preserves_get_or_create | apply preserves_get_context_summary
    | (apply preserves_bind; [|intros ?])
    | match goal with
      | |- preserves_logs (match ?x with _ => _ end) => destruct x
      end ].

Lemma one_turn_recorded_before w0 w1 w2 cid response :
  same_logs w0 w1 -> one_turn_recorded w1 w2 cid response ->
  one_turn_recorded w0 w2 cid response.
Proof.
  intros Hlogs (turn & Hlog & Hr & Hother). exists turn.
  rewrite Hlog, Hlogs. split; [done|]. split; [done|].
  intros cid' Hne. by rewrite Hother, Hlogs.
Qed.

Lemma one_turn_recorded_after w0 w1 w2 cid response :
  one_turn_recorded w0 w1 cid response -> same_logs w1 w2 ->
  one_turn_recorded w0 w2 cid response.
Proof.
  intros (turn & Hlog & Hr & Hother) Hlogs. exists turn.
  rewrite Hlogs, Hlog. split; [done|]. split; [done|].
  intros cid' Hne. by rewrite Hlogs, Hother.
Qed.

Lemma add_turn_records pf cid q r md w :
  exists w', ContextManager.add_turn pf cid q r md w = (Returned tt, w') /\
             one_turn_recorded w w' cid r.
Proof.
  destruct (add_turn_appends pf cid q r md w)
    as (turn & w' & Hadd & Hlog & _ & Hr & _ & Hother).
  exists w'. split; [done|]. by exists turn.
Qed.

Section DecidedByCall.
Import ContextManager.
Context (cs : Collaborators).

Lemma quiet_bind {A B} (m : M A) (f : A -> M B) :
  preserves_logs m -> (forall a, raises_quietly (f a)) -> raises_quietly (m ≫= f).
Proof.
  intros Hm Hf w e w'. specialize (Hm w). unfold mbind, M_bind.
  destruct (m w) as [[a|e1] w1]; cbn in Hm.
  - intros H. eapply same_logs_trans; [exact Hm | by eapply Hf].
  - by intros [= _ <-].
Qed.

Lemma decided_bind {A B} w0 (m : M A) (f : A -> M ExplanationCall) (g : A -> M B) w :
  same_logs w0 w -> preserves_logs m ->
  (forall a w1, same_logs w0 w1 -> decided_by_call cs w0 (f a w1) (g a w1)) ->
  decided_by_call cs w0 ((m ≫= f) w) ((m ≫= g) w).
Proof.
  intros Hw Hm H. specialize (Hm w). unfold mbind, M_bind.
  destruct (m w) as [[a|e] w1]; cbn in Hm.
  - apply H. by eapply same_logs_trans.
  - split; [done|]. by eapply same_logs_trans.
Qed.

Lemma decided_then {A B} w0 reached (m : M A) (h : A -> M B) w :
  (forall a, preserves_logs (h a)) ->
  decided_by_call cs w0 reached (m w) ->
  decided_by_call cs w0 reached ((m ≫= h) w).
Proof.
  intros Hh. unfold decided_by_call, mbind, M_bind.
  destruct reached as [[c|e] w1].
  - intros [Hlogs H]. split; [done|].
    destruct (explanation_outcome cs c) as [r|e].
    + destruct (m w) as [[a|e1] w2].
      2: { destruct H as [(e & He & Hsame) | H]; [left | by right].
           exists e. split; [|done]. cbn in *. congruence. }
      destruct H as [(e & He & _) | (cid & Hrec)]; [done|].
      right. exists cid. eapply one_turn_recorded_after; [exact Hrec | apply Hh].
    + by rewrite H.
  - intros [H Hlogs]. by rewrite H.
Qed.

(** The follow-up processor: a turn is recorded when, and only when, the
    explanation call of the request has returned. *)
Lemma process_followup_decided query cid context w0 w :
  same_logs w0 w ->
  decided_by_call cs w0 (followup_explanation_call cs query cid context w)
    (FollowUpProcessor.process_followup cs query cid context w).
Proof.
  intros Hw. unfold followup_explanation_call, FollowUpProcessor.process_followup.
  apply decided_bind; [done | by preserves |]. intros ctx w1 H1.
  apply decided_bind; [done | by preserves |]. intros isf w2 H2.
  apply decided_bind; [done | by preserves |]. intros enhanced w3 H3.
  apply decided_bind; [done | by preserves |]. intros parsed w4 H4.
  apply decided_bind; [done | by preserves |]. intros retrieved w5 H5.
  apply decided_bind; [done | by preserves |]. intros analyzed w6 H6.
  apply decided_bind; [done | by preserves |]. intros summary w7 H7.
  split; [done|]. unfold explanation_outcome. cbn [call_query call_evidence call_context].
  unfold mbind at 1, M_bind at 1, call.
  destruct (generate_with_citations cs enhanced analyzed (Some summary)) as [r|e]; [|done].
  right. exists cid. unfold mbind, M_bind.
  destruct (add_turn_records (platform cs) cid query (explanation r)
              (FollowUpProcessor.turn_metadata isf (length analyzed) enhanced) w7)
    as (w8 & -> & Hrec).
  by eapply one_turn_recorded_before.
Qed.

Lemma process_followup_raises_quietly query cid context :
  raises_quietly (FollowUpProcessor.process_followup cs query cid context).
Proof.
  unfold FollowUpProcessor.process_followup.
  do 8 (apply quiet_bind; [by preserves | intros ?]).
  intros w e w'. unfold mbind, M_bind.
  match goal with
  | |- context [add_turn ?pf ?c ?q ?r ?md w] =>
      destruct (add_turn_records pf c q r md w) as (w1 & -> & _)
  end.
  done.
Qed.

(** [generate_structured_explanation] returns a dictionary without the key
    [explanation], so that [Task1Processor.process_query] raises after its
    explanation call has returned. *)
Lemma task1_process_query_run query w :
  Task1Processor.process_query cs query w
  = match initial_explanation_call cs query w with
    | (Returned c, _) =>
        match explanation_outcome cs c with
        | Returned _ => (Raised PyError, w)
        | Raised e => (Raised e, w)
        end
    | (Raised e, _) => (Raised e, w)
    end.
Proof.
  unfold Task1Processor.process_query, initial_explanation_call, explanation_outcome,
    ExplanationGenerator.generate_structured_explanation,
    ExplanationGenerator.generate_explanation.
  unfold mbind at 1 13, M_bind at 1 13, call at 1 4.
  destruct (parse_query cs query) as [parsed|e]; [|done].
  unfold mbind, M_bind, call, lift, mret, M_ret.
  destruct (retrieve cs query 20 10) as [retrieved|e]; [|done].
  destruct (CausalAnalyzer.analyze_causal_spans _ _ _ _ _ _) as [analyzed|]; [|done].
  cbn [call_query call_evidence call_context].
  destruct (generate_with_citations cs query analyzed None) as [r|e]; [|done].
  unfold subscript. lookup_inserts. cbn. lookup_inserts. done.
Qed.

Lemma initial_explanation_call_world query w :
  snd (initial_explanation_call cs query w) = w.
Proof.
  unfold initial_explanation_call, mbind, M_bind, call, lift, mret, M_ret.
  destruct (parse_query cs query); [|done].
  destruct (retrieve cs query 20 10); [|done].
  by destruct (CausalAnalyzer.analyze_causal_spans _ _ _ _ _ _).
Qed.

(** The initial-query processor never returns, and leaves the world as it
    is. *)
Lemma task1_process_query_raises query w :
  exists e, Task1Processor.process_query cs query w = (Raised e, w).
Proof.
  rewrite task1_process_query_run.
  destruct (initial_explanation_call cs query w) as [[c|e] w1]; [|by eexists].
  destruct (explanation_outcome cs c); by eexists.
Qed.

Lemma task2_process_query_decided query conversation_id context w :
  decided_by_call cs w (explanation_call cs query conversation_id context w)
    (Task2Processor.process_query cs query conversation_id context w).
Proof.
  unfold explanation_call, Task2Processor.process_query.
  apply decided_bind; [done | by preserves |]. intros cid w1 H1.
  apply decided_bind; [done | by preserves |]. intros isf w2 H2.
  apply decided_bind; [done | by preserves |]. intros conversation w3 H3.
  destruct (isf && Task2Processor.has_context context conversation).
  - apply decided_then; [intros result; by preserves|].
    by apply process_followup_decided.
  - unfold mbind at 1, M_bind at 1. rewrite task1_process_query_run.
    pose proof (initial_explanation_call_world query w3) as Hworld.
    destruct (initial_explanation_call cs query w3) as [[c|e] w4]; cbn in Hworld; subst w4.
    + split; [done|]. destruct (explanation_outcome cs c) as [r|e]; [|done].
      left. by exists PyError.
    + done.
Qed.

End DecidedByCall.

(** C9: a request to the orchestrator, initial or follow-up, whose
    explanation call raises, raises the same exception and leaves every turn
    log as it was before the request; so does a request that raises before it
    reaches its explanation call; a request changes the turn logs only by
    recording one turn that holds the explanation which its own explanation
    call returned.  The same holds of a direct call of the follow-up
    processor, which changes no turn log whenever it raises. *)
Theorem failed_explanation_records_no_turn (cs : Collaborators) (query : string)
    (conversation_id : option string) (context : option (list pydict))
    (w : ContextManager.World) :
  let request := Task2Processor.process_query cs query conversation_id context w in
  (forall c w1 e,
     explanation_call cs query conversation_id context w = (Returned c, w1) ->
     explanation_outcome cs c = Raised e ->
     request = (Raised e, w1) /\ same_logs w w1) /\
  (forall e w1,
     explanation_call cs query conversation_id context w = (Raised e, w1) ->
     request = (Raised e, w1) /\ same_logs w w1) /\
  (same_logs w (snd request) \/
   exists c w1 r cid,
     explanation_call cs query conversation_id context w = (Returned c, w1) /\
     explanation_outcome cs c = Returned r /\
     one_turn_recorded w (snd request) cid (explanation r)) /\
  (forall cid,
     let followup := FollowUpProcessor.process_followup cs query cid context w in
     (forall c w1 e,
        followup_explanation_call cs query cid context w = (Returned c, w1) ->
        explanation_outcome cs c = Raised e ->
        followup = (Raised e, w1) /\ same_logs w w1) /\
     (forall e w', followup = (Raised e, w') -> same_logs w w') /\
     (same_logs w (snd followup) \/
      exists c w1 r cid',
        followup_explanation_call cs query cid context w = (Returned c, w1) /\
        explanation_outcome cs c = Returned r /\
        one_turn_recorded w (snd followup) cid' (explanation r))).
Proof.
  intros request.
  pose proof (task2_process_query_decided cs query conversation_id context w) as Hreq.
  fold request in Hreq. unfold decided_by_call in Hreq.
  split; [|split; [|split]].
  - intros c w1 e Hcall Hout. rewrite Hcall, Hout in Hreq. by destruct Hreq.
  - intros e w1 Hcall. by rewrite Hcall in Hreq.
  - destruct (explanation_call cs query conversation_id context w) as [[c|e] w1].
    + destruct Hreq as [Hlogs Hreq].
      destruct (explanation_outcome cs c) as [r|e] eqn:Hout.
      * destruct Hreq as [(e & _ & Hsame) | (cid & Hrec)]; [by left|].
        right. by exists c, w1, r, cid.
      * left. by rewrite Hreq.
    + left. destruct Hreq as [-> Hlogs]. done.
  - intros cid followup.
    pose proof (process_followup_decided cs query cid context w w (same_logs_refl w)) as Hf.
    fold followup in Hf. unfold decided_by_call in Hf.
    split; [|split].
    + intros c w1 e Hcall Hout. rewrite Hcall, Hout in Hf. by destruct Hf.
    + intros e w'. apply process_followup_raises_quietly.
    + destruct (followup_explanation_call cs query cid context w) as [[c|e] w1].
      * destruct Hf as [Hlogs Hf].
        destruct (explanation_outcome cs c) as [r|e] eqn:Hout.
        -- destruct Hf as [(e & _ & Hsame) | (cid' & Hrec)]; [by left|].
           right. by exists c, w1, r, cid'.
        -- left. by rewrite Hf.
      * left. destruct Hf as [-> Hlogs]. done.
Qed.

Lemma failed_explanation_records_no_turn_witness :
  explanation_call SampleWorld.failing_once "what about that?" (Some "c"%string) None
    SampleWorld.one_turn
  = (Returned SampleCall.reached, SampleCall.world) /\
  explanation_outcome SampleWorld.failing_once SampleCall.reached
  = Raised (ServiceError "generation") /\
  Task2Processor.process_query SampleWorld.failing_once "what about that?"
    (Some "c"%string) None SampleWorld.one_turn
  = (Raised (ServiceError "generation"), SampleCall.world) /\
  same_logs SampleWorld.one_turn SampleCall.world.
Proof.
  assert (explanation_call SampleWorld.failing_once "what about that?" (Some "c"%string)
            None SampleWorld.one_turn
          = (Returned SampleCall.reached, SampleCall.world)) as Hcall by reflexivity.
  assert (explanation_outcome SampleWorld.failing_once SampleCall.reached
          = Raised (ServiceError "generation")) as Hout by reflexivity.
  split; [exact Hcall|]. split; [exact Hout|].
  exact (proj1 (failed_explanation_records_no_turn SampleWorld.failing_once
                  "what about that?" (Some "c"%string) None SampleWorld.one_turn)
           SampleCall.reached SampleCall.world (ServiceError "generation") Hcall Hout).
Defined.

(** ** The enhanced query of a follow-up *)

Lemma string_app_assoc (a b c : string) : ((a ++ b) ++ c = a ++ b ++ c)%string.
Proof.
  induction a as [|x a IH]; [done|]. by rewrite !append_String, IH.
Qed.

Lemma slice_from_negative {A} (i : Z) (l : list A) :
  (i < 0)%Z -> slice_from i l = drop (Z.to_nat (Z.of_nat (length l) + i)) l.
Proof.
  intros Hi. unfold slice_from, norm_index.
  by assert ((i <? 0)%Z = true) as -> by lia.
Qed.

Lemma slice_from_last_two {A} (l : list A) : slice_from (-2) l = last_two l.
Proof.
  unfold slice_from, last_two, norm_index. cbn. f_equal. lia.
Qed.

Lemma last_two_fmap {A B} (f : A -> B) (l : list A) : last_two (f <$> l) = f <$> last_two l.
Proof. unfold last_two. by rewrite length_fmap, fmap_drop. Qed.

Lemma as_str_Some v q : as_str v = Some q <-> v = VStr q.
Proof. destruct v; cbn; split; congruence. Qed.

Lemma enhance_query_empty query :
  FollowUpProcessor.enhance_query_with_context query [] = Some query.
Proof. done. Qed.

Lemma enhance_query_Some query context e :
  context <> [] ->
  FollowUpProcessor.enhance_query_with_context query context = Some e ->
  exists previous,
    Forall2 item_query (last_two context) previous /\ e = enhanced_text previous query.
Proof.
  intros Hne He. unfold FollowUpProcessor.enhance_query_with_context in He.
  destruct context as [|item context]; [done|].
  destruct (mapM _ (item :: context)) as [responses|]; [|done].
  cbn [mbind option_bind] in He.
  rewrite fmap_cons in He.
  rewrite <- (fmap_cons (fun item => dict_get item "query" (VStr "")) item context) in He.
  rewrite slice_from_last_two, last_two_fmap in He.
  destruct (mapM as_str _) as [previous|] eqn:Hprev; [|done].
  cbn in He. injection He as <-.
  exists previous. split.
  - apply mapM_Some in Hprev. apply Forall2_fmap_l in Hprev.
    eapply Forall2_impl; [exact Hprev|]. intros it q H. by apply as_str_Some.
  - unfold enhanced_text, join. cbn. by rewrite string_app_assoc.
Qed.

Lemma item_ok_query item : item_ok item -> item_query item (query_of item).
Proof.
  unfold item_ok, item_query, query_of, dict_get. rewrite andb_True. intros [H _].
  by destruct (item !! "query") as [[| | | | |]|].
Qed.

Lemma item_ok_response item :
  item_ok item -> is_Some (value_take 200 (dict_get item "response" (VStr ""))).
Proof.
  unfold item_ok, dict_get. rewrite andb_True. intros [_ H].
  destruct (item !! "response") as [[| | | | |]|]; try done; by eexists.
Qed.

Lemma Forall2_item_query l previous :
  Forall (fun item => item_ok item) l ->
  Forall2 item_query l previous -> previous = query_of <$> l.
Proof.
  intros Hok H. induction H as [|item q l previous Hq _ IH]; [done|].
  inversion_clear Hok as [|? ? Hitem Hl]. cbn. rewrite <- IH by done. f_equal.
  pose proof (item_ok_query item Hitem) as Hq'. unfold item_query in *. congruence.
Qed.

Lemma enhance_query_total query context :
  context <> [] ->
  Forall (fun item => item_ok item) context ->
  FollowUpProcessor.enhance_query_with_context query context
  = Some (enhanced_text (query_of <$> last_two context) query).
Proof.
  intros Hne Hok.
  destruct (FollowUpProcessor.enhance_query_with_context query context) as [e|] eqn:He.
  - destruct (enhance_query_Some query context e Hne He) as (previous & Hprev & ->).
    do 2 f_equal. apply Forall2_item_query; [|done].
    unfold last_two. by apply Forall_drop.
  - exfalso. unfold FollowUpProcessor.enhance_query_with_context in He.
    destruct context as [|item context]; [done|].
    destruct (mapM _ (item :: context)) as [responses|] eqn:Hresp.
    + cbn [mbind option_bind] in He.
      rewrite fmap_cons in He.
      rewrite <- (fmap_cons (fun item => dict_get item "query" (VStr "")) item context) in He.
      rewrite slice_from_last_two, last_two_fmap in He.
      destruct (mapM as_str _) as [previous|] eqn:Hprev; [done|].
      apply eq_None_not_Some in Hprev. apply Hprev, mapM_is_Some.
      apply Forall_fmap. unfold last_two. apply Forall_drop.
      eapply Forall_impl; [exact Hok|]. intros it Hit. cbn.
      rewrite (item_ok_query it Hit). by eexists.
    + apply eq_None_not_Some in Hresp. apply Hresp, mapM_is_Some.
      eapply Forall_impl; [exact Hok|]. intros it Hit. by apply item_ok_response.
Qed.



Lemma context_item_ok turn : item_ok (FollowUpProcessor.context_item turn).
Proof.
  unfold item_ok, FollowUpProcessor.context_item. by lookup_inserts.
Qed.

Lemma context_item_query turn :
  query_of (FollowUpProcessor.context_item turn) = ContextManager.query turn.
Proof.
  unfold query_of, FollowUpProcessor.context_item. by lookup_inserts.
Qed.

Lemma get_recent_turns_three c :
  ContextManager.get_recent_turns c 3
  = drop (length (ContextManager.turns c) - 3) (ContextManager.turns c).
Proof.
  unfold ContextManager.get_recent_turns.
  destruct (3 <? Z.of_nat (length (ContextManager.turns c)))%Z eqn:Hlen.
  - rewrite slice_from_negative by lia. f_equal. lia.
  - replace (length (ContextManager.turns c) - 3)%nat with 0%nat by lia. done.
Qed.

Lemma last_two_drop {A} (l : list A) : last_two (drop (length l - 3) l) = last_two l.
Proof.
  unfold last_two. rewrite drop_drop, length_drop. f_equal. lia.
Qed.

(** The queries of the last two items of the context taken from the
    conversation are those of its last two recorded turns. *)
Lemma recorded_context_queries w cid :
  Forall (fun item => item_ok item) (followup_context w cid None) /\
  query_of <$> last_two (followup_context w cid None)
  = ContextManager.query <$> last_two (ContextManager.turn_log w cid).
Proof.
  unfold followup_context, ContextManager.turn_log.
  destruct (ContextManager.conversations w !! cid) as [c|]; [|done].
  split.
  - apply Forall_fmap, Forall_forall. intros t _. apply context_item_ok.
  - rewrite get_recent_turns_three, last_two_fmap, last_two_drop, <- list_fmap_compose.
    apply list_fmap_ext. intros i t _. apply context_item_query.
Qed.

Lemma followup_context_step w cid context ctx w1 :
  match context with
  | Some context => mret context
  | None =>
      conversation ← ContextManager.get_context cid;
      match conversation with
      | Some c => mret (FollowUpProcessor.context_item <$> ContextManager.get_recent_turns c 3)
      | None => mret []
      end
  end w = (Returned ctx, w1) ->
  ctx = followup_context w cid context /\ w1 = w.
Proof.
  unfold followup_context. destruct context as [context|].
  - intros [=]. by subst.
  - unfold ContextManager.get_context, ContextManager.get_conversations.
    unfold mbind, ContextManager.M_bind, mret, ContextManager.M_ret.
    destruct (ContextManager.conversations w !! cid); intros [=]; by subst.
Qed.

(** What a returning run of [process_followup] has done. *)
Lemma process_followup_Returned cs query cid context w resp w' :
  FollowUpProcessor.process_followup cs query cid context w = (Returned resp, w') ->
  FollowUpProcessor.enhance_query_with_context query (followup_context w cid context)
  = Some (FollowUpProcessor.r_enhanced_query resp) /\
  FollowUpProcessor.r_query resp = query /\
  FollowUpProcessor.r_evidence_count resp = length (FollowUpProcessor.r_evidence resp) /\
  exists turn,
    ContextManager.turn_log w' cid = ContextManager.turn_log w cid ++ [turn] /\
    ContextManager.query turn = query /\
    ContextManager.response turn = FollowUpProcessor.r_explanation resp /\
    ContextManager.metadata turn
    = FollowUpProcessor.turn_metadata (FollowUpProcessor.r_is_followup resp)
        (FollowUpProcessor.r_evidence_count resp) (FollowUpProcessor.r_enhanced_query resp) /\
    forall cid', cid' <> cid ->
      ContextManager.turn_log w' cid' = ContextManager.turn_log w cid'.
Proof.
  unfold FollowUpProcessor.process_followup. intros H.
  apply bind_Returned in H as (ctx & w1 & Hctx & H).
  apply followup_context_step in Hctx as [-> ->].
  apply bind_Returned in H as (isf & w2 & Hisf & H).
  assert (w2 = w) as -> by (by injection Hisf).
  apply bind_Returned in H as (enhanced & w3 & Hen & H).
  apply lift_Returned in Hen as [Hen ->].
  apply bind_Returned in H as (parsed & w4 & Hparsed & H).
  apply call_Returned in Hparsed as [Hparsed ->].
  apply bind_Returned in H as (retrieved & w5 & Hret & H).
  apply call_Returned in Hret as [Hret ->].
  apply bind_Returned in H as (analyzed & w6 & Han & H).
  apply lift_Returned in Han as [Han ->].
  apply bind_Returned in H as (summary & w7 & Hsum & H).
  pose proof (preserves_get_context_summary (platform cs) cid w) as Hlogs.
  rewrite Hsum in Hlogs. cbn in Hlogs.
  apply bind_Returned in H as (er & w8 & Her & H).
  apply call_Returned in Her as [Her ->].
  apply bind_Returned in H as ([] & w9 & Hadd & H).
  injection H as <- <-. cbn.
  destruct (add_turn_appends (platform cs) cid query (explanation er)
              (FollowUpProcessor.turn_metadata isf (length analyzed) enhanced) w7)
    as (turn & w10 & Hadd' & Hlog & Hq & Hr & Hmd & Hother).
  rewrite Hadd in Hadd'. injection Hadd' as <-.
  split; [done|]. split; [done|]. split; [done|].
  exists turn. rewrite Hlog, Hlogs. split; [done|]. do 3 (split; [done|]).
  intros cid' Hne. by rewrite Hother, Hlogs.
Qed.

Lemma recorded_context_nonempty w cid :
  ContextManager.turn_log w cid <> [] -> followup_context w cid None <> [].
Proof.
  unfold followup_context, ContextManager.turn_log.
  destruct (ContextManager.conversations w !! cid) as [c|]; [|done].
  rewrite get_recent_turns_three. intros Hne Hnil.
  apply (f_equal length) in Hnil. rewrite length_fmap, length_drop in Hnil.
  destruct (ContextManager.turns c); [done|]. cbn in Hnil. lia.
Qed.

(** C8: the enhanced query of a follow-up is the query itself when the
    context is empty, and otherwise "Previous queries: " followed by the
    queries of the last two context items joined by "; ", then
    ". Current query: " and the query; a returning run of
    [process_followup] appends one turn to the conversation, which records
    the original query, the explanation, and the metadata [is_followup],
    [evidence_count] and [enhanced_query]. *)
Theorem followup_enhanced_query_and_turn (cs : Collaborators) (query cid : string)
    (context : option (list pydict)) (w : ContextManager.World)
    (resp : FollowUpProcessor.Result) (w' : ContextManager.World) :
  FollowUpProcessor.process_followup cs query cid context w = (Returned resp, w') ->
  followup_outcome w query cid context resp w' /\
  FollowUpProcessor.enhance_query_with_context query [] = Some query /\
  (forall items, items <> [] -> Forall (fun item => item_ok item) items ->
     FollowUpProcessor.enhance_query_with_context query items
     = Some (enhanced_text (query_of <$> last_two items) query)).
Proof.
  intros Hrun.
  destruct (process_followup_Returned cs query cid context w resp w' Hrun)
    as (Hen & _ & Hcount & turn & Hlog & Hq & Hr & Hmd & Hother).
  split; [|split; [done | intros items; apply enhance_query_total]].
  unfold followup_outcome. cbn zeta. split; [|split; [|split]].
  - intros Hnil. rewrite Hnil in Hen. cbn in Hen. congruence.
  - intros Hne. by apply enhance_query_Some.
  - intros -> Hturns.
    destruct (recorded_context_queries w cid) as [Hok Hqueries].
    rewrite (enhance_query_total query _ (recorded_context_nonempty w cid Hturns) Hok) in Hen.
    rewrite Hqueries in Hen. congruence.
  - exists turn. rewrite Hmd, Hcount. done.
Qed.

Lemma followup_enhanced_query_and_turn_witness :
  match FollowUpProcessor.process_followup SampleWorld.answering "what about that?" "c" None
          SampleWorld.one_turn with
  | (Returned resp, w') =>
      followup_outcome SampleWorld.one_turn "what about that?" "c" None resp w' /\
      FollowUpProcessor.enhance_query_with_context "what about that?" []
      = Some "what about that?"%string /\
      (forall items, items <> [] -> Forall (fun item => item_ok item) items ->
         FollowUpProcessor.enhance_query_with_context "what about that?" items
         = Some (enhanced_text (query_of <$> last_two items) "what about that?"))
  | (Raised _, _) => False
  end.
Proof.
  destruct (FollowUpProcessor.process_followup SampleWorld.answering "what about that?" "c"
              None SampleWorld.one_turn) as [[resp|e] w'] eqn:Hrun.
  - exact (followup_enhanced_query_and_turn SampleWorld.answering "what about that?" "c"
             None SampleWorld.one_turn resp w' Hrun).
  - vm_compute in Hrun. discriminate Hrun.
Defined.

(** On the sample conversation the follow-up "what about that?" is enhanced
    with the first query, and the orchestrator records the original text. *)
Example followup_sample :
  let run := Task2Processor.process_query SampleWorld.answering "what about that?"
               (Some "c"%string) None SampleWorld.one_turn in
  (ContextManager.query <$> ContextManager.turn_log (snd run) "c")
  = [ "Why are escalations happening?"; "what about that?" ]%string /\
  ((fun t => ContextManager.metadata t !! "enhanced_query")
     <$> last (ContextManager.turn_log (snd run) "c"))
  = Some (Some (VStr
      "Previous queries: Why are escalations happening?. Current query: what about that?")).
Proof. split; vm_compute; reflexivity. Qed.

(** ** Sample runs *)

(** The cue list of [is_followup] holds "it", matched as a substring: a
    query of nine words without a pronoun of its own is a follow-up because
    of "visit"; without any cue a long query is not. *)
Example looks_like_followup_samples :
  ContextManager.looks_like_followup "what about it?" = true /\
  ContextManager.looks_like_followup
    "please describe the visit to the customer site today" = true /\
  ContextManager.looks_like_followup
    "why do customers ask for a refund so frequently" = false /\
  ContextManager.is_followup "what about it?" "c" SampleWorld.one_turn
  = (Returned true, SampleWorld.one_turn) /\
  ContextManager.is_followup "what about it?" "unknown" SampleWorld.one_turn
  = (Returned false, SampleWorld.one_turn).
Proof. repeat split; vm_compute; reflexivity. Qed.

(** With the explanation service down the sample follow-up raises the
    error of that service and the conversation keeps its single turn; with
    the service up the same request adds the second turn. *)
Example explanation_failure_sample :
  let down := Task2Processor.process_query SampleWorld.explanation_down "what about it?"
                (Some "c"%string) None SampleWorld.one_turn in
  let up := Task2Processor.process_query SampleWorld.answering "what about it?"
              (Some "c"%string) None SampleWorld.one_turn in
  fst down = Raised (ServiceError "generation") /\
  ContextManager.turn_log (snd down) "c" = [SampleWorld.first_turn] /\
  length (ContextManager.turn_log (snd up) "c") = 2%nat.
Proof. repeat split; vm_compute; reflexivity. Qed.

(** The initial path: [Task1Processor.process_query] reads the key
    [explanation], which the structured explanation does not have, so a
    first query raises when its explanation has returned, as it does when
    the explanation service is down; in neither case is a turn recorded. *)
Example initial_path_sample :
  let down := Task2Processor.process_query SampleWorld.explanation_down
                "Why are escalations happening?" None None SampleWorld.one_turn in
  let up := Task2Processor.process_query SampleWorld.answering
              "Why are escalations happening?" None None SampleWorld.one_turn in
  fst down = Raised (ServiceError "generation") /\
  ContextManager.turn_log (snd down) "id-0" = [] /\
  fst up = Raised PyError /\
  ContextManager.turn_log (snd up) "id-0" = [].
Proof. repeat split; vm_compute; reflexivity. Qed.

(** * Further properties *)

(** ** Ranking *)

Lemma insert_by_head {A} (le : A -> A -> bool) x l :
  Forall (fun y => le x y = true) l -> insert_by le x l = x :: l.
Proof. destruct 1 as [|y l Hy _]; [done|]. cbn. by rewrite Hy. Qed.

Lemma stable_sort_sorted_id {A} (le : A -> A -> bool) l :
  StronglySorted (fun a b => le a b = true) l -> stable_sort le l = l.
Proof.
  induction 1 as [|x l Hl IH Hx]; [done|].
  cbn. fold (stable_sort le l). rewrite IH. by apply insert_by_head.
Qed.

Lemma sort_by_key_sorted_id reverse key l :
  Forall (fun x => is_Some (key x)) l ->
  StronglySorted (in_order reverse key) l ->
  sort_by_key reverse key l = Some l.
Proof.
  intros Hkeys Hsorted.
  destruct (sort_by_key_is_Some reverse key l Hkeys) as [out Hout].
  rewrite Hout. f_equal.
  apply sort_by_key_Some in Hout as [_ ->].
  apply stable_sort_sorted_id.
  eapply StronglySorted_weaken; [|exact Hsorted].
  intros a b. unfold in_order, key_le. cbn. destruct reverse; by rewrite Qle_bool_iff.
Qed.

Lemma score_span_has_score self span s' :
  EvidenceScorer.score_span self span = Some s' ->
  is_Some (s' !! "evidence_score").
Proof.
  unfold EvidenceScorer.score_span. intros H.
  repeat (match type of H with
          | context [as_num ?v] => destruct (as_num v); simplify_eq/=
          end).
  rewrite lookup_insert_ne by done. rewrite lookup_insert_eq. by eexists.
Qed.

(** What every list returned by [score_evidence] satisfies. *)
Lemma score_evidence_output self spans query event_type event_turn_index out :
  EvidenceScorer.score_evidence self spans query event_type event_turn_index = Some out ->
  Forall (fun s => is_Some (s !! "evidence_score")) out /\
  Forall (fun s => is_Some (EvidenceScorer.evidence_key s)) out /\
  StronglySorted (fun a b => evidence_of b <= evidence_of a) out /\
  length out = length spans.
Proof.
  unfold EvidenceScorer.score_evidence. intros H.
  destruct (mapM _ spans) as [scored|] eqn:Hscored; [|done]. cbn in H.
  pose proof (sort_by_key_perm _ _ _ _ H) as Hperm.
  apply mapM_Some in Hscored.
  assert (Forall (fun s => is_Some (s !! "evidence_score")) scored /\
          Forall (fun s => is_Some (EvidenceScorer.evidence_key s)) scored) as [H1 H2].
  { clear H Hperm. induction Hscored as [|s s' l l' Hs _ [IH1 IH2]]; [done|].
    split; constructor; eauto using score_span_has_score, score_span_evidence_key. }
  split; [by rewrite Hperm|]. split; [by rewrite Hperm|]. split.
  - by apply sort_by_key_sorted in H.
  - by rewrite (Permutation_length Hperm), (Forall2_length _ _ _ Hscored).
Qed.

Lemma forallb_has_score (l : list pydict) :
  Forall (fun s => is_Some (s !! "evidence_score")) l ->
  forallb (fun span : pydict => bool_decide (is_Some (span !! "evidence_score"))) l = true.
Proof.
  induction 1 as [|s l Hs _ IH]; [done|]. cbn. by rewrite bool_decide_eq_true_2, IH.
Qed.

(** X1: ranking the output of [score_evidence] changes nothing but the
    length: [rank_evidence] returns its first [top_k] spans, and the whole
    list when no [top_k] is given. *)
Theorem rank_after_score_truncates (self : EvidenceScorer.t) (spans : list pydict)
    (query : string) (event_type : option string) (event_turn_index : option Q)
    (scored : list pydict) (top_k : Z) :
  EvidenceScorer.score_evidence self spans query event_type event_turn_index = Some scored ->
  EvidenceScorer.rank_evidence self scored (Some top_k) = Some (slice_to top_k scored) /\
  EvidenceScorer.rank_evidence self scored None = Some scored.
Proof.
  intros Hscored.
  destruct (score_evidence_output _ _ _ _ _ _ Hscored) as (Hhas & Hkeys & Hsorted & _).
  unfold EvidenceScorer.rank_evidence. rewrite (forallb_has_score _ Hhas).
  cbn [mbind option_bind].
  rewrite (sort_by_key_sorted_id true EvidenceScorer.evidence_key scored Hkeys Hsorted).
  done.
Qed.

Lemma rank_after_score_truncates_witness :
  EvidenceScorer.score_evidence EvidenceScorer.default Sample.spans "why" None None
  = Some SampleScored.scored /\
  EvidenceScorer.rank_evidence EvidenceScorer.default SampleScored.scored (Some 1%Z)
  = Some (slice_to 1 SampleScored.scored) /\
  EvidenceScorer.rank_evidence EvidenceScorer.default SampleScored.scored None
  = Some SampleScored.scored.
Proof.
  assert (EvidenceScorer.score_evidence EvidenceScorer.default Sample.spans "why" None None
          = Some SampleScored.scored) as Hscored by reflexivity.
  split; [exact Hscored|].
  exact (rank_after_score_truncates EvidenceScorer.default Sample.spans "why" None None
           SampleScored.scored 1 Hscored).
Defined.

Lemma slice_to_length {A} (l : list A) (k : Z) :
  (0 <= k)%Z -> length (slice_to k l) = Nat.min (Z.to_nat k) (length l).
Proof.
  intros Hk. unfold slice_to, norm_index.
  assert ((k <? 0)%Z = false) as -> by lia. rewrite length_take. lia.
Qed.

Lemma scored_has_score span : scored span -> is_Some (span !! "evidence_score").
Proof. unfold scored. destruct (span !! "evidence_score"); [by eexists | done]. Qed.

Lemma scored_evidence_key span : scored span -> is_Some (EvidenceScorer.evidence_key span).
Proof.
  unfold scored, EvidenceScorer.evidence_key, dict_get.
  destruct (span !! "evidence_score") as [v|]; [|done].
  by intros ?%bool_decide_unpack.
Qed.

Lemma has_evidence_eq e x y :
  has_evidence e x = true -> has_evidence e y = true ->
  key_of EvidenceScorer.evidence_key x == key_of EvidenceScorer.evidence_key y.
Proof.
  unfold has_evidence, evidence_of. intros Hx%Qeq_bool_iff Hy%Qeq_bool_iff.
  by rewrite Hx, Hy.
Qed.

(** X2: on spans that all carry an evidence score, [rank_evidence] keeps the
    scores and the spans as they are: it returns a permutation of its input
    in non-increasing order of evidence, spans of equal evidence in their
    input order; with [top_k] it returns the first [top_k] of them, and
    min(top_k, n) spans for a non-negative [top_k]. *)
Theorem rank_evidence_keeps_scores (self : EvidenceScorer.t) (spans : list pydict) :
  Forall (fun s => scored s) spans ->
  exists ranked,
    EvidenceScorer.rank_evidence self spans None = Some ranked /\
    ranked ≡ₚ spans /\
    StronglySorted (fun a b => evidence_of b <= evidence_of a) ranked /\
    (forall e, List.filter (has_evidence e) ranked = List.filter (has_evidence e) spans) /\
    forall top_k : Z,
      EvidenceScorer.rank_evidence self spans (Some top_k) = Some (slice_to top_k ranked) /\
      ((0 <= top_k)%Z ->
       length (slice_to top_k ranked) = Nat.min (Z.to_nat top_k) (length spans)).
Proof.
  intros Hall.
  assert (Forall (fun s => is_Some (s !! "evidence_score")) spans) as Hhas
    by (eapply Forall_impl; [exact Hall|]; apply scored_has_score).
  assert (Forall (fun s => is_Some (EvidenceScorer.evidence_key s)) spans) as Hkeys
    by (eapply Forall_impl; [exact Hall|]; apply scored_evidence_key).
  destruct (sort_by_key_is_Some true EvidenceScorer.evidence_key spans Hkeys)
    as [ranked Hranked].
  exists ranked. unfold EvidenceScorer.rank_evidence.
  rewrite (forallb_has_score _ Hhas). cbn [mbind option_bind]. rewrite Hranked.
  pose proof (sort_by_key_perm _ _ _ _ Hranked) as Hperm.
  split; [done|]. split; [done|].
  split; [by apply sort_by_key_sorted in Hranked|].
  split.
  { intros e. apply (sort_by_key_stable _ _ _ _ _ Hranked), has_evidence_eq. }
  intros top_k. split; [done|]. intros Hk.
  by rewrite slice_to_length, (Permutation_length Hperm).
Qed.

Lemma rank_evidence_keeps_scores_witness :
  Forall (fun s => scored s) SampleScored.scored /\
  exists ranked,
    EvidenceScorer.rank_evidence EvidenceScorer.default SampleScored.scored None
    = Some ranked /\
    ranked ≡ₚ SampleScored.scored /\
    StronglySorted (fun a b => evidence_of b <= evidence_of a) ranked /\
    (forall e, List.filter (has_evidence e) ranked
               = List.filter (has_evidence e) SampleScored.scored) /\
    forall top_k : Z,
      EvidenceScorer.rank_evidence EvidenceScorer.default SampleScored.scored (Some top_k)
      = Some (slice_to top_k ranked) /\
      ((0 <= top_k)%Z ->
       length (slice_to top_k ranked)
       = Nat.min (Z.to_nat top_k) (length SampleScored.scored)).
Proof.
  assert (Forall (fun s => scored s) SampleScored.scored) as Hall
    by (repeat (constructor; [vm_compute; exact I|]); constructor).
  split; [exact Hall|].
  exact (rank_evidence_keeps_scores EvidenceScorer.default SampleScored.scored Hall).
Defined.

Lemma forallb_lacks_score (l : list pydict) :
  Exists (fun s => s !! "evidence_score" = None) l ->
  forallb (fun span : pydict => bool_decide (is_Some (span !! "evidence_score"))) l = false.
Proof.
  induction 1 as [s l Hs | s l _ IH]; cbn.
  - rewrite bool_decide_eq_false_2; [done|]. rewrite Hs. by intros [? ?].
  - rewrite IH. by destruct (bool_decide _).
Qed.

(** X3: as soon as one span lacks an evidence score, [rank_evidence] scores
    the whole list again with an empty query: it returns what
    [score_evidence] returns, cut to [top_k], and every span of the result,
    also one that came with a score, holds the weighted sum of its component
    scores. *)
Theorem rank_evidence_rescores (spans : list pydict) (top_k : Z) :
  Forall (fun s => well_scored s) spans ->
  Exists (fun s => s !! "evidence_score" = None) spans ->
  exists rescored ranked,
    mapM (EvidenceScorer.score_span EvidenceScorer.default) spans = Some rescored /\
    Forall2 (fun s s' => scored_copy s s' /\
                         holds_num s' "evidence_score" (weighted_evidence s))
            spans rescored /\
    EvidenceScorer.score_evidence EvidenceScorer.default spans "" None None = Some ranked /\
    ranked ≡ₚ rescored /\
    EvidenceScorer.rank_evidence EvidenceScorer.default spans None = Some ranked /\
    EvidenceScorer.rank_evidence EvidenceScorer.default spans (Some top_k)
    = Some (slice_to top_k ranked).
Proof.
  intros Hall Hlacks.
  destruct (mapM (EvidenceScorer.score_span EvidenceScorer.default) spans)
    as [rescored|] eqn:Hrescored; last first.
  { exfalso. apply eq_None_not_Some in Hrescored. apply Hrescored, mapM_is_Some.
    eapply Forall_impl; [exact Hall|]. intros s Hs.
    destruct (score_span_well_scored EvidenceScorer.default s Hs) as (s' & Hs' & _).
    by exists s'. }
  destruct (score_evidence_Some EvidenceScorer.default spans "" None None rescored Hrescored)
    as (ranked & Hranked & _).
  exists rescored, ranked. split; [done|].
  split; [by apply scored_spans_weighted|]. split; [done|]. split.
  { unfold EvidenceScorer.score_evidence in Hranked. rewrite Hrescored in Hranked.
    by apply sort_by_key_perm in Hranked. }
  destruct (score_evidence_output _ _ _ _ _ _ Hranked) as (_ & Hkeys & Hsorted & _).
  unfold EvidenceScorer.rank_evidence. rewrite (forallb_lacks_score _ Hlacks), Hranked.
  cbn [mbind option_bind].
  by rewrite (sort_by_key_sorted_id true EvidenceScorer.evidence_key ranked Hkeys Hsorted).
Qed.

Lemma rank_evidence_rescores_witness :
  let spans := [<["evidence_score" := VNum 1]> Sample.combined_span; Sample.relevant_span] in
  Forall (fun s => well_scored s) spans /\
  Exists (fun s => s !! "evidence_score" = None) spans /\
  exists rescored ranked,
    mapM (EvidenceScorer.score_span EvidenceScorer.default) spans = Some rescored /\
    Forall2 (fun s s' => scored_copy s s' /\
                         holds_num s' "evidence_score" (weighted_evidence s))
            spans rescored /\
    EvidenceScorer.score_evidence EvidenceScorer.default spans "" None None = Some ranked /\
    ranked ≡ₚ rescored /\
    EvidenceScorer.rank_evidence EvidenceScorer.default spans None = Some ranked /\
    EvidenceScorer.rank_evidence EvidenceScorer.default spans (Some 1%Z)
    = Some (slice_to 1 ranked).
Proof.
  intros spans.
  assert (Forall (fun s => well_scored s) spans) as Hall
    by (repeat (constructor; [vm_compute; exact I|]); constructor).
  assert (Exists (fun s => s !! "evidence_score" = None) spans) as Hlacks
    by (apply Exists_cons_tl, Exists_cons_hd; reflexivity).
  split; [exact Hall|]. split; [exact Hlacks|].
  exact (rank_evidence_rescores spans 1 Hall Hlacks).
Defined.

(** ** Filtering *)

Lemma filter_opt_total {A} (p : A -> option bool) (g : A -> bool) l :
  Forall (fun x => p x = Some (g x)) l -> filter_opt p l = Some (List.filter g l).
Proof.
  induction 1 as [|x l Hx _ IH]; [done|]. cbn. rewrite Hx, IH. cbn. by destruct (g x).
Qed.

Lemma filter_sublist_of {A} (g : A -> bool) (l : list A) : List.filter g l `sublist_of` l.
Proof.
  induction l as [|x l IH]; [constructor|]. cbn.
  destruct (g x); by constructor.
Qed.

Lemma elem_of_List_filter {A} (g : A -> bool) (l : list A) x :
  x ∈ List.filter g l <-> x ∈ l /\ g x = true.
Proof. rewrite !list_elem_of_In. apply filter_In. Qed.

Lemma evidence_key_of span :
  is_Some (EvidenceScorer.evidence_key span) ->
  EvidenceScorer.evidence_key span = Some (evidence_of span).
Proof. unfold evidence_of, key_of. by intros [q ->]. Qed.

Lemma filter_evidence_filter spans min_score :
  Forall (fun s => is_Some (EvidenceScorer.evidence_key s)) spans ->
  EvidenceScorer.filter_evidence spans min_score None
  = Some (List.filter (fun s => Qle_bool min_score (evidence_of s)) spans) /\
  forall k, EvidenceScorer.filter_evidence spans min_score (Some k)
            = Some (slice_to k (List.filter (fun s => Qle_bool min_score (evidence_of s)) spans)).
Proof.
  intros Hkeys. unfold EvidenceScorer.filter_evidence.
  rewrite (filter_opt_total _ (fun s => Qle_bool min_score (evidence_of s))); [done|].
  eapply Forall_impl; [exact Hkeys|]. intros s Hs. cbn.
  by rewrite (evidence_key_of s Hs).
Qed.

Lemma numeric_evidence_key span :
  numeric_field span "evidence_score" -> is_Some (EvidenceScorer.evidence_key span).
Proof.
  intros H. unfold EvidenceScorer.evidence_key.
  rewrite (numeric_field_get span "evidence_score" (VNum 0)); by eauto.
Qed.

(** X4: [filter_evidence] keeps exactly the spans whose evidence score is at
    least [min_score], in their input order, a span without a score counting
    as 0; with [max_spans] it returns the first [max_spans] of those. *)
Theorem filter_evidence_threshold (spans : list pydict) (min_score : Q) :
  Forall (fun s => numeric_field s "evidence_score") spans ->
  exists kept,
    EvidenceScorer.filter_evidence spans min_score None = Some kept /\
    kept `sublist_of` spans /\
    (forall s, s ∈ kept <-> s ∈ spans /\ min_score <= evidence_of s) /\
    (forall s, s ∈ spans -> s !! "evidence_score" = None ->
               s ∈ kept <-> min_score <= 0) /\
    forall max_spans : Z,
      EvidenceScorer.filter_evidence spans min_score (Some max_spans)
      = Some (slice_to max_spans kept).
Proof.
  intros Hall.
  assert (Forall (fun s => is_Some (EvidenceScorer.evidence_key s)) spans) as Hkeys
    by (eapply Forall_impl; [exact Hall|]; apply numeric_evidence_key).
  destruct (filter_evidence_filter spans min_score Hkeys) as [Hnone Hsome].
  eexists. split; [exact Hnone|].
  split; [apply filter_sublist_of|].
  assert (forall s, s ∈ List.filter (fun s => Qle_bool min_score (evidence_of s)) spans
                    <-> s ∈ spans /\ min_score <= evidence_of s) as Hmem.
  { intros s. rewrite elem_of_List_filter. by rewrite Qle_bool_iff. }
  split; [exact Hmem|]. split; [|exact Hsome].
  intros s Hin Hnoscore. rewrite Hmem.
  assert (evidence_of s = 0) as ->.
  { unfold evidence_of, key_of, EvidenceScorer.evidence_key, dict_get. by rewrite Hnoscore. }
  tauto.
Qed.

Lemma filter_evidence_threshold_witness :
  Forall (fun s => numeric_field s "evidence_score")
         (Sample.relevant_span :: SampleScored.scored) /\
  exists kept,
    EvidenceScorer.filter_evidence (Sample.relevant_span :: SampleScored.scored) 0.3 None
    = Some kept /\
    kept `sublist_of` (Sample.relevant_span :: SampleScored.scored) /\
    (forall s, s ∈ kept <->
               s ∈ Sample.relevant_span :: SampleScored.scored /\ 0.3 <= evidence_of s) /\
    (forall s, s ∈ Sample.relevant_span :: SampleScored.scored ->
               s !! "evidence_score" = None -> s ∈ kept <-> 0.3 <= 0) /\
    forall max_spans : Z,
      EvidenceScorer.filter_evidence (Sample.relevant_span :: SampleScored.scored) 0.3
        (Some max_spans)
      = Some (slice_to max_spans kept).
Proof.
  assert (Forall (fun s => numeric_field s "evidence_score")
                 (Sample.relevant_span :: SampleScored.scored)) as Hall
    by (repeat (constructor; [vm_compute; exact I|]); constructor).
  split; [exact Hall|].
  exact (filter_evidence_threshold (Sample.relevant_span :: SampleScored.scored) 0.3 Hall).
Defined.

Lemma sorted_filter_prefix (min_score : Q) (l : list pydict) :
  StronglySorted (fun a b => evidence_of b <= evidence_of a) l ->
  exists n,
    List.filter (fun s => Qle_bool min_score (evidence_of s)) l = take n l /\
    Forall (fun s => evidence_of s < min_score) (drop n l).
Proof.
  induction 1 as [|x l Hl IH Hx]; [by exists 0%nat|].
  destruct (Qle_bool min_score (evidence_of x)) eqn:Hkeep.
  - destruct IH as (n & Hn & Hrest). exists (S n). cbn. by rewrite Hkeep, Hn.
  - exists 0%nat. cbn. rewrite Hkeep.
    assert (evidence_of x < min_score) as Hlt.
    { apply Qnot_le_lt. intros Hle%Qle_bool_iff. congruence. }
    assert (Forall (fun s => evidence_of s < min_score) l) as Hall
      by (eapply Forall_impl; [exact Hx|]; intros s Hs; cbn in Hs; lra).
    split; [|by constructor].
    clear -Hall. induction Hall as [|y l Hy _ IH]; [done|]. cbn.
    destruct (Qle_bool min_score (evidence_of y)) eqn:Hy'; [|done].
    apply Qle_bool_iff in Hy'. lra.
Qed.

(** X5: on a list that [score_evidence] returned, the threshold of
    [filter_evidence] cuts a prefix: the spans kept are the first n of the
    ranked list, and every later span scores below [min_score]. *)
Theorem filter_after_score_is_prefix (self : EvidenceScorer.t) (spans : list pydict)
    (query : string) (event_type : option string) (event_turn_index : option Q)
    (ranked : list pydict) (min_score : Q) :
  EvidenceScorer.score_evidence self spans query event_type event_turn_index = Some ranked ->
  exists n,
    EvidenceScorer.filter_evidence ranked min_score None = Some (take n ranked) /\
    Forall (fun s => min_score <= evidence_of s) (take n ranked) /\
    Forall (fun s => evidence_of s < min_score) (drop n ranked).
Proof.
  intros Hranked.
  destruct (score_evidence_output _ _ _ _ _ _ Hranked) as (_ & Hkeys & Hsorted & _).
  destruct (sorted_filter_prefix min_score ranked Hsorted) as (n & Hn & Hrest).
  exists n. destruct (filter_evidence_filter ranked min_score Hkeys) as [-> _].
  rewrite Hn. split; [done|]. split; [|done].
  rewrite <- Hn. apply Forall_forall. intros s Hs%elem_of_List_filter.
  by apply Qle_bool_iff, Hs.
Qed.

Lemma filter_after_score_is_prefix_witness :
  EvidenceScorer.score_evidence EvidenceScorer.default Sample.spans "why" None None
  = Some SampleScored.scored /\
  exists n,
    EvidenceScorer.filter_evidence SampleScored.scored 0.38 None
    = Some (take n SampleScored.scored) /\
    Forall (fun s => 0.38 <= evidence_of s) (take n SampleScored.scored) /\
    Forall (fun s => evidence_of s < 0.38) (drop n SampleScored.scored).
Proof.
  assert (EvidenceScorer.score_evidence EvidenceScorer.default Sample.spans "why" None None
          = Some SampleScored.scored) as Hscored by reflexivity.
  split; [exact Hscored|].
  exact (filter_after_score_is_prefix EvidenceScorer.default Sample.spans "why" None None
           SampleScored.scored 0.38 Hscored).
Defined.

(** ** Aggregation *)

Lemma num_of_nat_S n : num_of_nat (S n) == num_of_nat n + 1.
Proof.
  unfold num_of_nat. rewrite Nat2Z.inj_succ, <- Z.add_1_r, inject_Z_plus. reflexivity.
Qed.

Lemma sum_bounds (lo hi : Q) (l : list Q) :
  Forall (fun x => lo <= x /\ x <= hi) l ->
  lo * num_of_nat (length l) <= foldr Qplus 0 l /\
  foldr Qplus 0 l <= hi * num_of_nat (length l).
Proof.
  induction 1 as [|x l [Hlo Hhi] _ [IHlo IHhi]].
  - cbn. change (num_of_nat 0) with 0. lra.
  - cbn [length foldr]. rewrite num_of_nat_S. lra.
Qed.

Lemma num_of_nat_pos n : (0 < n)%nat -> 0 < num_of_nat n.
Proof.
  intros Hn. unfold num_of_nat. replace 0 with (inject_Z 0) by done.
  rewrite <- Zlt_Qlt. lia.
Qed.

Lemma mean_spec (l : list Q) :
  EvidenceScorer.mean l * num_of_nat (length l) == foldr Qplus 0 l \/ l = [].
Proof.
  destruct l as [|x l]; [by right|]. left. unfold EvidenceScorer.mean.
  rewrite Qmult_comm. apply Qmult_div_r.
  assert (0 < num_of_nat (length (x :: l))) as Hpos by (apply num_of_nat_pos; cbn; lia).
  intros Hz. rewrite Hz in Hpos. by apply Qlt_irrefl in Hpos.
Qed.

Lemma mean_bounds (lo hi : Q) (l : list Q) :
  l <> [] -> Forall (fun x => lo <= x /\ x <= hi) l ->
  lo <= EvidenceScorer.mean l /\ EvidenceScorer.mean l <= hi.
Proof.
  intros Hne Hall. destruct (sum_bounds lo hi l Hall) as [Hlo Hhi].
  assert (0 < num_of_nat (length l)) as Hpos
    by (apply num_of_nat_pos; destruct l; [done | cbn; lia]).
  unfold EvidenceScorer.mean. split.
  - by apply Qle_shift_div_l.
  - by apply Qle_shift_div_r.
Qed.

Lemma hashable_items_iter v :
  hashable_items v ->
  exists l, as_iter v = Some l /\ Forall (fun x => is_Some (hash_key x)) l.
Proof.
  unfold hashable_items. destruct (as_iter v) as [l|]; [|done].
  intros Hall. exists l. split; [done|].
  apply Forall_forall. intros x Hx.
  apply Is_true_true, forallb_forall with (x := x) in Hall.
  - by apply bool_decide_eq_true in Hall.
  - by apply list_elem_of_In.
Qed.

Lemma py_set_Some (l : list value) :
  Forall (fun x => is_Some (hash_key x)) l ->
  exists set, py_set l = Some set /\
              forall a, a ∈ set <-> exists v, v ∈ l /\ hash_key v = Some a.
Proof.
  intros Hall. unfold py_set.
  destruct (mapM hash_key l) as [atoms|] eqn:Hatoms; last first.
  { exfalso. apply eq_None_not_Some in Hatoms. by apply Hatoms, mapM_is_Some. }
  eexists. split; [done|]. intros a. rewrite elem_of_list_to_set.
  apply mapM_Some in Hatoms. split.
  - intros Ha. apply list_elem_of_lookup in Ha as [i Hi].
    destruct (Forall2_lookup_r _ _ _ _ _ Hatoms Hi) as (v & Hv & Hk).
    exists v. split; [|done]. by eapply list_elem_of_lookup_2.
  - intros (v & Hv & Hk). apply list_elem_of_lookup in Hv as [i Hi].
    destruct (Forall2_lookup_l _ _ _ _ _ Hatoms Hi) as (a' & Ha' & Hk').
    rewrite Hk in Hk'. injection Hk' as <-. by eapply list_elem_of_lookup_2.
Qed.

Lemma elem_of_concat {A} (x : A) (ls : list (list A)) :
  x ∈ concat ls <-> exists l, l ∈ ls /\ x ∈ l.
Proof.
  rewrite list_elem_of_In, in_concat. split.
  - intros (l & Hl & Hx). exists l. by rewrite !list_elem_of_In.
  - intros (l & Hl & Hx). exists l. by rewrite <- !list_elem_of_In.
Qed.

Lemma Forall_concat {A} (P : A -> Prop) (ls : list (list A)) :
  Forall (Forall P) ls -> Forall P (concat ls).
Proof.
  induction 1 as [|l ls Hl _ IH]; [constructor|]. cbn. by apply Forall_app.
Qed.

Section Aggregate.
Variable spans : list pydict.
Variable max_spans : Z.
Hypothesis Hall : Forall (fun s => aggregable s) spans.

Let top_spans : list pydict := slice_to max_spans spans.

Lemma top_spans_aggregable : Forall (fun s => aggregable s) top_spans.
Proof. unfold top_spans, slice_to. by apply Forall_take. Qed.

Lemma aggregable_items k :
  (k = "turn_ids" \/ k = "speakers")%string ->
  mapM (fun span => as_iter (dict_get span k (VList []))) top_spans
  = Some ((fun s => items_of s k) <$> top_spans) /\
  Forall (fun x => is_Some (hash_key x)) (concat ((fun s => items_of s k) <$> top_spans)).
Proof.
  intros Hk. pose proof top_spans_aggregable as Htop. split.
  - apply mapM_total. eapply Forall_impl; [exact Htop|]. intros s Hs.
    unfold aggregable in Hs. repeat (apply andb_prop_elim in Hs as [Hs ?]).
    unfold items_of.
    destruct Hk as [-> | ->];
      match goal with
      | H : Is_true (hashable_items (dict_get s ?k _)) |- context [dict_get s ?k _] =>
          destruct (hashable_items_iter _ H) as (l & -> & _)
      end; done.
  - apply Forall_concat, Forall_fmap. eapply Forall_impl; [exact Htop|]. intros s Hs.
    unfold aggregable in Hs. repeat (apply andb_prop_elim in Hs as [Hs ?]).
    unfold items_of. cbn.
    destruct Hk as [-> | ->];
      match goal with
      | H : Is_true (hashable_items (dict_get s ?k _)) |- context [dict_get s ?k _] =>
          destruct (hashable_items_iter _ H) as (l & -> & Hl)
      end; done.
Qed.

Lemma aggregable_transcript_ids :
  exists ids,
    mapM EvidenceScorer.transcript_id_of top_spans = Some ids /\
    Forall (fun x => is_Some (hash_key x)) (filter (fun v => truthy v) ids).
Proof.
  pose proof top_spans_aggregable as Htop.
  induction Htop as [|s l Hs _ (ids & Hids & Hhash)]; [by exists []|].
  unfold aggregable in Hs. repeat (apply andb_prop_elim in Hs as [Hs ?]).
  destruct (EvidenceScorer.transcript_id_of s) as [v|] eqn:Hv; [|done].
  exists (v :: ids). split; [cbn; by rewrite Hv, Hids|].
  rewrite filter_cons. destruct (decide _); [|done].
  constructor; [|done]. by eapply bool_decide_unpack.
Qed.

Lemma aggregable_texts :
  mapM (fun span => as_str (dict_get span "text" (VStr ""))) top_spans
  = Some ((fun s => default "" (as_str (dict_get s "text" (VStr "")))) <$> top_spans).
Proof.
  apply mapM_total. eapply Forall_impl; [exact top_spans_aggregable|]. intros s Hs.
  unfold aggregable in Hs. repeat (apply andb_prop_elim in Hs as [Hs ?]).
  unfold dict_get. by destruct (s !! "text") as [[]|].
Qed.

Lemma aggregable_scores :
  mapM EvidenceScorer.evidence_key top_spans = Some (evidence_of <$> top_spans).
Proof.
  apply mapM_total. eapply Forall_impl; [exact top_spans_aggregable|]. intros s Hs.
  unfold aggregable in Hs. repeat (apply andb_prop_elim in Hs as [Hs ?]).
  by apply evidence_key_of, numeric_evidence_key.
Qed.

End Aggregate.

(** What [aggregate_evidence] returns on spans it can read. *)
Lemma aggregate_evidence_total (spans : list pydict) (max_spans : Z) :
  Forall (fun s => aggregable s) spans ->
  exists agg,
    EvidenceScorer.aggregate_evidence spans max_spans = Some agg /\
    EvidenceScorer.spans agg = slice_to max_spans spans /\
    EvidenceScorer.num_spans agg = length (slice_to max_spans spans) /\
    EvidenceScorer.avg_evidence_score agg
    = match slice_to max_spans spans with
      | [] => 0
      | _ => EvidenceScorer.mean (evidence_of <$> slice_to max_spans spans)
      end /\
    (slice_to max_spans spans = [] -> EvidenceScorer.text agg = ""%string) /\
    (forall a, a ∈ EvidenceScorer.turn_ids agg <->
               exists v, v ∈ concat ((fun s => items_of s "turn_ids")
                                       <$> slice_to max_spans spans) /\
                         hash_key v = Some a).
Proof.
  intros Hall. unfold EvidenceScorer.aggregate_evidence.
  rewrite (aggregable_texts spans max_spans Hall). cbn [mbind option_bind].
  destruct (aggregable_items spans max_spans Hall "turn_ids") as [-> Hturn]; [by left|].
  destruct (aggregable_items spans max_spans Hall "speakers") as [-> Hspeak]; [by right|].
  cbn [mbind option_bind].
  destruct (aggregable_transcript_ids spans max_spans Hall) as (ids & -> & Hids).
  cbn [mbind option_bind].
  destruct (py_set_Some _ Hturn) as (turn_set & -> & Hturn_set).
  destruct (py_set_Some _ Hspeak) as (speaker_set & -> & _).
  destruct (py_set_Some _ Hids) as (id_set & -> & _).
  cbn [mbind option_bind].
  rewrite (aggregable_scores spans max_spans Hall). cbn [mbind option_bind].
  eexists. split; [done|]. cbn.
  split; [done|]. split; [done|]. split; [done|]. split; [by intros ->|]. done.
Qed.

(** X6: on spans it can read, [aggregate_evidence] returns the aggregate of
    the first [max_spans] spans: [num_spans] is their number, min(max_spans,
    n) for a non-negative [max_spans]; [avg_evidence_score] times
    [num_spans] is the sum of their evidence scores, so the average lies
    between any two bounds of those scores; with no span to aggregate the
    average is 0 and the text is empty, and nothing is divided by zero; the
    turn ids are exactly the hashable ids of those spans. *)
Theorem aggregate_evidence_average (spans : list pydict) (max_spans : Z) :
  Forall (fun s => aggregable s) spans ->
  exists agg,
    EvidenceScorer.aggregate_evidence spans max_spans = Some agg /\
    EvidenceScorer.spans agg = slice_to max_spans spans /\
    EvidenceScorer.num_spans agg = length (EvidenceScorer.spans agg) /\
    ((0 <= max_spans)%Z ->
     EvidenceScorer.num_spans agg = Nat.min (Z.to_nat max_spans) (length spans)) /\
    EvidenceScorer.avg_evidence_score agg * num_of_nat (EvidenceScorer.num_spans agg)
      == total_evidence (EvidenceScorer.spans agg) /\
    (forall lo hi,
       EvidenceScorer.spans agg <> [] ->
       Forall (fun s => lo <= evidence_of s /\ evidence_of s <= hi) (EvidenceScorer.spans agg) ->
       lo <= EvidenceScorer.avg_evidence_score agg /\
       EvidenceScorer.avg_evidence_score agg <= hi) /\
    (EvidenceScorer.spans agg = [] ->
     EvidenceScorer.avg_evidence_score agg = 0 /\ EvidenceScorer.text agg = ""%string) /\
    (forall a, a ∈ EvidenceScorer.turn_ids agg <->
               exists s v, s ∈ EvidenceScorer.spans agg /\ v ∈ items_of s "turn_ids" /\
                           hash_key v = Some a).
Proof.
  intros Hall.
  destruct (aggregate_evidence_total spans max_spans Hall)
    as (agg & Hagg & Hspans & Hnum & Havg & Htext & Hturn_set).
  exists agg. split; [done|]. rewrite Hspans, Hnum, Havg.
  split; [done|]. split; [done|].
  split; [intros Hk; by apply slice_to_length|].
  split.
  { unfold total_evidence. destruct (slice_to max_spans spans) as [|s l] eqn:Htop.
    - cbn. change (num_of_nat 0) with 0. lra.
    - destruct (mean_spec (evidence_of <$> s :: l)) as [Hmean | ?]; [|done].
      by rewrite length_fmap in Hmean. }
  split.
  { intros lo hi Hne Hbounds. destruct (slice_to max_spans spans) as [|s l] eqn:Htop; [done|].
    apply mean_bounds; [done|]. by apply Forall_fmap. }
  split.
  { intros Hnil. rewrite Hnil in *. split; [done | by apply Htext]. }
  intros a. rewrite Hturn_set. split.
  - intros (v & Hv & Hk). apply elem_of_concat in Hv as (l & Hl & Hv).
    apply list_elem_of_fmap in Hl as (s & -> & Hs). by exists s, v.
  - intros (s & v & Hs & Hv & Hk). exists v. split; [|done].
    apply elem_of_concat. exists (items_of s "turn_ids"). split; [|done].
    apply list_elem_of_fmap. by exists s.
Qed.

Lemma Forall_forallb {A} (p : A -> bool) (l : list A) :
  forallb p l = true -> Forall (fun x => p x) l.
Proof.
  intros H. apply Forall_forall. intros x Hx%list_elem_of_In.
  apply Is_true_true. by eapply forallb_forall in H.
Qed.

Lemma aggregate_evidence_average_witness :
  Forall (fun s => aggregable s) SampleTurns.windows /\
  exists agg,
    EvidenceScorer.aggregate_evidence SampleTurns.windows 1 = Some agg /\
    EvidenceScorer.spans agg = slice_to 1 SampleTurns.windows /\
    EvidenceScorer.num_spans agg = length (EvidenceScorer.spans agg) /\
    ((0 <= 1)%Z ->
     EvidenceScorer.num_spans agg = Nat.min (Z.to_nat 1) (length SampleTurns.windows)) /\
    EvidenceScorer.avg_evidence_score agg * num_of_nat (EvidenceScorer.num_spans agg)
      == total_evidence (EvidenceScorer.spans agg) /\
    (forall lo hi,
       EvidenceScorer.spans agg <> [] ->
       Forall (fun s => lo <= evidence_of s /\ evidence_of s <= hi) (EvidenceScorer.spans agg) ->
       lo <= EvidenceScorer.avg_evidence_score agg /\
       EvidenceScorer.avg_evidence_score agg <= hi) /\
    (EvidenceScorer.spans agg = [] ->
     EvidenceScorer.avg_evidence_score agg = 0 /\ EvidenceScorer.text agg = ""%string) /\
    (forall a, a ∈ EvidenceScorer.turn_ids agg <->
               exists s v, s ∈ EvidenceScorer.spans agg /\ v ∈ items_of s "turn_ids" /\
                           hash_key v = Some a).
Proof.
  assert (Forall (fun s => aggregable s) SampleTurns.windows) as Hall
    by (apply Forall_forallb; vm_compute; reflexivity).
  split; [exact Hall|].
  exact (aggregate_evidence_average SampleTurns.windows 1 Hall).
Defined.

(** ** Spans around an event *)

Lemma create_spans_covers turns transcript_id start_index (w : nat) :
  Forall (fun t => turn_ok t) turns ->
  exists spans,
    SpanExtractor.create_spans_from_turns turns transcript_id start_index (Z.of_nat w)
    = Some spans /\
    length spans = Z.to_nat (Z.of_nat (length turns) - Z.of_nat w + 1) /\
    forall i, (i < length spans)%nat ->
      exists span, spans !! i = Some span /\
                   covers turns transcript_id start_index w i span.
Proof.
  intros Hok. unfold SpanExtractor.create_spans_from_turns, range.
  set (m := Z.to_nat (Z.of_nat (length turns) - Z.of_nat w + 1)).
  assert (forall i, (i < m)%nat -> (i + w <= length turns)%nat) as Hfit by lia.
  destruct (mapM _ (Z.of_nat <$> seq 0 m)) as [spans|] eqn:Hspans.
  - exists spans. split; [done|]. apply mapM_Some in Hspans.
    pose proof (Forall2_length _ _ _ Hspans) as Hlen.
    rewrite length_fmap, length_seq in Hlen.
    split; [lia|]. intros i Hi.
    destruct (Forall2_lookup_l _ _ _ i (Z.of_nat i) Hspans) as (span & Hspan & Hmake).
    { rewrite list_lookup_fmap, lookup_seq_lt by lia. done. }
    exists span. split; [done|].
    destruct (make_span_window turns transcript_id start_index w i Hok) as (span' & Hs' & Hc).
    { apply Hfit. lia. }
    rewrite Hmake in Hs'. by injection Hs' as <-.
  - exfalso. apply eq_None_not_Some in Hspans. apply Hspans, mapM_is_Some.
    apply Forall_fmap, Forall_forall. intros i Hi%elem_of_seq. cbn.
    destruct (make_span_window turns transcript_id start_index w i Hok) as (span' & -> & _);
      [apply Hfit; lia | by eexists].
Qed.

Lemma as_index_inject (q : Q) (z : Z) : q == inject_Z z -> as_index q = Some z.
Proof.
  intros Hq. unfold as_index. rewrite (Qred_complete _ _ Hq).
  assert (Qred (inject_Z z) = inject_Z z) as ->.
  { apply Qcanon.Qred_identity. cbn. apply Z.gcd_1_r. }
  done.
Qed.

Lemma py_max_inject (a b : Z) (q : Q) :
  q == inject_Z b -> py_max (inject_Z a) q == inject_Z (Z.max a b).
Proof.
  intros Hq. unfold py_max. destruct (Qltb (inject_Z a) q) eqn:Hlt.
  - apply Qltb_lt in Hlt. rewrite Hq, <- Zlt_Qlt in Hlt. by rewrite Z.max_r by lia.
  - apply Qltb_ge in Hlt. rewrite Hq, <- Zlt_Qlt in Hlt. by rewrite Z.max_l by lia.
Qed.

Lemma py_min_inject (a b : Z) (q : Q) :
  q == inject_Z b -> py_min (inject_Z a) q == inject_Z (Z.min a b).
Proof.
  intros Hq. unfold py_min. destruct (Qltb q (inject_Z a)) eqn:Hlt.
  - apply Qltb_lt in Hlt. rewrite Hq, <- Zlt_Qlt in Hlt. by rewrite Z.min_r by lia.
  - apply Qltb_ge in Hlt. rewrite Hq, <- Zlt_Qlt in Hlt. by rewrite Z.min_l by lia.
Qed.

Lemma slice_fmap {A B} (f : A -> B) (i j : Z) (l : list A) :
  slice i j (f <$> l) = f <$> slice i j l.
Proof. unfold slice. by rewrite length_fmap, fmap_take, fmap_drop. Qed.

Lemma slice_bounds {A} (lo hi : Z) (l : list A) :
  (0 <= lo)%Z -> (0 <= hi <= Z.of_nat (length l))%Z ->
  slice lo hi l = take (Z.to_nat hi - Z.to_nat lo) (drop (Z.to_nat lo) l).
Proof.
  intros Hlo Hhi. unfold slice, norm_index.
  assert ((lo <? 0)%Z = false) as -> by lia.
  assert ((hi <? 0)%Z = false) as -> by lia.
  rewrite (Nat.min_l (Z.to_nat hi)) by lia.
  destruct (decide (Z.to_nat lo <= length l)%nat).
  - by rewrite Nat.min_l by lia.
  - rewrite Nat.min_r by lia. rewrite !drop_ge by lia. by rewrite !take_nil.
Qed.

Lemma mapM_as_dict (l : list pydict) : mapM as_dict (VDict <$> l) = Some l.
Proof. induction l as [|d l IH]; [done|]. cbn. by rewrite IH. Qed.

Lemma window_of_slice (turns : list pydict) (lo n i : nat) :
  (i + 5 <= n)%nat ->
  window (take n (drop lo turns)) i 5 = window turns (lo + i) 5.
Proof.
  intros Hfit. unfold window.
  rewrite skipn_firstn_comm, take_take, drop_drop.
  f_equal. lia.
Qed.

Lemma covers_transcript_window (turns : list pydict) tid (lo n i : nat) span :
  (i + 5 <= n)%nat ->
  covers (take n (drop lo turns)) tid (Z.of_nat lo) 5 i span ->
  transcript_window turns (lo + i) span.
Proof.
  intros Hfit (first & last & ids & Hfirst & Hlast & Efirst & Elast & _ & Hids & Hlen &
               Hlookup & Htext & _).
  exists ids.
  split. { exists first. split; [done|]. rewrite Efirst. apply inject_Z_injective. lia. }
  split. { exists last. split; [done|]. rewrite Elast. apply inject_Z_injective. lia. }
  split. { by rewrite Htext, window_of_slice. }
  split; [done|]. split; [done|].
  intros j turn Hj Hturn.
  rewrite (Hlookup j turn Hj).
  - unfold turn_id_at. do 4 f_equal. lia.
  - rewrite lookup_take_lt by lia. rewrite lookup_drop. rewrite <- Hturn. f_equal. lia.
Qed.

Lemma mapM_as_str_inv (l : list value) (names : list string) :
  mapM as_str l = Some names -> l = VStr <$> names.
Proof.
  intros H%mapM_Some. induction H as [|v name l names Hv _ IH]; [done|].
  destruct v; try done. injection Hv as ->. cbn. by rewrite IH.
Qed.

Ltac not_span_key Hk :=
  let E := fresh in
  intros E; subst; apply Hk; cbv [span_keys]; repeat constructor.

Lemma make_span_made turns tid start_index window_size i span :
  SpanExtractor.make_span turns tid start_index window_size i = Some span ->
  span_made tid span.
Proof.
  unfold SpanExtractor.make_span. intros H.
  destruct (mapM _ (slice i (i + window_size) turns)) as [texts|]; [|done].
  cbn [mbind option_bind] in H.
  destruct (mapM as_str _) as [names|] eqn:Hnames; [|done].
  cbn [mbind option_bind] in H. injection H as <-.
  apply mapM_as_str_inv in Hnames. rewrite Hnames.
  split. { intros k Hk. by repeat (rewrite lookup_insert_ne by (not_span_key Hk)). }
  split; [eexists; by lookup_inserts|].
  split; [eexists _, _; split; by lookup_inserts|].
  split; [eexists; by lookup_inserts|].
  split; [by lookup_inserts|].
  eexists. split; [by lookup_inserts|]. by lookup_inserts.
Qed.

Lemma create_spans_made turns tid start_index window_size spans :
  SpanExtractor.create_spans_from_turns turns tid start_index window_size = Some spans ->
  Forall (span_made tid) spans.
Proof.
  unfold SpanExtractor.create_spans_from_turns. intros H%mapM_Some.
  induction H as [|i span l spans Hspan _ IH]; constructor; [|done].
  by eapply make_span_made.
Qed.

Section ExtractCausalSpans.
Variables (transcript : pydict) (turns : list pydict) (tid : string).
Hypothesis Hturns : transcript !! "turns" = Some (VList (VDict <$> turns)).
Hypothesis Hok : Forall (fun t => turn_ok t) turns.
Hypothesis Htid : as_str (dict_get transcript "transcript_id" (VStr "unknown")) = Some tid.

(** The spans around an event at the integer turn index [e]. *)
Lemma extract_causal_spans_at (event : pydict) (q : Q) (e window_before window_after : Z) :
  SpanExtractor.event_position (VList (VDict <$> turns)) event = Some (VNum q) ->
  q == inject_Z e ->
  (0 <= e + window_after + 1)%Z ->
  let lo := Z.max 0 (e - window_before) in
  let hi := Z.min (Z.of_nat (length turns)) (e + window_after + 1) in
  exists spans,
    SpanExtractor.extract_causal_spans transcript event window_before window_after
    = Some spans /\
    length spans = Z.to_nat (hi - lo - 4) /\
    Forall (span_made tid) spans /\
    forall i, (i < length spans)%nat ->
      exists span, spans !! i = Some span /\
                   transcript_window turns (Z.to_nat lo + i) span.
Proof.
  intros Hpos Hq Hwa lo hi. unfold SpanExtractor.extract_causal_spans.
  assert (dict_get transcript "turns" (VList []) = VList (VDict <$> turns)) as ->
    by (unfold dict_get; by rewrite Hturns).
  destruct (truthy (VList (VDict <$> turns))) eqn:Htruthy; cbn [negb]; last first.
  { assert (length turns = 0%nat) as Hnil.
    { rewrite <- (length_fmap VDict). cbn in Htruthy. by destruct (VDict <$> turns). }
    exists []. split; [done|]. split; [cbn; lia|]. split; [constructor | cbn; intros; lia]. }
  rewrite Hpos. cbn [mbind option_bind as_num as_iter].
  rewrite length_fmap.
  rewrite (as_index_inject (py_max 0 (q - inject_Z window_before)) lo); last first.
  { apply (py_max_inject 0). rewrite Hq. unfold Qminus.
    by rewrite <- inject_Z_opp, <- inject_Z_plus. }
  rewrite (as_index_inject (py_min (num_of_nat (length turns))
                                      (q + inject_Z window_after + 1)) hi); last first.
  { apply py_min_inject. rewrite Hq. change 1 with (inject_Z 1).
    by rewrite <- !inject_Z_plus. }
  cbn [mbind option_bind]. unfold SpanExtractor.slice_value. cbn [as_iter fmap option_fmap option_map].
  cbn [mbind option_bind]. rewrite slice_fmap, length_fmap.
  assert (0 <= lo)%Z as Hlo by lia.
  assert (0 <= hi <= Z.of_nat (length turns))%Z as Hhi by lia.
  rewrite (slice_bounds lo hi turns Hlo Hhi).
  set (n := (Z.to_nat hi - Z.to_nat lo)%nat).
  set (causal := take n (drop (Z.to_nat lo) turns)).
  assert (length causal = Nat.min n (length turns - Z.to_nat lo)) as Hlen
    by (unfold causal; by rewrite length_take, length_drop).
  destruct (length causal <? Z.to_nat SpanExtractor.default_window_size)%nat eqn:Hshort.
  { apply Nat.ltb_lt in Hshort. change (Z.to_nat SpanExtractor.default_window_size) with 5%nat in Hshort.
    exists []. split; [done|]. split; [cbn; lia|]. split; [constructor | cbn; intros; lia]. }
  apply Nat.ltb_ge in Hshort.
  change (Z.to_nat SpanExtractor.default_window_size) with 5%nat in Hshort.
  rewrite mapM_as_dict. cbn [mbind option_bind]. rewrite Htid. cbn [mbind option_bind].
  assert (Forall (fun t => turn_ok t) causal) as Hcausal
    by (unfold causal; by apply Forall_take, Forall_drop).
  destruct (create_spans_covers causal tid lo 5 Hcausal) as (spans & Hspans & Hcount & Hcovers).
  exists spans. split; [exact Hspans|]. split; [lia|].
  split; [by eapply create_spans_made|].
  intros i Hi. destruct (Hcovers i Hi) as (span & Hspan & Hc).
  exists span. split; [done|].
  apply (covers_transcript_window turns tid (Z.to_nat lo) n i span); [lia|].
  by rewrite Z2Nat.id.
Qed.

End ExtractCausalSpans.

Lemma find_turn_none (id : value) (i : nat) (turns : list pydict) :
  no_turn_with_id turns id ->
  SpanExtractor.find_turn id i (VDict <$> turns) = Some None.
Proof.
  intros Hnone. revert i. induction Hnone as [|turn turns Hturn _ IH]; intros i; [done|].
  cbn. unfold turn_id_of in Hturn. rewrite Hturn. apply IH.
Qed.

Lemma find_turn_first (id : value) (i k : nat) (turns : list pydict) :
  first_with_id turns id k ->
  SpanExtractor.find_turn id i (VDict <$> turns) = Some (Some (i + k)%nat).
Proof.
  revert i k. induction turns as [|turn turns IH]; intros i k [(t & Ht & Hid) Hbefore].
  { by rewrite lookup_nil in Ht. }
  cbn. destruct k as [|k].
  - cbn in Ht. injection Ht as ->. unfold turn_id_of in Hid. rewrite Hid.
    do 2 f_equal. lia.
  - assert (py_eq (turn_id_of turn) id = false) as Hturn
      by (apply (Hbefore 0%nat); [lia | done]).
    unfold turn_id_of in Hturn. rewrite Hturn.
    rewrite (IH (S i) k); [do 2 f_equal; lia|].
    split; [by exists t|]. intros j t' Hj Ht'. apply (Hbefore (S j)); [lia | done].
Qed.

Lemma as_index_spec (q : Q) (z : Z) : as_index q = Some z -> q == inject_Z z.
Proof.
  unfold as_index. destruct (Qden (Qred q) =? 1)%positive eqn:Hden; [|done].
  intros [= <-]. apply Pos.eqb_eq in Hden.
  rewrite <- (Qred_correct q) at 1. destruct (Qred q) as [n d]. cbn in *. by subst.
Qed.

(** X7: for a transcript of well-formed turns and an event at the integer
    turn index e, [extract_causal_spans] returns the windows of five turns
    that lie between the turns max(0, e - window_before) and
    min(N - 1, e + window_after), in the order of their start: the i-th span
    is the window of the transcript that starts at max(0, e - window_before)
    + i; none starts before turn e - window_before, none ends after turn
    e + window_after, and a range of fewer than five turns gives no span. *)
Theorem extract_causal_spans_window (transcript event : pydict) (turns : list pydict)
    (tid : string) (e window_before window_after : Z) :
  transcript !! "turns" = Some (VList (VDict <$> turns)) ->
  Forall (fun t => turn_ok t) turns ->
  as_str (dict_get transcript "transcript_id" (VStr "unknown")) = Some tid ->
  event !! "turn_index" = Some (VNum (inject_Z e)) ->
  (0 <= e + window_after + 1)%Z ->
  exists spans,
    SpanExtractor.extract_causal_spans transcript event window_before window_after
    = Some spans /\
    Z.of_nat (length spans)
    = Z.max 0 (Z.min (Z.of_nat (length turns)) (e + window_after + 1)
               - Z.max 0 (e - window_before) - 4) /\
    forall (i : nat) span, spans !! i = Some span ->
      let first := (Z.max 0 (e - window_before) + Z.of_nat i)%Z in
      transcript_window turns (Z.to_nat first) span /\
      (e - window_before <= first)%Z /\
      (first + 4 <= e + window_after)%Z /\
      (first + 4 < Z.of_nat (length turns))%Z.
Proof.
  intros Hturns Hok Htid Hindex Hwa.
  destruct (extract_causal_spans_at transcript turns tid Hturns Hok Htid event
              (inject_Z e) e window_before window_after) as (spans & Hspans & Hlen & _ & Hwin);
    [by unfold SpanExtractor.event_position; rewrite Hindex | done | done |].
  exists spans. split; [done|]. split; [lia|].
  intros i span Hspan first.
  assert (i < length spans)%nat as Hi by (by eapply lookup_lt_Some).
  destruct (Hwin i Hi) as (span' & Hspan' & Hw).
  rewrite Hspan in Hspan'. injection Hspan' as <-.
  split; [|lia].
  replace (Z.to_nat first) with (Z.to_nat (Z.max 0 (e - window_before)) + i)%nat
    by (unfold first; lia).
  done.
Qed.

Lemma extract_causal_spans_window_witness :
  SampleTranscript.transcript !! "turns"
  = Some (VList (VDict <$> SampleTranscript.turn_dicts)) /\
  Forall (fun t => turn_ok t) SampleTranscript.turn_dicts /\
  as_str (dict_get SampleTranscript.transcript "transcript_id" (VStr "unknown"))
  = Some "call-1"%string /\
  SampleTranscript.refund_event !! "turn_index" = Some (VNum (inject_Z 6)) /\
  (0 <= 6 + 0 + 1)%Z /\
  exists spans,
    SpanExtractor.extract_causal_spans SampleTranscript.transcript
      SampleTranscript.refund_event 10 0 = Some spans /\
    Z.of_nat (length spans)
    = Z.max 0 (Z.min (Z.of_nat (length SampleTranscript.turn_dicts)) (6 + 0 + 1)
               - Z.max 0 (6 - 10) - 4) /\
    forall (i : nat) span, spans !! i = Some span ->
      let first := (Z.max 0 (6 - 10) + Z.of_nat i)%Z in
      transcript_window SampleTranscript.turn_dicts (Z.to_nat first) span /\
      (6 - 10 <= first)%Z /\
      (first + 4 <= 6 + 0)%Z /\
      (first + 4 < Z.of_nat (length SampleTranscript.turn_dicts))%Z.
Proof.
  assert (SampleTranscript.transcript !! "turns"
          = Some (VList (VDict <$> SampleTranscript.turn_dicts))) as Hturns by reflexivity.
  assert (Forall (fun t => turn_ok t) SampleTranscript.turn_dicts) as Hok
    by (apply Forall_forallb; vm_compute; reflexivity).
  assert (as_str (dict_get SampleTranscript.transcript "transcript_id" (VStr "unknown"))
          = Some "call-1"%string) as Htid by reflexivity.
  assert (SampleTranscript.refund_event !! "turn_index" = Some (VNum (inject_Z 6))) as Hindex
    by reflexivity.
  assert (0 <= 6 + 0 + 1)%Z as Hwa by lia.
  do 5 (split; [assumption|]).
  exact (extract_causal_spans_window SampleTranscript.transcript SampleTranscript.refund_event
           SampleTranscript.turn_dicts "call-1" 6 10 0 Hturns Hok Htid Hindex Hwa).
Defined.

(** X8: an event that has no turn index and whose turn identifier is first
    carried by the turn at position k is treated as an event at turn index
    k. *)
Theorem extract_causal_spans_by_turn_id (transcript event event' : pydict)
    (turns : list pydict) (id : value) (k : nat) (window_before window_after : Z) :
  transcript !! "turns" = Some (VList (VDict <$> turns)) ->
  event !! "turn_index" = None ->
  event !! "turn_id" = Some id ->
  first_with_id turns id k ->
  event' !! "turn_index" = Some (VNum (num_of_nat k)) ->
  SpanExtractor.extract_causal_spans transcript event window_before window_after
  = SpanExtractor.extract_causal_spans transcript event' window_before window_after.
Proof.
  intros Hturns Hindex Hid Hfirst Hindex'. unfold SpanExtractor.extract_causal_spans.
  assert (dict_get transcript "turns" (VList []) = VList (VDict <$> turns)) as ->
    by (unfold dict_get; by rewrite Hturns).
  assert (SpanExtractor.event_position (VList (VDict <$> turns)) event
          = SpanExtractor.event_position (VList (VDict <$> turns)) event') as ->; [|done].
  unfold SpanExtractor.event_position. rewrite Hindex, Hid, Hindex'.
  cbn [as_iter mbind option_bind]. by rewrite (find_turn_first id 0 k turns Hfirst).
Qed.

Lemma extract_causal_spans_by_turn_id_witness :
  SampleTranscript.transcript !! "turns"
  = Some (VList (VDict <$> SampleTranscript.turn_dicts)) /\
  SampleTranscript.refund_by_id !! "turn_index" = None /\
  SampleTranscript.refund_by_id !! "turn_id" = Some (VStr "t6") /\
  first_with_id SampleTranscript.turn_dicts (VStr "t6") 6 /\
  SampleTranscript.refund_event !! "turn_index" = Some (VNum (num_of_nat 6)) /\
  SpanExtractor.extract_causal_spans SampleTranscript.transcript
    SampleTranscript.refund_by_id 10 5
  = SpanExtractor.extract_causal_spans SampleTranscript.transcript
      SampleTranscript.refund_event 10 5.
Proof.
  assert (SampleTranscript.transcript !! "turns"
          = Some (VList (VDict <$> SampleTranscript.turn_dicts))) as Hturns by reflexivity.
  assert (SampleTranscript.refund_by_id !! "turn_index" = None) as Hindex by reflexivity.
  assert (SampleTranscript.refund_by_id !! "turn_id" = Some (VStr "t6")) as Hid
    by reflexivity.
  assert (first_with_id SampleTranscript.turn_dicts (VStr "t6") 6) as Hfirst.
  { split; [eexists; split; reflexivity|].
    intros j turn Hj Hturn.
    do 6 (destruct j as [|j]; [injection Hturn as <-; reflexivity|]). lia. }
  assert (SampleTranscript.refund_event !! "turn_index" = Some (VNum (num_of_nat 6)))
    as Hindex' by reflexivity.
  do 5 (split; [assumption|]).
  exact (extract_causal_spans_by_turn_id SampleTranscript.transcript
           SampleTranscript.refund_by_id SampleTranscript.refund_event
           SampleTranscript.turn_dicts (VStr "t6") 6 10 5
           Hturns Hindex Hid Hfirst Hindex').
Defined.

(** X9: when the event gives no turn to look around, [extract_causal_spans]
    returns the empty list and does not raise. *)
Theorem extract_causal_spans_without_turn (transcript event : pydict)
    (window_before window_after : Z) :
  no_event_turn transcript event ->
  SpanExtractor.extract_causal_spans transcript event window_before window_after = Some [].
Proof.
  unfold SpanExtractor.extract_causal_spans.
  intros [Hnone | Hcases]; [by rewrite Hnone|].
  destruct (truthy _); [cbn [negb] | done].
  destruct Hcases as [Hindex | [[Hindex Hid] | (Hindex & id & turns & Hid & Hturns & Hno)]];
    unfold SpanExtractor.event_position; rewrite Hindex; [done | by rewrite Hid |].
  rewrite Hid. unfold dict_get. rewrite Hturns. cbn [as_iter mbind option_bind].
  by rewrite (find_turn_none id 0 turns Hno).
Qed.

Lemma extract_causal_spans_without_turn_witness :
  no_event_turn SampleTranscript.transcript SampleTranscript.unknown_event /\
  SpanExtractor.extract_causal_spans SampleTranscript.transcript
    SampleTranscript.unknown_event 10 5 = Some [].
Proof.
  assert (no_event_turn SampleTranscript.transcript SampleTranscript.unknown_event) as Hno.
  { do 3 right. split; [reflexivity|].
    exists (VStr "t9"), SampleTranscript.turn_dicts.
    split; [reflexivity|]. split; [reflexivity|].
    repeat (constructor; [reflexivity|]). constructor. }
  split; [exact Hno|].
  exact (extract_causal_spans_without_turn SampleTranscript.transcript
           SampleTranscript.unknown_event 10 5 Hno).
Defined.

(** ** Spans for all events of a type *)

Lemma mapM_Forall2_total {A B} (f : A -> option B) (P : A -> B -> Prop) (l : list A) :
  Forall (fun x => exists y, f x = Some y /\ P x y) l ->
  exists k, mapM f l = Some k /\ Forall2 P l k.
Proof.
  induction 1 as [|x l (y & Hy & HP) _ (k & Hk & IH)]; [by exists []|].
  exists (y :: k). cbn. rewrite Hy, Hk. split; [done|]. by constructor.
Qed.

Lemma event_ok_type event :
  event_ok event ->
  as_str (dict_get event "event_type" (VStr "")) = Some (event_type_of event).
Proof.
  unfold event_ok, event_type_of, dict_get. intros [H _]%andb_prop_elim.
  by destruct (event !! "event_type") as [[]|].
Qed.

Lemma event_ok_index event :
  event_ok event ->
  exists q e, event !! "turn_index" = Some (VNum q) /\ event_index event = Some e /\
              q == inject_Z e /\ (0 <= e + 0 + 1)%Z.
Proof.
  unfold event_ok, event_index. intros [_ H]%andb_prop_elim.
  destruct (event !! "turn_index") as [[| |q| | |]|]; try done.
  destruct (as_index q) as [e|] eqn:He; [|done].
  exists q, e. split; [done|]. split; [done|]. split; [by apply as_index_spec|].
  apply Is_true_true, Z.leb_le in H. lia.
Qed.

(** What [extract_event_specific_spans] returns on a well-formed transcript. *)
Lemma extract_event_specific_spans_total (transcript : pydict)
    (turns events : list pydict) (tid event_type : string) (window_before : Z) :
  transcript !! "turns" = Some (VList (VDict <$> turns)) ->
  Forall (fun t => turn_ok t) turns ->
  as_str (dict_get transcript "transcript_id" (VStr "unknown")) = Some tid ->
  transcript !! "events" = Some (VList (VDict <$> events)) ->
  Forall (fun ev => event_ok ev) events ->
  exists spans,
    SpanExtractor.extract_event_specific_spans transcript event_type window_before
    = Some spans /\
    (forall span, span ∈ spans ->
       exists event e (first : nat),
         event ∈ events /\ of_type event_type event = true /\
         event_index event = Some e /\
         span_made tid span /\
         transcript_window turns first span /\
         (e - window_before <= Z.of_nat first)%Z /\ (Z.of_nat first + 4 <= e)%Z /\
         (first + 5 <= length turns)%nat) /\
    (forall event e (first : nat),
       event ∈ events -> of_type event_type event = true ->
       event_index event = Some e ->
       (e - window_before <= Z.of_nat first)%Z -> (Z.of_nat first + 4 <= e)%Z ->
       (Z.of_nat first + 4 < Z.of_nat (length turns))%Z ->
       exists span, span ∈ spans /\ transcript_window turns first span).
Proof.
  intros Hturns Hok Htid Hevents Hevs.
  unfold SpanExtractor.extract_event_specific_spans.
  assert (dict_get transcript "events" (VList []) = VList (VDict <$> events)) as ->
    by (unfold dict_get; by rewrite Hevents).
  cbn [as_iter mbind option_bind]. rewrite mapM_as_dict. cbn [mbind option_bind].
  rewrite (filter_opt_total _ (of_type event_type)); last first.
  { eapply Forall_impl; [exact Hevs|]. intros ev Hev. cbn.
    by rewrite (event_ok_type ev Hev). }
  cbn [mbind option_bind].
  set (relevant := List.filter (of_type event_type) events).
  assert (forall ev, ev ∈ relevant <-> ev ∈ events /\ of_type event_type ev = true) as Hrel
    by (intros ev; apply elem_of_List_filter).
  set (P := fun (ev : pydict) (out : list pydict) =>
              exists e, event_index ev = Some e /\
                let lo := Z.max 0 (e - window_before) in
                let hi := Z.min (Z.of_nat (length turns)) (e + 0 + 1) in
                length out = Z.to_nat (hi - lo - 4) /\
                Forall (span_made tid) out /\
                forall i, (i < length out)%nat ->
                  exists span, out !! i = Some span /\
                               transcript_window turns (Z.to_nat lo + i) span).
  destruct (mapM_Forall2_total
              (fun event => SpanExtractor.extract_causal_spans transcript event window_before 0)
              P relevant) as (outs & -> & Houts).
  { apply Forall_forall. intros ev [Hev _]%Hrel.
    assert (event_ok ev) as Hevok by (by eapply Forall_forall in Hevs).
    destruct (event_ok_index ev Hevok) as (q & e & Hq & He & Eq & Hwa).
    destruct (extract_causal_spans_at transcript turns tid Hturns Hok Htid ev
                q e window_before 0) as (out & Hout & Hlen & Hmade & Hwin);
      [by unfold SpanExtractor.event_position; rewrite Hq | done | done |].
    exists out. split; [done|]. by exists e. }
  cbn [mbind option_bind]. eexists. split; [done|]. split.
  - intros span (out & Hout & Hspan)%elem_of_concat.
    apply list_elem_of_lookup in Hout as [n Hn].
    destruct (Forall2_lookup_r _ _ _ _ _ Houts Hn)
      as (ev & Hev & e & He & Hlen & Hmade & Hwin).
    apply list_elem_of_lookup_2, Hrel in Hev as [Hev Htype].
    apply list_elem_of_lookup in Hspan as [i Hi].
    destruct (Hwin i) as (span' & Hspan' & Hw); [by eapply lookup_lt_Some|].
    rewrite Hi in Hspan'. injection Hspan' as <-.
    pose proof (Forall_lookup_1 _ _ _ _ Hmade Hi) as Hm.
    apply lookup_lt_Some in Hi.
    exists ev, e, (Z.to_nat (Z.max 0 (e - window_before)) + i)%nat.
    do 5 (split; [done|]). lia.
  - intros ev e first Hev Htype He Hlo Hhi HN.
    assert (ev ∈ relevant) as Hin by (by apply Hrel).
    apply list_elem_of_lookup in Hin as [n Hn].
    destruct (Forall2_lookup_l _ _ _ _ _ Houts Hn)
      as (out & Hout & e' & He' & Hlen & _ & Hwin).
    rewrite He in He'. injection He' as <-.
    assert (event_ok ev) as Hevok by (by eapply Forall_forall in Hevs).
    destruct (Hwin (first - Z.to_nat (Z.max 0 (e - window_before)))%nat)
      as (span & Hspan & Hw); [lia|].
    exists span. split.
    + apply elem_of_concat. exists out.
      split; by eapply list_elem_of_lookup_2.
    + replace first
        with (Z.to_nat (Z.max 0 (e - window_before))
              + (first - Z.to_nat (Z.max 0 (e - window_before))))%nat at 1 by lia.
      done.
Qed.

(** X10: for a transcript of well-formed turns and events,
    [extract_event_specific_spans] returns windows of five turns of the
    transcript, each of them for an event of the type asked for (case
    apart): the window starts no earlier than [window_before] turns before
    that event and ends at the event turn or before it; and every such
    window is returned. *)
Theorem extract_event_specific_spans_precede (transcript : pydict)
    (turns events : list pydict) (tid event_type : string) (window_before : Z) :
  transcript !! "turns" = Some (VList (VDict <$> turns)) ->
  Forall (fun t => turn_ok t) turns ->
  as_str (dict_get transcript "transcript_id" (VStr "unknown")) = Some tid ->
  transcript !! "events" = Some (VList (VDict <$> events)) ->
  Forall (fun ev => event_ok ev) events ->
  exists spans,
    SpanExtractor.extract_event_specific_spans transcript event_type window_before
    = Some spans /\
    (forall span, span ∈ spans ->
       exists event e (first : nat),
         event ∈ events /\ of_type event_type event = true /\
         event_index event = Some e /\
         transcript_window turns first span /\
         (e - window_before <= Z.of_nat first)%Z /\ (Z.of_nat first + 4 <= e)%Z) /\
    (forall event e (first : nat),
       event ∈ events -> of_type event_type event = true ->
       event_index event = Some e ->
       (e - window_before <= Z.of_nat first)%Z -> (Z.of_nat first + 4 <= e)%Z ->
       (Z.of_nat first + 4 < Z.of_nat (length turns))%Z ->
       exists span, span ∈ spans /\ transcript_window turns first span).
Proof.
  intros Hturns Hok Htid Hevents Hevs.
  destruct (extract_event_specific_spans_total transcript turns events tid event_type
              window_before Hturns Hok Htid Hevents Hevs) as (spans & Hspans & Hsound & Hall).
  exists spans. split; [done|]. split; [|done].
  intros span Hspan.
  destruct (Hsound span Hspan) as (event & e & first & ? & ? & ? & _ & ? & ? & ? & _).
  by exists event, e, first.
Qed.

Lemma extract_event_specific_spans_precede_witness :
  SampleTranscript.transcript !! "turns"
  = Some (VList (VDict <$> SampleTranscript.turn_dicts)) /\
  Forall (fun t => turn_ok t) SampleTranscript.turn_dicts /\
  as_str (dict_get SampleTranscript.transcript "transcript_id" (VStr "unknown"))
  = Some "call-1"%string /\
  SampleTranscript.transcript !! "events"
  = Some (VList (VDict <$> [SampleTranscript.refund_event])) /\
  Forall (fun ev => event_ok ev) [SampleTranscript.refund_event] /\
  exists spans,
    SpanExtractor.extract_event_specific_spans SampleTranscript.transcript "refund" 10
    = Some spans /\
    (forall span, span ∈ spans ->
       exists event e (first : nat),
         event ∈ [SampleTranscript.refund_event] /\ of_type "refund" event = true /\
         event_index event = Some e /\
         transcript_window SampleTranscript.turn_dicts first span /\
         (e - 10 <= Z.of_nat first)%Z /\ (Z.of_nat first + 4 <= e)%Z) /\
    (forall event e (first : nat),
       event ∈ [SampleTranscript.refund_event] -> of_type "refund" event = true ->
       event_index event = Some e ->
       (e - 10 <= Z.of_nat first)%Z -> (Z.of_nat first + 4 <= e)%Z ->
       (Z.of_nat first + 4 < Z.of_nat (length SampleTranscript.turn_dicts))%Z ->
       exists span, span ∈ spans /\
                    transcript_window SampleTranscript.turn_dicts first span).
Proof.
  assert (SampleTranscript.transcript !! "turns"
          = Some (VList (VDict <$> SampleTranscript.turn_dicts))) as Hturns by reflexivity.
  assert (Forall (fun t => turn_ok t) SampleTranscript.turn_dicts) as Hok
    by (apply Forall_forallb; vm_compute; reflexivity).
  assert (as_str (dict_get SampleTranscript.transcript "transcript_id" (VStr "unknown"))
          = Some "call-1"%string) as Htid by reflexivity.
  assert (SampleTranscript.transcript !! "events"
          = Some (VList (VDict <$> [SampleTranscript.refund_event]))) as Hevents
    by reflexivity.
  assert (Forall (fun ev => event_ok ev) [SampleTranscript.refund_event]) as Hevs
    by (apply Forall_forallb; vm_compute; reflexivity).
  do 5 (split; [assumption|]).
  exact (extract_event_specific_spans_precede SampleTranscript.transcript
           SampleTranscript.turn_dicts [SampleTranscript.refund_event] "call-1" "refund" 10
           Hturns Hok Htid Hevents Hevs).
Defined.

(** ** Ranking by proximity *)

Lemma indexed_bounds span :
  indexed span ->
  as_num (dict_get span "start_turn_index" (VNum 0)) = Some (start_of span) /\
  as_num (dict_get span "end_turn_index" (VNum 0)) = Some (end_of span).
Proof.
  unfold indexed, start_of, end_of. intros [Hs He]%andb_prop_elim.
  split; by apply (numeric_field_get _ _ (VNum 0)); [|eexists].
Qed.

Lemma distance_to_indexed e span :
  indexed span -> SpanExtractor.distance_to e span = Some (distance_of e span).
Proof.
  intros [Hs He]%indexed_bounds. unfold SpanExtractor.distance_to, distance_of.
  rewrite He. cbn [mbind option_bind].
  destruct (Qltb (end_of span) e); [done|]. rewrite Hs. cbn [mbind option_bind].
  by destruct (Qltb e (start_of span)).
Qed.

Lemma distance_of_spec e span :
  0 <= distance_of e span /\
  (distance_of e span == 0 <-> start_of span <= e /\ e <= end_of span).
Proof.
  unfold distance_of.
  destruct (Qltb (end_of span) e) eqn:H1.
  - apply Qltb_lt in H1. split; [lra|]. split; [lra | intros [_ ?]; lra].
  - apply Qltb_ge in H1. destruct (Qltb e (start_of span)) eqn:H2.
    + apply Qltb_lt in H2. split; [lra|]. split; [lra | intros [? _]; lra].
    + apply Qltb_ge in H2. split; [lra|]. split; [intros _; split; lra | reflexivity].
Qed.

Lemma annotate_temporal_distance e s :
  indexed s ->
  exists s', PatternDetector.annotate_temporal e s = Some s' /\
             s' !! "temporal_distance" = Some (VNum (distance_of e s)).
Proof.
  intros [Hstart Hend]%indexed_bounds. unfold PatternDetector.annotate_temporal.
  rewrite Hstart, Hend. cbn [mbind option_bind]. eexists. split; [done|].
  lookup_inserts. unfold PatternDetector.temporal_relation_of, distance_of.
  destruct (Qltb (end_of s) e); [done|]. by destruct (Qltb e (start_of s)).
Qed.

Lemma with_distance_key e s s' :
  with_distance e s s' -> SpanExtractor.distance_key s' = Some (distance_of e s).
Proof. intros ->. unfold SpanExtractor.distance_key. by rewrite lookup_insert_eq. Qed.

(** X11: on spans whose turn indices are numbers,
    [rank_spans_by_temporal_proximity] attaches to a copy of every span its
    distance to the event turn and returns the copies closest first, copies
    at the same distance in their input order; the distance is never
    negative, it is 0 exactly for the spans that contain the event turn, and
    it is the distance that [detect_temporal_patterns] attaches. *)
Theorem rank_spans_by_temporal_proximity_closest_first (spans : list pydict) (e : Q) :
  Forall (fun s => indexed s) spans ->
  exists annotated ranked temporal,
    Forall2 (with_distance e) spans annotated /\
    SpanExtractor.rank_spans_by_temporal_proximity spans e = Some ranked /\
    ranked ≡ₚ annotated /\
    StronglySorted (fun a b => distance_in a <= distance_in b) ranked /\
    (forall d, List.filter (fun s => Qeq_bool (distance_in s) d) ranked
               = List.filter (fun s => Qeq_bool (distance_in s) d) annotated) /\
    (forall s, 0 <= distance_of e s /\
               (distance_of e s == 0 <-> start_of s <= e /\ e <= end_of s)) /\
    PatternDetector.detect_temporal_patterns spans e = Some temporal /\
    Forall2 (fun a t => a !! "temporal_distance" = t !! "temporal_distance")
            annotated temporal.
Proof.
  intros Hall. unfold SpanExtractor.rank_spans_by_temporal_proximity.
  set (annotate := fun s : pydict => <["temporal_distance" := VNum (distance_of e s)]> s).
  rewrite (mapM_total _ annotate); last first.
  { eapply Forall_impl; [exact Hall|]. intros s Hs. cbn.
    by rewrite (distance_to_indexed e s Hs). }
  cbn [mbind option_bind].
  assert (Forall2 (with_distance e) spans (annotate <$> spans)) as Hann.
  { apply Forall2_fmap_r, Forall_Forall2_diag, Forall_forall. by intros. }
  assert (Forall (fun s => is_Some (SpanExtractor.distance_key s)) (annotate <$> spans))
    as Hkeys.
  { apply Forall_fmap, Forall_forall. intros s _. cbn.
    unfold SpanExtractor.distance_key, annotate. rewrite lookup_insert_eq. by eexists. }
  destruct (sort_by_key_is_Some false SpanExtractor.distance_key _ Hkeys) as [ranked Hranked].
  assert (exists temporal,
             PatternDetector.detect_temporal_patterns spans e = Some temporal /\
             Forall2 (fun a t => a !! "temporal_distance" = t !! "temporal_distance")
                     (annotate <$> spans) temporal) as (temporal & Htemporal & Hsame).
  { unfold PatternDetector.detect_temporal_patterns.
    destruct (mapM_Forall2_total (PatternDetector.annotate_temporal e)
                (fun s t => t !! "temporal_distance" = Some (VNum (distance_of e s))) spans)
      as (temporal & Ht & Hd).
    { eapply Forall_impl; [exact Hall|]. intros s Hs. by apply annotate_temporal_distance. }
    exists temporal. split; [done|]. apply Forall2_fmap_l.
    eapply Forall2_impl; [exact Hd|]. intros s t Hst. unfold compose. cbv beta in *. rewrite Hst.
    unfold annotate. by rewrite lookup_insert_eq. }
  exists (annotate <$> spans), ranked, temporal.
  split; [done|]. split; [done|].
  split; [by apply sort_by_key_perm in Hranked|].
  split; [by apply sort_by_key_sorted in Hranked|].
  split.
  { intros d. apply (sort_by_key_stable _ _ _ _ _ Hranked).
    intros x y Hx%Qeq_bool_iff Hy%Qeq_bool_iff. unfold distance_in in *. by rewrite Hx, Hy. }
  split; [intros s; apply distance_of_spec|]. done.
Qed.

Lemma rank_spans_by_temporal_proximity_closest_first_witness :
  Forall (fun s => indexed s) SampleTurns.windows /\
  exists annotated ranked temporal,
    Forall2 (with_distance 5) SampleTurns.windows annotated /\
    SpanExtractor.rank_spans_by_temporal_proximity SampleTurns.windows 5 = Some ranked /\
    ranked ≡ₚ annotated /\
    StronglySorted (fun a b => distance_in a <= distance_in b) ranked /\
    (forall d, List.filter (fun s => Qeq_bool (distance_in s) d) ranked
               = List.filter (fun s => Qeq_bool (distance_in s) d) annotated) /\
    (forall s, 0 <= distance_of 5 s /\
               (distance_of 5 s == 0 <-> start_of s <= 5 /\ 5 <= end_of s)) /\
    PatternDetector.detect_temporal_patterns SampleTurns.windows 5 = Some temporal /\
    Forall2 (fun a t => a !! "temporal_distance" = t !! "temporal_distance")
            annotated temporal.
Proof.
  assert (Forall (fun s => indexed s) SampleTurns.windows) as Hall
    by (apply Forall_forallb; vm_compute; reflexivity).
  split; [exact Hall|].
  exact (rank_spans_by_temporal_proximity_closest_first SampleTurns.windows 5 Hall).
Defined.

(** ** The conversation store *)

Section ConversationStore.
Import ContextManager.

(** X12: [get_recent_turns(n)] returns the last n turns of the log for
    n >= 1, the whole log when it has at most n turns; for n = 0 it returns
    the whole log, not the empty list, and for -n it drops the first n
    turns. *)
Theorem get_recent_turns_last (c : ConversationContext) (n : Z) :
  (1 <= n)%Z ->
  get_recent_turns c n = drop (length (turns c) - Z.to_nat n) (turns c) /\
  length (get_recent_turns c n) = Nat.min (Z.to_nat n) (length (turns c)) /\
  get_recent_turns c 0 = turns c /\
  get_recent_turns c (- n) = drop (Z.to_nat n) (turns c).
Proof.
  intros Hn.
  assert (get_recent_turns c n = drop (length (turns c) - Z.to_nat n) (turns c)) as Hlast.
  { unfold get_recent_turns, slice_from, norm_index.
    destruct (n <? Z.of_nat (length (turns c)))%Z eqn:Hlt.
    - apply Z.ltb_lt in Hlt. assert ((- n <? 0)%Z = true) as -> by (apply Z.ltb_lt; lia). f_equal. lia.
    - apply Z.ltb_ge in Hlt. replace (length (turns c) - Z.to_nat n)%nat with 0%nat by lia.
      done. }
  split; [exact Hlast|]. split.
  { rewrite Hlast, length_drop. lia. }
  unfold get_recent_turns, slice_from, norm_index. split.
  - destruct (0 <? Z.of_nat (length (turns c)))%Z; [|done].
    assert ((- 0 <? 0)%Z = false) as -> by lia. done.
  - assert ((- n <? Z.of_nat (length (turns c)))%Z = true) as -> by (apply Z.ltb_lt; lia).
    assert ((- - n <? 0)%Z = false) as -> by lia.
    destruct (decide (Z.to_nat n <= length (turns c))%nat).
    + f_equal. lia.
    + rewrite !drop_ge; [done | lia | lia].
Qed.

Lemma get_recent_turns_last_witness :
  let c := {| conversation_id := "c"; turns := [SampleWorld.first_turn; SampleWorld.first_turn];
              created_at := 0; updated_at := 0; context_metadata := ∅ |} in
  (1 <= 1)%Z /\
  get_recent_turns c 1 = drop (length (turns c) - Z.to_nat 1) (turns c) /\
  length (get_recent_turns c 1) = Nat.min (Z.to_nat 1) (length (turns c)) /\
  get_recent_turns c 0 = turns c /\
  get_recent_turns c (- 1) = drop (Z.to_nat 1) (turns c).
Proof.
  intros c. assert (1 <= 1)%Z as Hn by lia.
  split; [exact Hn|]. exact (get_recent_turns_last c 1 Hn).
Defined.

(** X13: [clear_conversation] forgets the conversation and nothing else:
    afterwards its log is empty and no query is a follow-up of it, the
    other conversations are what they were, and the next [add_turn] under
    the same identifier starts a log of one turn. *)
Theorem clear_conversation_forgets (pf : Platform) (cid : string) (w : World) :
  exists w',
    clear_conversation cid w = (Returned tt, w') /\
    conversations w' !! cid = None /\
    turn_log w' cid = [] /\
    (forall query, is_followup query cid w' = (Returned false, w')) /\
    (forall cid', cid' <> cid -> conversations w' !! cid' = conversations w !! cid') /\
    clock w' = clock w /\
    forall query response metadata, exists turn w'',
      add_turn pf cid query response metadata w' = (Returned tt, w'') /\
      turn_log w'' cid = [turn].
Proof.
  eexists. split; [done|].
  assert (conversations
            (match conversations w !! cid with
             | Some _ => {| conversations := delete cid (conversations w); clock := clock w |}
             | None => w
             end) !! cid = None) as Hgone.
  { destruct (conversations w !! cid) eqn:Hc; cbn; [apply lookup_delete_eq | done]. }
  split; [exact Hgone|].
  split; [by unfold turn_log; rewrite Hgone|].
  split.
  { intros query. unfold is_followup, get_conversations, is_followup_in.
    unfold mbind, M_bind, mret, M_ret. by rewrite Hgone. }
  split.
  { intros cid' Hne. destruct (conversations w !! cid); cbn; [|done].
    by rewrite lookup_delete_ne. }
  split; [by destruct (conversations w !! cid)|].
  intros query response metadata.
  destruct (add_turn_appends pf cid query response metadata
              (match conversations w !! cid with
               | Some _ => {| conversations := delete cid (conversations w); clock := clock w |}
               | None => w
               end)) as (turn & w'' & Hadd & Hlog & _).
  exists turn, w''. split; [done|]. rewrite Hlog. unfold turn_log. by rewrite Hgone.
Qed.

(** X14: [add_turn] never raises and appends exactly one turn, with the
    given query, response and metadata, to the log of its conversation,
    which it creates when needed; [get_context] then returns that
    conversation, its most recent turn is the new one, the other logs are
    unchanged, and from then on a query is a follow-up of the conversation
    exactly when its text looks like one. *)
Theorem add_turn_then_context (pf : Platform) (cid query response : string)
    (metadata : pydict) (w : World) :
  exists turn c w',
    add_turn pf cid query response metadata w = (Returned tt, w') /\
    get_context cid w' = (Returned (Some c), w') /\
    turns c = turn_log w cid ++ [turn] /\
    get_recent_turns c 1 = [turn] /\
    ContextManager.query turn = query /\
    ContextManager.response turn = response /\
    ContextManager.metadata turn = metadata /\
    (forall cid', cid' <> cid -> turn_log w' cid' = turn_log w cid') /\
    forall q, is_followup q cid w' = (Returned (looks_like_followup q), w').
Proof.
  destruct (add_turn_appends pf cid query response metadata w)
    as (turn & w' & Hadd & Hlog & Hq & Hr & Hmd & Hother).
  unfold turn_log in Hlog at 1.
  destruct (conversations w' !! cid) as [c|] eqn:Hc; last first.
  { by destruct (turn_log w cid). }
  exists turn, c, w'. split; [done|].
  split. { unfold get_context, get_conversations, mbind, M_bind, mret, M_ret. by rewrite Hc. }
  split; [done|]. split.
  { destruct (get_recent_turns_last c 1) as [-> _]; [lia|].
    rewrite Hlog, length_app. cbn. rewrite drop_app_length'; [done | lia]. }
  do 4 (split; [done|]).
  intros q. unfold is_followup, get_conversations, is_followup_in, mbind, M_bind, mret, M_ret.
  rewrite Hc, Hlog. by destruct (turn_log w cid).
Qed.

End ConversationStore.

(** ** The orchestrator *)

Section Orchestrator.
Import ContextManager.

(** The routing of [process_query] depends on the follow-up decision alone,
    and the initial path ends where the initial-query processor raises. *)
Lemma task2_route cs query cid context w :
  Task2Processor.process_query cs query (Some cid) context w
  = if followup_decision w query cid
    then (result ← FollowUpProcessor.process_followup cs query cid context;
          lift (FollowUpProcessor.format_response result)) w
    else Task1Processor.process_query cs query w.
Proof.
  unfold Task2Processor.process_query, followup_decision.
  rewrite (bind_step (mret cid) _ w cid w eq_refl).
  rewrite (bind_step (is_followup query cid) _ w
             (is_followup_in (conversations w) query cid) w eq_refl).
  rewrite (bind_step (get_context cid) _ w (conversations w !! cid) w eq_refl).
  destruct (is_followup_in (conversations w) query cid) eqn:Hf.
  - assert (Task2Processor.has_context context (conversations w !! cid) = true) as ->; [|done].
    unfold is_followup_in in Hf. destruct (conversations w !! cid); [|done].
    unfold Task2Processor.has_context.
    destruct context as [[|]|]; by rewrite ?bool_decide_eq_true_2.
  - cbn [andb]. unfold mbind at 1, M_bind at 1.
    by destruct (task1_process_query_raises cs query w) as [e ->].
Qed.

Lemma process_followup_flag cs query cid context w resp w' :
  FollowUpProcessor.process_followup cs query cid context w = (Returned resp, w') ->
  FollowUpProcessor.r_is_followup resp = followup_decision w query cid.
Proof.
  unfold FollowUpProcessor.process_followup. intros H.
  apply bind_Returned in H as (ctx & w1 & Hctx & H).
  apply followup_context_step in Hctx as [-> ->].
  apply bind_Returned in H as (isf & w2 & Hisf & H).
  assert (isf = followup_decision w query cid /\ w2 = w) as [-> ->]
    by (by injection Hisf as <- <-).
  do 6 (apply bind_Returned in H as (? & ? & _ & H)).
  apply bind_Returned in H as ([] & ? & _ & H). by injection H as <- _.
Qed.

Lemma followup_format_metadata result d :
  FollowUpProcessor.format_response result = Some d ->
  exists md, d !! "metadata" = Some (VDict md) /\
             md !! "is_followup" = Some (VBool (FollowUpProcessor.r_is_followup result)) /\
             md !! "conversation_id" = None.
Proof.
  unfold FollowUpProcessor.format_response.
  destruct (mapM _ _) as [entries|]; [|done]. intros [= <-].
  eexists. split; [by lookup_inserts|]. split; by lookup_inserts.
Qed.

(** X15: the initial-query processor never returns.  The dictionary that
    [generate_structured_explanation] returns holds the explanation under
    [full_explanation] and has no key [explanation], which [process_query]
    reads first; so [process_query] raises also when parsing, retrieval,
    analysis and generation have all succeeded, and it leaves the world as
    it was. *)
Theorem task1_process_query_never_returns (cs : Collaborators) (query : string)
    (w : World) :
  (exists e, Task1Processor.process_query cs query w = (Raised e, w)) /\
  (forall top_k event_type structured w',
     ExplanationGenerator.generate_structured_explanation cs query top_k event_type w
     = (Returned structured, w') ->
     w' = w /\
     structured !! "explanation" = None /\
     exists text, structured !! "full_explanation" = Some (VStr text)) /\
  (forall c r,
     initial_explanation_call cs query w = (Returned c, w) ->
     explanation_outcome cs c = Returned r ->
     Task1Processor.process_query cs query w = (Raised PyError, w)).
Proof.
  split; [apply task1_process_query_raises|]. split.
  - intros top_k event_type structured w'.
    unfold ExplanationGenerator.generate_structured_explanation,
      ExplanationGenerator.generate_explanation.
    unfold mbind, M_bind, call, lift, mret, M_ret.
    destruct (retrieve cs query 20 top_k) as [retrieved|e]; [|done].
    destruct (CausalAnalyzer.analyze_causal_spans _ _ _ _ _ _) as [analyzed|]; [|done].
    destruct (generate_with_citations cs query analyzed None) as [r|e]; [|done].
    unfold subscript. lookup_inserts. cbn. intros [= <- <-].
    split; [done|]. split; [by lookup_inserts|]. eexists. by lookup_inserts.
  - intros c r Hcall Hout. by rewrite task1_process_query_run, Hcall, Hout.
Qed.

(** X16: a request that [process_query] answers was routed as a follow-up,
    and it recorded exactly one turn, in the conversation it names: the turn
    holds the query and the query as enhanced, and its metadata and the
    metadata of the response both say that the query was a follow-up; the
    response does not name the conversation. *)
Theorem task2_answer_records_one_turn (cs : Collaborators) (query cid : string)
    (context : option (list pydict)) (w w' : World) (d : pydict) :
  Task2Processor.process_query cs query (Some cid) context w = (Returned d, w') ->
  followup_decision w query cid = true /\
  exists md turn,
    d !! "metadata" = Some (VDict md) /\
    md !! "is_followup" = Some (VBool true) /\
    md !! "conversation_id" = None /\
    turn_log w' cid = turn_log w cid ++ [turn] /\
    ContextManager.query turn = query /\
    ContextManager.metadata turn !! "is_followup" = Some (VBool true) /\
    is_Some (ContextManager.metadata turn !! "enhanced_query") /\
    forall cid', cid' <> cid -> turn_log w' cid' = turn_log w cid'.
Proof.
  rewrite task2_route. destruct (followup_decision w query cid) eqn:Hdec; intros H.
  2: { by destruct (task1_process_query_raises cs query w) as [e He]; rewrite He in H. }
  split; [done|].
  apply bind_Returned in H as (resp & w1 & Hrun & H).
  apply lift_Returned in H as [Hfmt ->].
  pose proof (process_followup_flag _ _ _ _ _ _ _ Hrun) as Hflag. rewrite Hdec in Hflag.
  destruct (process_followup_Returned _ _ _ _ _ _ _ Hrun)
    as (_ & _ & _ & turn & Hlog & Hq & _ & Hmd & Hother).
  destruct (followup_format_metadata _ _ Hfmt) as (md & Hd & Hmdf & Hnocid).
  exists md, turn. split; [done|]. split; [by rewrite Hmdf, Hflag|].
  split; [done|]. split; [done|]. split; [done|]. rewrite Hmd, Hflag.
  unfold FollowUpProcessor.turn_metadata. split; [by lookup_inserts|].
  split; [|done]. lookup_inserts. by eexists.
Qed.

(** X17: when the query is no follow-up of the conversation, the context
    handed to [process_query] has no effect on what it does. *)
Theorem task2_context_ignored_unless_followup (cs : Collaborators) (query cid : string)
    (context context' : option (list pydict)) (w : World) :
  followup_decision w query cid = false ->
  Task2Processor.process_query cs query (Some cid) context w
  = Task2Processor.process_query cs query (Some cid) context' w.
Proof. intros Hdec. rewrite !task2_route. by rewrite Hdec. Qed.

(** X18: a query that is no follow-up of its conversation is never
    answered: [process_query] raises and leaves the world as it was, so that
    no turn is recorded and no identifier or time stamp is drawn; this is
    the case of every query to a conversation without turns, which
    therefore never receives its first turn from [process_query]. *)
Theorem task2_initial_query_raises (cs : Collaborators) (query cid : string)
    (context : option (list pydict)) (w : World) :
  (followup_decision w query cid = false ->
   exists e, Task2Processor.process_query cs query (Some cid) context w = (Raised e, w)) /\
  (turn_log w cid = [] ->
   followup_decision w query cid = false /\
   exists e, Task2Processor.process_query cs query (Some cid) context w = (Raised e, w)).
Proof.
  assert (followup_decision w query cid = false ->
          exists e, Task2Processor.process_query cs query (Some cid) context w
                    = (Raised e, w)) as Hraises.
  { intros Hdec. rewrite task2_route, Hdec. apply task1_process_query_raises. }
  split; [done|]. intros Hlog.
  assert (followup_decision w query cid = false) as Hdec; [|by split; [|apply Hraises]].
  unfold followup_decision, is_followup_in. unfold turn_log in Hlog.
  destruct (conversations w !! cid); [by rewrite Hlog | done].
Qed.

End Orchestrator.

Lemma task2_answer_records_one_turn_witness :
  Task2Processor.process_query SampleWorld.answering "what about that?"
    (Some "c"%string) None SampleWorld.one_turn
  = (Returned SampleRun.followup_answer, SampleRun.followup_world) /\
  followup_decision SampleWorld.one_turn "what about that?" "c" = true /\
  exists md turn,
    SampleRun.followup_answer !! "metadata" = Some (VDict md) /\
    md !! "is_followup" = Some (VBool true) /\
    md !! "conversation_id" = None /\
    ContextManager.turn_log SampleRun.followup_world "c"
    = ContextManager.turn_log SampleWorld.one_turn "c" ++ [turn] /\
    ContextManager.query turn = "what about that?"%string /\
    ContextManager.metadata turn !! "is_followup" = Some (VBool true) /\
    is_Some (ContextManager.metadata turn !! "enhanced_query") /\
    forall cid', cid' <> "c"%string ->
      ContextManager.turn_log SampleRun.followup_world cid'
      = ContextManager.turn_log SampleWorld.one_turn cid'.
Proof.
  assert (Task2Processor.process_query SampleWorld.answering "what about that?"
            (Some "c"%string) None SampleWorld.one_turn
          = (Returned SampleRun.followup_answer, SampleRun.followup_world)) as Hrun
    by reflexivity.
  split; [exact Hrun|].
  exact (task2_answer_records_one_turn SampleWorld.answering "what about that?" "c" None
           SampleWorld.one_turn SampleRun.followup_world SampleRun.followup_answer Hrun).
Defined.

Lemma task2_context_ignored_unless_followup_witness :
  followup_decision SampleWorld.one_turn "why do customers ask for a refund so frequently" "c"
  = false /\
  Task2Processor.process_query SampleWorld.answering
    "why do customers ask for a refund so frequently" (Some "c"%string)
    (Some SampleWorld.evidence) SampleWorld.one_turn
  = Task2Processor.process_query SampleWorld.answering
      "why do customers ask for a refund so frequently" (Some "c"%string)
      None SampleWorld.one_turn.
Proof.
  assert (followup_decision SampleWorld.one_turn
            "why do customers ask for a refund so frequently" "c" = false) as Hdec
    by (vm_compute; reflexivity).
  split; [exact Hdec|].
  exact (task2_context_ignored_unless_followup SampleWorld.answering
           "why do customers ask for a refund so frequently" "c"
           (Some SampleWorld.evidence) None SampleWorld.one_turn Hdec).
Defined.

Lemma task2_initial_query_raises_witness :
  followup_decision SampleWorld.one_turn "why do customers ask for a refund so frequently" "c"
  = false /\
  exists e,
    Task2Processor.process_query SampleWorld.answering
      "why do customers ask for a refund so frequently" (Some "c"%string) None
      SampleWorld.one_turn
    = (Raised e, SampleWorld.one_turn).
Proof.
  assert (followup_decision SampleWorld.one_turn
            "why do customers ask for a refund so frequently" "c" = false) as Hdec
    by (vm_compute; reflexivity).
  split; [exact Hdec|].
  exact (proj1 (task2_initial_query_raises SampleWorld.answering
                  "why do customers ask for a refund so frequently" "c" None
                  SampleWorld.one_turn) Hdec).
Defined.

(** ** Formatting *)

Lemma str_take_length n s : (String.length (str_take n s) <= n)%nat.
Proof.
  unfold str_take. revert s. induction n as [|n IH]; intros [|c s]; cbn; try lia.
  specialize (IH s). lia.
Qed.

Lemma str_take_prefix n s : String.prefix (str_take n s) s = true.
Proof.
  unfold str_take. revert s. induction n as [|n IH]; intros [|c s]; cbn; try done.
  destruct (Ascii.ascii_dec c c); [apply IH | done].
Qed.

Lemma format_evidence_entry_spec i span :
  formattable span ->
  exists entry, format_evidence_entry (S i) span = Some entry /\
                formatted_entry i span entry.
Proof.
  unfold formattable, has_text. intros [Htext Hmd]%andb_prop_elim.
  unfold format_evidence_entry.
  assert (value_take 500 (dict_get span "text" (VStr ""))
          = Some (VStr (str_take 500 (raw_text span)))) as ->.
  { unfold dict_get, raw_text. by destruct (span !! "text") as [[]|]. }
  cbn [mbind option_bind].
  assert (is_Some (as_dict (dict_get span "metadata" (VDict ∅)))) as [md ->].
  { unfold dict_get. destruct (span !! "metadata") as [[]|]; by eauto. }
  cbn [mbind option_bind]. eexists. split; [done|].
  split; [by lookup_inserts|]. split; [by lookup_inserts|].
  split; [apply str_take_length|]. split; [apply str_take_prefix|].
  split; by lookup_inserts.
Qed.

Lemma imap_pairs_lookup {A} (l : list A) i x :
  imap (fun i x => (i, x)) l !! i = Some x -> fst x = i /\ l !! i = Some (snd x).
Proof.
  rewrite list_lookup_imap. destruct (l !! i) as [y|]; [|done]. by intros [= <-].
Qed.

Lemma slice_to_ten {A} (l : list A) : slice_to 10 l = take 10 l.
Proof.
  unfold slice_to, norm_index. change (10 <? 0)%Z with false.
  change (Z.to_nat 10) with 10%nat.
  destruct (decide (10 <= length l)%nat).
  - by rewrite Nat.min_l.
  - rewrite Nat.min_r by lia. by rewrite !take_ge by lia.
Qed.

Lemma formatted_entries (f : nat -> pydict -> option pydict) (evidence : list pydict)
    (Q : nat -> pydict -> pydict -> Prop) :
  (forall i span, evidence !! i = Some span -> (i < 10)%nat ->
                  exists entry, f (S i) span = Some entry /\ Q i span entry) ->
  exists entries,
    mapM (fun ispan => f (S (fst ispan)) (snd ispan))
         (imap (fun i span => (i, span)) (slice_to 10 evidence)) = Some entries /\
    length entries = Nat.min 10 (length evidence) /\
    forall i entry, entries !! i = Some entry ->
      exists span, evidence !! i = Some span /\ Q i span entry.
Proof.
  intros Hf. rewrite slice_to_ten.
  destruct (mapM_Forall2_total
              (fun ispan : nat * pydict => f (S (fst ispan)) (snd ispan))
              (fun ispan entry => Q (fst ispan) (snd ispan) entry)
              (imap (fun i span => (i, span)) (take 10 evidence)))
    as (entries & Hentries & Hall).
  { apply Forall_forall. intros [i span] Hin.
    apply list_elem_of_lookup in Hin as [j Hj].
    apply imap_pairs_lookup in Hj as [Hi Hspan]. cbn in Hi, Hspan. subst j.
    assert (i < 10)%nat as Hlt.
    { apply lookup_lt_Some in Hspan. rewrite length_take in Hspan. lia. }
    rewrite lookup_take_lt in Hspan by done. by apply Hf. }
  exists entries. split; [done|]. split.
  { rewrite <- (Forall2_length _ _ _ Hall), length_imap, length_take. lia. }
  intros i entry Hentry.
  destruct (Forall2_lookup_r _ _ _ _ _ Hall Hentry) as ([j span] & Hj & HQ).
  apply imap_pairs_lookup in Hj as [Hi Hspan]. cbn in Hi, Hspan, HQ. subst j.
  assert (i < 10)%nat as Hlt.
  { apply lookup_lt_Some in Hspan. rewrite length_take in Hspan. lia. }
  rewrite lookup_take_lt in Hspan by done. by exists span.
Qed.

(** X19: on a result of the shape that [process_query] would build, whose
    evidence can be formatted, the [format_response] of the initial-query
    processor returns a response with one evidence entry for each of the
    first ten spans, in their order: entry i is numbered i + 1 and holds the
    first 500 characters of the text of span i, its evidence score and its
    turn ids; the response is the full explanation, and the metadata carries
    the evidence count of the result and the event type of its parsed
    query. *)
Theorem task1_format_response_top_ten (result : pydict) (evidence : list pydict)
    (parsed_query : pydict) :
  initial_result result evidence parsed_query ->
  Forall (fun s => formattable s) evidence ->
  exists d metadata,
    Task1Processor.format_response result = Some d /\
    formatted_evidence evidence d /\
    d !! "response" = result !! "full_explanation" /\
    d !! "metadata" = Some (VDict metadata) /\
    metadata !! "evidence_count" = result !! "evidence_count" /\
    metadata !! "event_type" = Some (dict_get parsed_query "event_type" VNone).
Proof.
  intros (Hev & Hpq & [v1 H1] & [v2 H2] & [v3 H3] & [v4 H4] & [v5 H5] & [v6 H6] & [v7 H7])
    Hall.
  unfold Task1Processor.format_response, subscript.
  rewrite Hev, Hpq, H1, H2, H3, H4, H5, H6, H7.
  cbn [mbind option_bind value_take as_iter as_dict].
  rewrite <- fmap_take, mapM_as_dict. cbn [mbind option_bind].
  rewrite <- slice_to_ten.
  destruct (formatted_entries Task1Processor.format_evidence_entry evidence formatted_entry)
    as (entries & -> & Hlen & Hentries).
  { intros i span Hspan _. unfold Task1Processor.format_evidence_entry.
    destruct (format_evidence_entry_spec i span) as (entry & -> & He);
      [by eapply Forall_lookup_1 in Hall|].
    cbn [mbind option_bind]. eexists. split; [done|].
    destruct He as (? & ? & ? & ? & ? & ?).
    repeat split; by lookup_inserts. }
  cbn [mbind option_bind]. eexists _, _. split; [done|].
  split; [exists entries; split; [by lookup_inserts | done]|].
  split; [by lookup_inserts|]. split; [by lookup_inserts|].
  split; by lookup_inserts.
Qed.

(** X20: on evidence that can be formatted, the [format_response] of the
    follow-up processor returns a response whose evidence list is built in
    the same way, and whose metadata carries the follow-up flag, the
    enhanced query and the number of context turns of the result. *)
Theorem followup_format_response_top_ten (result : FollowUpProcessor.Result) :
  Forall (fun s => formattable s) (FollowUpProcessor.r_evidence result) ->
  exists d metadata,
    FollowUpProcessor.format_response result = Some d /\
    formatted_evidence (FollowUpProcessor.r_evidence result) d /\
    d !! "response" = Some (VStr (FollowUpProcessor.r_explanation result)) /\
    d !! "metadata" = Some (VDict metadata) /\
    metadata !! "is_followup" = Some (VBool (FollowUpProcessor.r_is_followup result)) /\
    metadata !! "enhanced_query"
    = Some (VStr (FollowUpProcessor.r_enhanced_query result)) /\
    metadata !! "context_turns"
    = Some (VNum (num_of_nat (FollowUpProcessor.r_context_turns result))).
Proof.
  intros Hall. unfold FollowUpProcessor.format_response.
  destruct (formatted_entries format_evidence_entry
              (FollowUpProcessor.r_evidence result) formatted_entry)
    as (entries & -> & Hlen & Hentries).
  { intros i span Hspan _. apply format_evidence_entry_spec.
    by eapply Forall_lookup_1 in Hall. }
  cbn [mbind option_bind]. eexists _, _. split; [done|].
  split; [exists entries; split; [by lookup_inserts | done]|].
  split; [by lookup_inserts|]. split; [by lookup_inserts|].
  repeat split; by lookup_inserts.
Qed.

Lemma task1_format_response_top_ten_witness :
  initial_result SampleResult.initial SampleWorld.evidence
    (<["event_type" := VStr "escalation"]> ∅) /\
  Forall (fun s => formattable s) SampleWorld.evidence /\
  exists d metadata,
    Task1Processor.format_response SampleResult.initial = Some d /\
    formatted_evidence SampleWorld.evidence d /\
    d !! "response" = SampleResult.initial !! "full_explanation" /\
    d !! "metadata" = Some (VDict metadata) /\
    metadata !! "evidence_count" = SampleResult.initial !! "evidence_count" /\
    metadata !! "event_type"
    = Some (dict_get (<["event_type" := VStr "escalation"]> ∅) "event_type" VNone).
Proof.
  assert (initial_result SampleResult.initial SampleWorld.evidence
            (<["event_type" := VStr "escalation"]> ∅)) as Hres.
  { split; [reflexivity|]. split; [reflexivity|]. repeat split; eexists; reflexivity. }
  assert (Forall (fun s => formattable s) SampleWorld.evidence)
    as Hall by (apply Forall_forallb; vm_compute; reflexivity).
  split; [exact Hres|]. split; [exact Hall|].
  exact (task1_format_response_top_ten SampleResult.initial SampleWorld.evidence
           (<["event_type" := VStr "escalation"]> ∅) Hres Hall).
Defined.

Lemma followup_format_response_top_ten_witness :
  Forall (fun s => formattable s) (FollowUpProcessor.r_evidence SampleResult.followup) /\
  exists d metadata,
    FollowUpProcessor.format_response SampleResult.followup = Some d /\
    formatted_evidence (FollowUpProcessor.r_evidence SampleResult.followup) d /\
    d !! "response" = Some (VStr (FollowUpProcessor.r_explanation SampleResult.followup)) /\
    d !! "metadata" = Some (VDict metadata) /\
    metadata !! "is_followup"
    = Some (VBool (FollowUpProcessor.r_is_followup SampleResult.followup)) /\
    metadata !! "enhanced_query"
    = Some (VStr (FollowUpProcessor.r_enhanced_query SampleResult.followup)) /\
    metadata !! "context_turns"
    = Some (VNum (num_of_nat (FollowUpProcessor.r_context_turns SampleResult.followup))).
Proof.
  assert (Forall (fun s => formattable s) (FollowUpProcessor.r_evidence SampleResult.followup))
    as Hall by (apply Forall_forallb; vm_compute; reflexivity).
  split; [exact Hall|].
  exact (followup_format_response_top_ten SampleResult.followup Hall).
Defined.

(** ** The analysis pipeline *)

Lemma Forall2_Permutation {A B} (P : A -> B -> Prop) (l l' : list A) (k : list B) :
  l ≡ₚ l' -> Forall2 P l k -> exists k', k ≡ₚ k' /\ Forall2 P l' k'.
Proof.
  intros Hperm. revert k.
  induction Hperm as [|x l l' _ IH|x y l|l l' l'' _ IH1 _ IH2]; intros k Hk.
  - inversion_clear Hk. by exists [].
  - inversion_clear Hk as [|? b ? k0 Hx Hl]. destruct (IH _ Hl) as (k' & Hp & Hf).
    exists (b :: k'). split; [by constructor | by constructor].
  - inversion_clear Hk as [|? b ? k0 Hy Hl]. inversion_clear Hl as [|? c ? k1 Hx Hl'].
    exists (c :: b :: k1). split; [apply perm_swap | by repeat constructor].
  - destruct (IH1 _ Hk) as (k' & Hp & Hf). destruct (IH2 _ Hf) as (k'' & Hp' & Hf').
    exists k''. split; [by etrans | done].
Qed.

Ltac unfold_keys :=
  cbv [pattern_keys temporal_keys sequential_keys evidence_keys analysis_keys app].

Ltac not_in_keys :=
  let H := fresh in
  unfold_keys; intros H;
  repeat (apply elem_of_cons in H as [H|H]; [discriminate H|]);
  by apply elem_of_nil in H.

Ltac other_key Hk :=
  let E := fresh in
  intros E; subst; apply Hk; unfold_keys; repeat constructor.

Lemma carried_refl keys s : carried keys s s.
Proof. by intros k _. Qed.

Lemma carried_trans keys s1 s2 s3 :
  carried keys s1 s2 -> carried keys s2 s3 -> carried keys s1 s3.
Proof. intros H12 H23 k Hk. by rewrite H23, H12. Qed.

Lemma carried_weaken keys keys' s s' :
  (forall k, k ∈ keys -> k ∈ keys') -> carried keys s s' -> carried keys' s s'.
Proof. intros Hsub H k Hk. apply H. intros Hin. by apply Hk, Hsub. Qed.

Lemma carried_numeric_field keys s s' k :
  carried keys s s' -> k ∉ keys -> numeric_field s' k = numeric_field s k.
Proof. intros H Hk. unfold numeric_field. by rewrite (H k Hk). Qed.

Lemma carried_num_field keys s s' k dflt :
  carried keys s s' -> k ∉ keys -> num_field s' k dflt = num_field s k dflt.
Proof. intros H Hk. unfold num_field. by rewrite (H k Hk). Qed.

Lemma detect_patterns_keys span event_type p :
  PatternDetector.detect_patterns span event_type = Some p ->
  forall k, k ∉ pattern_keys -> p !! k = None.
Proof.
  unfold PatternDetector.detect_patterns. intros H k Hk.
  destruct (as_str _) as [text|]; [|done]. cbn [fmap option_fmap option_map mbind option_bind] in H.
  destruct (PatternDetector.calculate_pattern_score _) as [score|]; [|done].
  injection H as <-.
  by repeat (rewrite lookup_insert_ne by (other_key Hk)).
Qed.

(** The first stage: the detected patterns are laid over a copy of the
    span. *)
Lemma analysis_patterns event_type span :
  has_text span ->
  exists s1,
    (patterns ← PatternDetector.detect_patterns span event_type; Some (patterns ∪ span))
    = Some s1 /\
    carried pattern_keys span s1 /\
    s1 !! "pattern_score" = Some (VNum (detected_pattern_score event_type span)) /\
    0 <= detected_pattern_score event_type span /\
    detected_pattern_score event_type span <= 1.
Proof.
  intros Htext.
  destruct (detect_patterns_result span event_type Htext) as (p & Hp & Hres).
  destruct Hres as (? & ? & ? & ? & ? & score & _ & _ & _ & _ & _ & _ & _ & _ & _ & _ &
                    Hscore & _ & _ & Hlo & Hhi).
  assert (detected_pattern_score event_type span = score) as ->.
  { unfold detected_pattern_score. rewrite Hp. change (default ∅ (Some p)) with p.
    unfold num_field. by rewrite Hscore. }
  rewrite Hp. cbn [mbind option_bind].
  eexists. split; [done|]. split.
  { intros k Hk. apply lookup_union_r. by eapply detect_patterns_keys. }
  split; [|done]. by rewrite (lookup_union_l' _ _ _ (mk_is_Some _ _ Hscore)).
Qed.

Lemma carried_indexed keys s s' :
  carried keys s s' -> "start_turn_index"%string ∉ keys -> "end_turn_index"%string ∉ keys ->
  indexed s' = indexed s /\ start_of s' = start_of s /\ end_of s' = end_of s.
Proof.
  intros H Hs He. unfold indexed, start_of, end_of.
  by rewrite !(carried_numeric_field keys s s'), !(carried_num_field keys s s').
Qed.

(** The second stage, for an event turn [e]. *)
Lemma analysis_temporal e s1 :
  indexed s1 ->
  exists s2,
    PatternDetector.annotate_temporal e s1 = Some s2 /\
    carried temporal_keys s1 s2 /\
    s2 !! "temporal_score"
    = Some (VNum (PatternDetector.temporal_score_of (distance_of e s1))).
Proof.
  intros [Hstart Hend]%indexed_bounds. unfold PatternDetector.annotate_temporal.
  rewrite Hstart, Hend. cbn [mbind option_bind]. eexists. split; [done|]. split.
  - intros k Hk. by repeat (rewrite lookup_insert_ne by (other_key Hk)).
  - rewrite lookup_insert_eq. do 3 f_equal.
    unfold PatternDetector.temporal_relation_of, distance_of.
    destruct (Qltb (end_of s1) e); [done|]. by destruct (Qltb e (start_of s1)).
Qed.

(** The third stage. *)
Lemma analysis_sequential (l : list pydict) :
  Forall (fun s => indexed s) l ->
  exists sorted out,
    PatternDetector.detect_sequential_patterns l = Some out /\
    sorted ≡ₚ l /\
    Forall2 (carried sequential_keys) sorted out.
Proof.
  intros Hall. unfold PatternDetector.detect_sequential_patterns.
  destruct (length l <? 2)%nat.
  { exists l, l. split; [done|]. split; [done|].
    apply Forall_Forall2_diag, Forall_forall. intros s _. apply carried_refl. }
  destruct (sort_by_key_is_Some false PatternDetector.start_key l) as [sorted Hsorted].
  { eapply Forall_impl; [exact Hall|]. apply indexed_start_key. }
  rewrite Hsorted. cbn [mbind option_bind].
  pose proof (sort_by_key_perm _ _ _ _ Hsorted) as Hperm.
  assert (Forall (fun s => indexed s) sorted) as Hall' by (by rewrite Hperm).
  destruct (annotate_all_sequential sorted Hall') as (out & Hout & Hlen & Hlookup).
  exists sorted, out. split; [done|]. split; [done|].
  apply Forall2_same_length_lookup. split; [done|].
  intros i s s' Hs Hs'. rewrite (Hlookup i s Hs) in Hs'. injection Hs' as <-.
  intros k Hk. by repeat (rewrite lookup_insert_ne by (other_key Hk)).
Qed.

Lemma Forall2_compose {A B C} (P : A -> B -> Prop) (Q : B -> C -> Prop)
    (R : A -> C -> Prop) l k m :
  (forall x y z, P x y -> Q y z -> R x z) ->
  Forall2 P l k -> Forall2 Q k m -> Forall2 R l m.
Proof.
  intros HR Hlk. revert m. induction Hlk as [|x y l k Hxy _ IH]; intros m Hkm.
  - inversion_clear Hkm. constructor.
  - inversion_clear Hkm. constructor; [by eapply HR | by apply IH].
Qed.

Lemma mapM_Forall2_chain {A B C} (f : B -> option C) (P : A -> B -> Prop)
    (Q : A -> C -> Prop) (l : list A) (k : list B) :
  Forall2 P l k ->
  (forall a b, a ∈ l -> P a b -> exists c, f b = Some c /\ Q a c) ->
  exists m, mapM f k = Some m /\ Forall2 Q l m.
Proof.
  induction 1 as [|a b l k Hab _ IH]; intros Hf; [by exists []|].
  destruct (Hf a b) as (c & Hc & HQ); [by left | done |].
  destruct IH as (m & Hm & HQs); [intros ? ? ?; apply Hf; by right|].
  exists (c :: m). cbn. rewrite Hc, Hm. split; [done | by constructor].
Qed.

Section Pipeline.
Variables (scorer : EvidenceScorer.t) (event_type : option string).
Variable event_turn_index : option Q.

Lemma analyzable_parts s :
  analyzable event_turn_index s ->
  has_text s /\ indexed s /\ numeric_field s "relevance_score" /\
  numeric_field s "combined_score" /\ numeric_field s "similarity_score" /\
  (event_turn_index = None -> numeric_field s "temporal_score").
Proof.
  unfold analyzable. rewrite !andb_True. intros [[[[[? ?] ?] ?] ?] Ht].
  repeat (split; [done|]). by intros ->.
Qed.

Lemma partly_analyzed_patterns s :
  analyzable event_turn_index s ->
  exists s1,
    (patterns ← PatternDetector.detect_patterns s event_type; Some (patterns ∪ s)) = Some s1 /\
    partly_analyzed event_type None pattern_keys s s1.
Proof.
  intros (Htext & _)%analyzable_parts.
  destruct (analysis_patterns event_type s Htext) as (s1 & Hs1 & Hc & Hp & _).
  exists s1. split; [done|]. split; [done|]. split; [done|].
  apply Hc. not_in_keys.
Qed.

Lemma partly_analyzed_indexed e keys s s' :
  partly_analyzed event_type e keys s s' ->
  "start_turn_index"%string ∉ keys -> "end_turn_index"%string ∉ keys ->
  indexed s' = indexed s /\ start_of s' = start_of s /\ end_of s' = end_of s.
Proof. intros (Hc & _). by apply carried_indexed. Qed.

Lemma distance_of_ext e s s' :
  start_of s' = start_of s -> end_of s' = end_of s -> distance_of e s' = distance_of e s.
Proof. unfold distance_of. by intros -> ->. Qed.

Lemma partly_analyzed_temporal s s1 :
  analyzable event_turn_index s ->
  partly_analyzed event_type None pattern_keys s s1 ->
  exists s2,
    match event_turn_index with
    | Some e => PatternDetector.annotate_temporal e s1
    | None => Some s1
    end = Some s2 /\
    partly_analyzed event_type event_turn_index (pattern_keys ++ temporal_keys) s s2.
Proof.
  intros (_ & Hidx & _)%analyzable_parts Hs1.
  destruct (partly_analyzed_indexed None pattern_keys s s1 Hs1) as (Hi & Hstart & Hend);
    [not_in_keys | not_in_keys |].
  destruct Hs1 as (Hc & Hp & Ht).
  destruct event_turn_index as [e|].
  - destruct (analysis_temporal e s1) as (s2 & Hs2 & Hc2 & Ht2); [by rewrite Hi|].
    exists s2. split; [done|]. split; [|split].
    + intros k Hk. rewrite (Hc2 k), (Hc k); [done | |];
        intros Hin; apply Hk; rewrite elem_of_app; tauto.
    + rewrite (Hc2 "pattern_score"%string); [done | not_in_keys].
    + by rewrite Ht2, (distance_of_ext e s s1).
  - exists s1. split; [done|]. split; [|done].
    eapply carried_weaken; [|exact Hc]. intros k Hk. apply elem_of_app. by left.
Qed.

Lemma partly_analyzed_sequential s s2 s3 :
  partly_analyzed event_type event_turn_index (pattern_keys ++ temporal_keys) s s2 ->
  carried sequential_keys s2 s3 ->
  partly_analyzed event_type event_turn_index
    (pattern_keys ++ temporal_keys ++ sequential_keys) s s3.
Proof.
  intros (Hc & Hp & Ht) Hc3. split; [|split].
  - intros k Hk. rewrite (Hc3 k), (Hc k); [done | |];
      intros Hin; apply Hk; rewrite !elem_of_app in *; tauto.
  - rewrite (Hc3 "pattern_score"%string); [done | not_in_keys].
  - rewrite (Hc3 "temporal_score"%string); [done | not_in_keys].
Qed.

Lemma partly_analyzed_scored s s3 :
  analyzable event_turn_index s ->
  partly_analyzed event_type event_turn_index
    (pattern_keys ++ temporal_keys ++ sequential_keys) s s3 ->
  exists s4,
    EvidenceScorer.score_span scorer s3 = Some s4 /\
    analyzed scorer event_type event_turn_index s s4.
Proof.
  intros (Htext & _ & Hrel & Hcomb & Hsim & Htemp)%analyzable_parts (Hc & Hp & Ht).
  assert (forall k, k ∉ analysis_keys -> s3 !! k = s !! k) as Hc'.
  { intros k Hk. apply Hc. intros Hin. apply Hk. unfold analysis_keys.
    rewrite !elem_of_app in *. tauto. }
  assert (s3 !! "relevance_score" = s !! "relevance_score") as Erel
    by (apply Hc; not_in_keys).
  assert (s3 !! "combined_score" = s !! "combined_score") as Ecomb
    by (apply Hc; not_in_keys).
  assert (s3 !! "similarity_score" = s !! "similarity_score") as Esim
    by (apply Hc; not_in_keys).
  assert (num_field s3 "temporal_score" 0.5 = analyzed_temporal_score event_turn_index s)
    as Etemp.
  { unfold num_field, analyzed_temporal_score. rewrite Ht. by destruct event_turn_index. }
  assert (well_scored s3) as Hws.
  { unfold well_scored, numeric_field. rewrite Erel, Ecomb, Esim, Hp, Ht.
    fold (numeric_field s "relevance_score") (numeric_field s "combined_score")
         (numeric_field s "similarity_score").
    rewrite !andb_True. repeat split; try done.
    destruct event_turn_index; [done|]. by apply Htemp. }
  destruct (score_span_well_scored scorer s3 Hws) as (s4 & Hs4 & Hcopy & Hev).
  destruct (analysis_patterns event_type s Htext) as (_ & _ & _ & _ & Hlo & Hhi).
  exists s4. split; [done|]. split; [|split; [|split; [done|split; [done|split]]]].
  - intros k Hk. rewrite Hcopy, Hc'; [done | done | |]; other_key Hk.
  - rewrite Hcopy, Hp; done.
  - intros [e He]. rewrite Hcopy by done. rewrite Ht. unfold analyzed_temporal_score.
    by rewrite He.
  - rewrite Hev. unfold analyzed_evidence. rewrite Etemp. do 2 f_equal.
    unfold relevance_of, num_field. by rewrite Erel, Ecomb, Esim, Hp.
Qed.

End Pipeline.

(** What [analyze_causal_spans] returns on spans it can read. *)
Lemma analyze_causal_spans_total (scorer : EvidenceScorer.t) (spans : list pydict)
    (query : string) (event_type : option string) (event_turn_index : option Q)
    (top_k : Z) :
  Forall (fun s => analyzable event_turn_index s) spans ->
  exists analyzed_spans ranked,
    Forall2 (analyzed scorer event_type event_turn_index) spans analyzed_spans /\
    ranked ≡ₚ analyzed_spans /\
    StronglySorted (fun a b => evidence_of b <= evidence_of a) ranked /\
    CausalAnalyzer.analyze_causal_spans scorer spans query event_type event_turn_index top_k
    = Some (slice_to top_k ranked) /\
    length ranked = length spans.
Proof.
  intros Hall. unfold CausalAnalyzer.analyze_causal_spans.
  (* patterns *)
  destruct (mapM_Forall2_total
              (fun span : pydict =>
                 patterns ← PatternDetector.detect_patterns span event_type;
                 Some (patterns ∪ span))
              (partly_analyzed event_type None pattern_keys) spans) as (a1 & -> & H1).
  { eapply Forall_impl; [exact Hall|]. intros s Hs.
    by apply (partly_analyzed_patterns event_type event_turn_index). }
  cbn [mbind option_bind].
  (* temporal *)
  assert (exists a2,
             match event_turn_index with
             | Some e => PatternDetector.detect_temporal_patterns a1 e
             | None => Some a1
             end = Some a2 /\
             Forall2 (partly_analyzed event_type event_turn_index
                        (pattern_keys ++ temporal_keys)) spans a2) as (a2 & -> & H2).
  { destruct (mapM_Forall2_chain
                (fun s1 => match event_turn_index with
                           | Some e => PatternDetector.annotate_temporal e s1
                           | None => Some s1
                           end)
                (partly_analyzed event_type None pattern_keys)
                (partly_analyzed event_type event_turn_index (pattern_keys ++ temporal_keys))
                spans a1 H1) as (a2 & Ha2 & H2).
    { intros s s1 Hin Hs1. apply partly_analyzed_temporal; [|done].
      by eapply Forall_forall in Hall. }
    exists a2. split; [|done]. unfold PatternDetector.detect_temporal_patterns.
    destruct event_turn_index; [done|].
    rewrite <- Ha2. clear. induction a1 as [|x a1 IH]; [done|]. cbn. by rewrite <- IH. }
  cbn [mbind option_bind].
  (* sequential *)
  assert (Forall (fun s => indexed s) a2) as Hidx.
  { apply Forall_forall. intros s2 Hs2. apply list_elem_of_lookup in Hs2 as [i Hi].
    destruct (Forall2_lookup_r _ _ _ _ _ H2 Hi) as (s & Hs & Hrel).
    destruct (partly_analyzed_indexed event_type event_turn_index _ s s2 Hrel) as (-> & _);
      [not_in_keys | not_in_keys |].
    apply list_elem_of_lookup_2 in Hs. eapply Forall_forall in Hall; [|exact Hs].
    by apply analyzable_parts in Hall as (_ & ? & _). }
  destruct (analysis_sequential a2 Hidx) as (sorted & a3 & -> & Hperm & H3).
  cbn [mbind option_bind].
  apply Forall2_flip in H2.
  destruct (Forall2_Permutation _ _ _ _ (symmetry Hperm) H2) as (spans' & Hspans' & H2').
  apply Forall2_flip in H2'.
  assert (Forall2 (partly_analyzed event_type event_turn_index
                     (pattern_keys ++ temporal_keys ++ sequential_keys)) spans' a3) as H23.
  { eapply Forall2_compose; [|exact H2'|exact H3].
    intros s s2 s3. apply partly_analyzed_sequential. }
  (* evidence *)
  destruct (mapM_Forall2_chain (EvidenceScorer.score_span scorer)
              _ (analyzed scorer event_type event_turn_index) spans' a3 H23)
    as (a4 & Ha4 & H4).
  { intros s s3 Hin Hs3. apply partly_analyzed_scored; [|done].
    rewrite <- Hspans' in Hin. by eapply Forall_forall in Hall. }
  destruct (score_evidence_Some scorer a3 query event_type event_turn_index a4 Ha4)
    as (ranked & Hranked & Hperm4 & Hsorted & _).
  rewrite Hranked. cbn [mbind option_bind].
  destruct (score_evidence_output _ _ _ _ _ _ Hranked) as (Hhas & Hkeys & _ & Hlen).
  unfold EvidenceScorer.rank_evidence. rewrite (forallb_has_score _ Hhas).
  cbn [mbind option_bind].
  rewrite (sort_by_key_sorted_id true EvidenceScorer.evidence_key ranked Hkeys Hsorted).
  destruct (Forall2_Permutation _ _ _ _ (symmetry Hspans') H4) as (analyzed_spans & Hp & Hfinal).
  exists analyzed_spans, ranked. split; [done|].
  split; [by rewrite Hperm4|]. split; [done|]. split; [done|].
  rewrite Hlen, <- (Forall2_length _ _ _ H3), (Permutation_length Hperm).
  exact (Forall2_length _ _ _ H2).
Qed.

(** X21: on spans that it can read, [analyze_causal_spans] returns the
    analyzed spans in non-increasing order of evidence, cut to [top_k]:
    min(top_k, n) of them for a non-negative [top_k].  Every analyzed span is
    its input span with the annotations laid over it; its pattern score is
    the one [detect_patterns] computes from its text, between 0 and 1, and
    not the one it came with; with an event turn its temporal score is that
    of its distance to the turn; and its evidence score is the weighted sum
    of its relevance, temporal, pattern and similarity scores. *)
Theorem analyze_causal_spans_ranked (scorer : EvidenceScorer.t) (spans : list pydict)
    (query : string) (event_type : option string) (event_turn_index : option Q)
    (top_k : Z) :
  Forall (fun s => analyzable event_turn_index s) spans ->
  exists analyzed_spans ranked,
    Forall2 (analyzed scorer event_type event_turn_index) spans analyzed_spans /\
    ranked ≡ₚ analyzed_spans /\
    StronglySorted (fun a b => evidence_of b <= evidence_of a) ranked /\
    CausalAnalyzer.analyze_causal_spans scorer spans query event_type event_turn_index top_k
    = Some (slice_to top_k ranked) /\
    ((0 <= top_k)%Z ->
     length (slice_to top_k ranked) = Nat.min (Z.to_nat top_k) (length spans)).
Proof.
  intros Hall.
  destruct (analyze_causal_spans_total scorer spans query event_type event_turn_index top_k
              Hall) as (analyzed_spans & ranked & H1 & H2 & H3 & H4 & H5).
  exists analyzed_spans, ranked. do 4 (split; [done|]).
  intros Hk. by rewrite slice_to_length, H5.
Qed.

Lemma analyze_causal_spans_ranked_witness :
  Forall (fun s => analyzable (Some 5) s) SampleTurns.windows /\
  exists analyzed_spans ranked,
    Forall2 (analyzed EvidenceScorer.default (Some "refund"%string) (Some 5))
            SampleTurns.windows analyzed_spans /\
    ranked ≡ₚ analyzed_spans /\
    StronglySorted (fun a b => evidence_of b <= evidence_of a) ranked /\
    CausalAnalyzer.analyze_causal_spans EvidenceScorer.default SampleTurns.windows "why"
      (Some "refund"%string) (Some 5) 10
    = Some (slice_to 10 ranked) /\
    ((0 <= 10)%Z ->
     length (slice_to 10 ranked) = Nat.min (Z.to_nat 10) (length SampleTurns.windows)).
Proof.
  assert (Forall (fun s => analyzable (Some 5) s) SampleTurns.windows) as Hall
    by (apply Forall_forallb; vm_compute; reflexivity).
  split; [exact Hall|].
  exact (analyze_causal_spans_ranked EvidenceScorer.default SampleTurns.windows "why"
           (Some "refund"%string) (Some 5) 10 Hall).
Defined.

(** ** Event types of a query *)

Lemma str_contains_stem (stem rest hay : string) :
  str_contains (stem ++ rest) hay = true -> str_contains stem hay = true.
Proof.
  rewrite !str_contains_spec. intros (before & after & ->).
  exists before, (rest ++ after)%string. by rewrite string_app_assoc.
Qed.

(** X22: [_extract_event_type] returns one of the five event types or
    nothing; it returns nothing exactly when none of the stems escalat,
    refund, churn, cancel, complain and satisfaction occurs in the query; a
    query that holds "escalation" is an escalation query whatever else it
    holds; and the detector has a lexicon of its own for the type returned
    exactly when that type is escalation, refund or churn. *)
Theorem extract_event_type_stems (query_lower : string) :
  (QueryParser.extract_event_type query_lower = None <->
   Forall (fun stem => ~ occurs_in stem query_lower) event_stems) /\
  (forall t, QueryParser.extract_event_type query_lower = Some t ->
             t ∈ QueryParser.event_types /\
             (PatternDetector.get_event_specific_patterns t <> [] <->
              t ∈ ["escalation"; "refund"; "churn"]%string)) /\
  (occurs_in "escalation" query_lower ->
   QueryParser.extract_event_type query_lower = Some "escalation"%string).
Proof.
  unfold QueryParser.extract_event_type, QueryParser.event_types, event_stems.
  cbn [List.find].
  pose proof (str_contains_stem "escalat" "ion" query_lower) as Hesc.
  pose proof (str_contains_stem "complain" "t" query_lower) as Hcom.
  rewrite !Forall_cons, Forall_nil, <- !str_contains_spec.
  change ("escalat" ++ "ion")%string with "escalation"%string in Hesc.
  change ("complain" ++ "t")%string with "complaint"%string in Hcom.
  destruct (str_contains "escalation" query_lower) eqn:H1.
  { rewrite (Hesc eq_refl). split; [split; [done | intros [? _]; done]|].
    split; [|done]. intros t [= <-]. split; [repeat constructor|].
    split; [intros _; repeat constructor | by intros _]. }
  destruct (str_contains "refund" query_lower) eqn:H2.
  { split; [split; [done | intros (_ & ? & _); done]|].
    split; [|by intros]. intros t [= <-]. split; [repeat constructor|].
    split; [intros _; repeat constructor | by intros _]. }
  destruct (str_contains "churn" query_lower) eqn:H3.
  { split; [split; [done | intros (_ & _ & ? & _); done]|].
    split; [|by intros]. intros t [= <-]. split; [repeat constructor|].
    split; [intros _; repeat constructor | by intros _]. }
  destruct (str_contains "complaint" query_lower) eqn:H4.
  { rewrite (Hcom eq_refl). split; [split; [done | intros (_ & _ & _ & _ & ? & _); done]|].
    split; [|by intros]. intros t [= <-]. split; [repeat constructor|].
    split; [by intros ? | intros Hin].
    repeat (apply elem_of_cons in Hin as [Hin|Hin]; [discriminate Hin|]).
    by apply elem_of_nil in Hin. }
  destruct (str_contains "satisfaction" query_lower) eqn:H5.
  { split; [split; [done | intros (_ & _ & _ & _ & _ & ? & _); done]|].
    split; [|by intros]. intros t [= <-]. split; [repeat constructor|].
    split; [by intros ? | intros Hin].
    repeat (apply elem_of_cons in Hin as [Hin|Hin]; [discriminate Hin|]).
    by apply elem_of_nil in Hin. }
  destruct (str_contains "escalat" query_lower) eqn:H6.
  { split; [split; [done | intros (? & _); done]|].
    split; [|by intros]. intros t [= <-]. split; [repeat constructor|].
    split; [intros _; repeat constructor | by intros _]. }
  cbn [orb].
  destruct (str_contains "cancel" query_lower) eqn:H7.
  { split; [split; [done | intros (_ & _ & _ & ? & _); done]|].
    split; [|by intros]. intros t [= <-]. split; [repeat constructor|].
    split; [intros _; repeat constructor | by intros _]. }
  destruct (str_contains "complain" query_lower) eqn:H8.
  { split; [split; [done | intros (_ & _ & _ & _ & ? & _); done]|].
    split; [|by intros]. intros t [= <-]. split; [repeat constructor|].
    split; [by intros ? | intros Hin].
    repeat (apply elem_of_cons in Hin as [Hin|Hin]; [discriminate Hin|]).
    by apply elem_of_nil in Hin. }
  split; [split; [intros _; repeat split; by intros ? | done]|].
  split; [by intros | by intros].
Qed.

(** ** Citations *)

Lemma citation_spec (evidence : list pydict) (n : Z) :
  Forall (fun s => formattable s) evidence ->
  LLMGenerator.in_evidence evidence n = true ->
  exists c, LLMGenerator.citation evidence n = Some c /\ cites evidence n c.
Proof.
  intros Hall Hin. unfold LLMGenerator.in_evidence in Hin.
  apply andb_true_iff in Hin as [Hlo%Z.leb_le Hhi%Z.leb_le].
  unfold LLMGenerator.citation.
  destruct (evidence !! Z.to_nat (n - 1)) as [span|] eqn:Hspan; last first.
  { apply lookup_ge_None in Hspan. lia. }
  cbn [mbind option_bind].
  assert (formattable span) as Hspan_ok by (by eapply Forall_lookup_1 in Hall).
  unfold formattable, has_text in Hspan_ok. apply andb_prop_elim in Hspan_ok as [Htext Hmd].
  assert (value_take 200 (dict_get span "text" (VStr ""))
          = Some (VStr (str_take 200 (raw_text span)))) as ->.
  { unfold dict_get, raw_text. by destruct (span !! "text") as [[]|]. }
  cbn [mbind option_bind].
  assert (is_Some (as_dict (dict_get span "metadata" (VDict ∅)))) as [md ->].
  { unfold dict_get. destruct (span !! "metadata") as [[]|]; by eauto. }
  cbn [mbind option_bind]. eexists. split; [done|]. split; [lia|].
  exists span. split; [done|]. repeat split; by lookup_inserts.
Qed.

(** X23: on well-typed evidence [_extract_citations] returns one citation
    for every reference [Evidence n] of the explanation whose number lies
    between 1 and the number of evidence spans, in the order of the
    references; a reference to any other number is passed over and raises
    nothing, so no citation refers to evidence that does not exist. *)
Theorem extract_citations_in_range (explanation : string) (evidence : list pydict) :
  Forall (fun s => formattable s) evidence ->
  exists citations,
    LLMGenerator.extract_citations explanation evidence = Some citations /\
    Forall2 (cites evidence)
      (List.filter (LLMGenerator.in_evidence evidence)
                   (LLMGenerator.find_citations 0 explanation))
      citations /\
    (length citations <= length (LLMGenerator.find_citations 0 explanation))%nat.
Proof.
  intros Hall. unfold LLMGenerator.extract_citations.
  destruct (mapM_Forall2_total (LLMGenerator.citation evidence) (cites evidence)
              (List.filter (LLMGenerator.in_evidence evidence)
                           (LLMGenerator.find_citations 0 explanation)))
    as (citations & Hc & Hcites).
  { apply Forall_forall. intros n [_ Hn]%elem_of_List_filter. by apply citation_spec. }
  exists citations. split; [done|]. split; [done|].
  rewrite <- (Forall2_length _ _ _ Hcites).
  apply sublist_length, filter_sublist_of.
Qed.

Lemma extract_citations_in_range_witness :
  Forall (fun s => formattable s) SampleWorld.evidence /\
  exists citations,
    LLMGenerator.extract_citations
      "Waits grew [Evidence 1], see also [evidence  12] and [Evidence 0]."
      SampleWorld.evidence = Some citations /\
    Forall2 (cites SampleWorld.evidence)
      (List.filter (LLMGenerator.in_evidence SampleWorld.evidence)
         (LLMGenerator.find_citations 0
            "Waits grew [Evidence 1], see also [evidence  12] and [Evidence 0]."))
      citations /\
    (length citations
     <= length (LLMGenerator.find_citations 0
                  "Waits grew [Evidence 1], see also [evidence  12] and [Evidence 0]."))%nat.
Proof.
  assert (Forall (fun s => formattable s) SampleWorld.evidence) as Hall
    by (apply Forall_forallb; vm_compute; reflexivity).
  split; [exact Hall|].
  exact (extract_citations_in_range
           "Waits grew [Evidence 1], see also [evidence  12] and [Evidence 0]."
           SampleWorld.evidence Hall).
Defined.

(** The references that the scan finds: letter case and the amount of white
    space do not matter, a number has to follow, and the bracket has to
    close right after it. *)
Example find_citations_sample :
  LLMGenerator.find_citations 0
    "Waits grew [Evidence 1], see also [evidence  12] and [Evidence 0], not [Evidence 3x], [Evidence4] or [Evidence ]."
  = [1; 12; 0]%Z.
Proof. vm_compute. reflexivity. Qed.

(** ** A request without a conversation *)

Section NewConversation.
Import ContextManager.

Lemma get_or_create_fresh pf w :
  conversations w !! uuid4 pf (clock w) = None ->
  exists c w1,
    get_or_create_conversation pf None w = (Returned c, w1) /\
    conversation_id c = uuid4 pf (clock w) /\
    conversations w1 = <[uuid4 pf (clock w) := c]> (conversations w) /\
    turns c = [].
Proof.
  intros Hfresh. unfold get_or_create_conversation.
  unfold mbind, M_bind, mret, M_ret, tick, get_conversations, put_conversation. cbn.
  rewrite Hfresh. by eexists _, _.
Qed.

(** X24: a request without a conversation identifier, at a moment when the
    identifier drawn is not in use, opens a new conversation and is routed
    as an initial query whatever its text, so that it is not answered:
    [process_query] raises, and it leaves behind the new conversation,
    registered with an empty log, and all turn logs as they were. *)
Theorem task2_opens_conversation (cs : Collaborators) (query : string)
    (context : option (list pydict)) (w : World) :
  conversations w !! uuid4 (platform cs) (clock w) = None ->
  exists e c w',
    Task2Processor.process_query cs query None context w = (Raised e, w') /\
    conversations w' = <[uuid4 (platform cs) (clock w) := c]> (conversations w) /\
    conversation_id c = uuid4 (platform cs) (clock w) /\
    turns c = [] /\
    forall cid, turn_log w' cid = turn_log w cid.
Proof.
  intros Hfresh.
  destruct (get_or_create_fresh (platform cs) w Hfresh) as (c & w1 & Hc & Hcid & Hconvs & Hturns).
  set (cid := uuid4 (platform cs) (clock w)) in *.
  assert (Task2Processor.process_query cs query None context w
          = Task2Processor.process_query cs query (Some cid) context w1) as Hsame.
  { unfold Task2Processor.process_query.
    rewrite (bind_step (c0 ← get_or_create_conversation (platform cs) None;
                        mret (conversation_id c0)) _ w cid w1).
    - by rewrite (bind_step (mret cid) _ w1 cid w1 eq_refl).
    - by rewrite (bind_step _ _ _ _ _ Hc), <- Hcid. }
  assert (followup_decision w1 query cid = false) as Hdec.
  { unfold followup_decision, is_followup_in. by rewrite Hconvs, lookup_insert_eq, Hturns. }
  rewrite Hsame, task2_route, Hdec.
  destruct (task1_process_query_raises cs query w1) as [e ->].
  exists e, c, w1. split; [done|]. split; [done|]. split; [done|]. split; [done|].
  intros cid'. unfold turn_log. rewrite Hconvs.
  destruct (decide (cid = cid')) as [<-|Hne].
  - by rewrite lookup_insert_eq, Hfresh.
  - by rewrite lookup_insert_ne.
Qed.

End NewConversation.

Lemma task2_opens_conversation_witness :
  ContextManager.conversations SampleWorld.one_turn
    !! ContextManager.uuid4 (platform SampleWorld.answering)
         (ContextManager.clock SampleWorld.one_turn) = None /\
  exists e c w',
    Task2Processor.process_query SampleWorld.answering "what about that?" None None
      SampleWorld.one_turn = (Raised e, w') /\
    ContextManager.conversations w'
    = <[ContextManager.uuid4 (platform SampleWorld.answering)
          (ContextManager.clock SampleWorld.one_turn) := c]>
        (ContextManager.conversations SampleWorld.one_turn) /\
    ContextManager.conversation_id c
    = ContextManager.uuid4 (platform SampleWorld.answering)
        (ContextManager.clock SampleWorld.one_turn) /\
    ContextManager.turns c = [] /\
    forall cid, ContextManager.turn_log w' cid
                = ContextManager.turn_log SampleWorld.one_turn cid.
Proof.
  assert (ContextManager.conversations SampleWorld.one_turn
            !! ContextManager.uuid4 (platform SampleWorld.answering)
                 (ContextManager.clock SampleWorld.one_turn) = None) as Hfresh
    by reflexivity.
  split; [exact Hfresh|].
  exact (task2_opens_conversation SampleWorld.answering "what about that?" None
           SampleWorld.one_turn Hfresh).
Defined.

(** ** The rationale of an event *)

Ltac not_analysis_key :=
  let H := fresh in
  cbv [pattern_keys temporal_keys sequential_keys evidence_keys analysis_keys app];
  intros H;
  repeat (apply elem_of_cons in H as [H|H]; [discriminate H|]);
  by apply elem_of_nil in H.

Lemma StronglySorted_take {A} (R : A -> A -> Prop) (n : nat) (l : list A) :
  StronglySorted R l -> StronglySorted R (take n l).
Proof.
  intros H. revert n. induction H as [|x l Hl IH Hx]; intros [|n]; cbn; try constructor.
  - apply IH.
  - by apply Forall_take.
Qed.

Lemma slice_to_idem {A} (k : Z) (l : list A) :
  (0 <= k)%Z -> slice_to k (slice_to k l) = slice_to k l.
Proof.
  intros Hk. unfold slice_to, norm_index.
  assert ((k <? 0)%Z = false) as -> by lia.
  rewrite length_take. rewrite take_take. f_equal. lia.
Qed.

Lemma span_made_analyzable tid e span : span_made tid span -> analyzable e span.
Proof.
  intros (Hkeys & [text Htext] & (first & last & Hfirst & Hlast) & _).
  assert (forall k, k ∉ span_keys -> numeric_field span k) as Hnum
    by (intros k Hk; unfold numeric_field; by rewrite (Hkeys k Hk)).
  unfold analyzable, has_text, indexed. rewrite Htext. rewrite !andb_True.
  assert (forall k : string, k ∉ span_keys ->
            ~ k ∈ span_keys) as _ by done.
  repeat split.
  - unfold numeric_field. by rewrite Hfirst.
  - unfold numeric_field. by rewrite Hlast.
  - apply Hnum. cbv [span_keys]. intros H.
    repeat (apply elem_of_cons in H as [H|H]; [discriminate H|]). by apply elem_of_nil in H.
  - apply Hnum. cbv [span_keys]. intros H.
    repeat (apply elem_of_cons in H as [H|H]; [discriminate H|]). by apply elem_of_nil in H.
  - apply Hnum. cbv [span_keys]. intros H.
    repeat (apply elem_of_cons in H as [H|H]; [discriminate H|]). by apply elem_of_nil in H.
  - destruct e; [done|]. apply Hnum. cbv [span_keys]. intros H.
    repeat (apply elem_of_cons in H as [H|H]; [discriminate H|]). by apply elem_of_nil in H.
Qed.

Lemma transcript_window_carried turns first s s' :
  carried analysis_keys s s' -> transcript_window turns first s ->
  transcript_window turns first s'.
Proof.
  intros Hc (ids & Hstart & Hend & Htext & Hids & Hrest).
  exists ids. unfold holds_num in *.
  rewrite !(Hc "start_turn_index"%string), !(Hc "end_turn_index"%string),
    !(Hc "text"%string), !(Hc "turn_ids"%string) by not_analysis_key.
  done.
Qed.

Lemma window_ids_hashable turns first span :
  Forall (fun t => turn_hashable t) turns ->
  (first + 5 <= length turns)%nat ->
  transcript_window turns first span ->
  hashable_items (dict_get span "turn_ids" (VList [])).
Proof.
  intros Hall Hfit (ids & _ & _ & _ & Hids & Hlen & Hlookup).
  unfold hashable_items, dict_get. rewrite Hids. cbn [as_iter].
  apply Is_true_true, forallb_forall. intros v Hv%list_elem_of_In.
  apply list_elem_of_lookup in Hv as [j Hj].
  assert (j < 5)%nat as Hj5 by (apply lookup_lt_Some in Hj; lia).
  destruct (lookup_lt_is_Some_2 turns (first + j)) as [turn Hturn]; [lia|].
  rewrite (Hlookup j turn Hj5 Hturn) in Hj. injection Hj as <-.
  apply bool_decide_eq_true. unfold turn_id_at, dict_get.
  eapply Forall_lookup_1 in Hall; [|exact Hturn]. unfold turn_hashable in Hall.
  destruct (turn !! "turn_id") as [v|]; [by apply bool_decide_unpack in Hall | by eexists].
Qed.

Lemma analyzed_aggregable scorer event_type e tid turns first s s' :
  Forall (fun t => turn_hashable t) turns ->
  (first + 5 <= length turns)%nat ->
  span_made tid s -> transcript_window turns first s ->
  analyzed scorer event_type e s s' ->
  aggregable s'.
Proof.
  intros Hall Hfit (Hkeys & [text Htext] & _ & [names Hnames] & Htid & (md & Hmd & Hmdt))
         Hwin (Hc & _ & _ & _ & _ & Hev).
  pose proof (window_ids_hashable turns first s' Hall Hfit
                (transcript_window_carried _ _ _ _ Hc Hwin)) as Hids.
  unfold aggregable. rewrite !andb_True. repeat split.
  - rewrite (Hc "text"%string) by not_analysis_key. by rewrite Htext.
  - done.
  - unfold hashable_items, dict_get.
    rewrite (Hc "speakers"%string) by not_analysis_key. rewrite Hnames. cbn [as_iter].
    apply Is_true_true, forallb_forall. intros v Hv%list_elem_of_In.
    apply list_elem_of_fmap in Hv as (name & -> & _). by apply bool_decide_eq_true.
  - unfold EvidenceScorer.transcript_id_of, dict_get.
    rewrite (Hc "transcript_id"%string), (Hc "metadata"%string) by not_analysis_key.
    rewrite Htid, Hmd. cbn [as_dict mbind option_bind]. rewrite Hmdt.
    destruct (truthy (VStr tid)); by apply bool_decide_pack.
  - unfold numeric_field. by rewrite Hev.
Qed.

Lemma analyzed_window_of scorer event_type e tid turns first s s' :
  span_made tid s -> transcript_window turns first s ->
  analyzed scorer event_type e s s' ->
  analyzed_window scorer turns first (analyzed_temporal_score e s) s'.
Proof.
  intros (Hkeys & _) Hwin (Hc & Hp & Hlo & Hhi & _ & Hev).
  split; [by eapply transcript_window_carried|].
  exists (detected_pattern_score event_type s). do 3 (split; [done|]).
  rewrite Hev. do 2 f_equal. unfold analyzed_evidence, rationale_evidence.
  assert (forall k, k ∉ span_keys -> s !! k = None) as Hk by done.
  assert (relevance_of s = 0) as ->.
  { unfold relevance_of, num_field. rewrite !Hk; [done | |];
      cbv [span_keys]; intros H;
      repeat (apply elem_of_cons in H as [H|H]; [discriminate H|]); by apply elem_of_nil in H. }
  assert (num_field s "similarity_score" 0 = 0) as ->; [|done].
  unfold num_field. rewrite Hk; [done|].
  cbv [span_keys]. intros H.
  repeat (apply elem_of_cons in H as [H|H]; [discriminate H|]). by apply elem_of_nil in H.
Qed.

Lemma total_evidence_mean (l : list pydict) :
  match l with
  | [] => 0
  | _ => EvidenceScorer.mean (evidence_of <$> l)
  end * num_of_nat (length l) == total_evidence l.
Proof.
  unfold total_evidence. destruct l as [|s l].
  - cbn. change (num_of_nat 0) with 0. lra.
  - destruct (mean_spec (evidence_of <$> s :: l)) as [Hmean | ?]; [|done].
    by rewrite length_fmap in Hmean.
Qed.

(** What the analysis and the aggregation make of windows of a
    transcript. *)
Lemma analyze_windows scorer (turns : list pydict) (tid : string) (windows : list pydict)
    (starts : list nat) (query : string) (event_type : option string)
    (event_turn_index : option Q) (top_k : Z) :
  Forall (fun t => turn_hashable t) turns ->
  Forall2 (fun first s => span_made tid s /\ transcript_window turns first s /\
                          (first + 5 <= length turns)%nat) starts windows ->
  (0 <= top_k)%Z ->
  exists out agg,
    CausalAnalyzer.analyze_causal_spans scorer windows query event_type event_turn_index top_k
    = Some out /\
    EvidenceScorer.aggregate_evidence out top_k = Some agg /\
    length out = Nat.min (Z.to_nat top_k) (length windows) /\
    slice_to top_k out = out /\
    EvidenceScorer.spans agg = out /\
    EvidenceScorer.num_spans agg = length out /\
    StronglySorted (fun a b => evidence_of b <= evidence_of a) out /\
    Forall (fun s' => exists first s,
              first ∈ starts /\ s ∈ windows /\
              span_made tid s /\ transcript_window turns first s /\
              analyzed scorer event_type event_turn_index s s' /\
              analyzed_window scorer turns first
                (analyzed_temporal_score event_turn_index s) s') out /\
    EvidenceScorer.avg_evidence_score agg * num_of_nat (length out) == total_evidence out.
Proof.
  intros Hhash Hwins Hk.
  destruct (analyze_causal_spans_total scorer windows query event_type event_turn_index top_k)
    as (analyzed_spans & ranked & Han & Hperm & Hsorted & Hrun & Hlen).
  { apply Forall_forall. intros s Hs. apply list_elem_of_lookup in Hs as [i Hi].
    destruct (Forall2_lookup_r _ _ _ _ _ Hwins Hi) as (first & _ & Hmade & _).
    by eapply span_made_analyzable. }
  assert (Forall (fun s' => exists first s,
              first ∈ starts /\ s ∈ windows /\
              span_made tid s /\ transcript_window turns first s /\
              (first + 5 <= length turns)%nat /\
              analyzed scorer event_type event_turn_index s s') ranked) as Hranked.
  { rewrite Hperm. apply Forall_forall. intros s' Hs'.
    apply list_elem_of_lookup in Hs' as [i Hi].
    destruct (Forall2_lookup_r _ _ _ _ _ Han Hi) as (s & Hs & Hrel).
    destruct (Forall2_lookup_r _ _ _ _ _ Hwins Hs) as (first & Hfirst & Hmade & Hwin & Hfit).
    exists first, s. split; [by eapply list_elem_of_lookup_2|].
    split; [by eapply list_elem_of_lookup_2|]. done. }
  assert (Forall (fun s' => exists first s,
              first ∈ starts /\ s ∈ windows /\
              span_made tid s /\ transcript_window turns first s /\
              (first + 5 <= length turns)%nat /\
              analyzed scorer event_type event_turn_index s s') (slice_to top_k ranked))
    as Hout by (unfold slice_to; by apply Forall_take).
  destruct (aggregate_evidence_total (slice_to top_k ranked) top_k)
    as (agg & Hagg & Hspans & Hnum & Havg & _).
  { eapply Forall_impl; [exact Hout|].
    intros s' (first & s & _ & _ & Hmade & Hwin & Hfit & Hrel).
    by eapply analyzed_aggregable. }
  rewrite slice_to_idem in Hspans, Hnum, Havg by done.
  exists (slice_to top_k ranked), agg.
  split; [done|]. split; [done|].
  split; [by rewrite slice_to_length, Hlen|].
  split; [by apply slice_to_idem|]. split; [done|]. split; [done|].
  split. { unfold slice_to. by apply StronglySorted_take. }
  split.
  { eapply Forall_impl; [exact Hout|].
    intros s' (first & s & ? & ? & Hmade & Hwin & Hfit & Hrel).
    exists first, s. repeat (split; [done|]). by eapply analyzed_window_of. }
  rewrite Havg. apply total_evidence_mean.
Qed.

Lemma Forall_exists_Forall2 {A B} (P : A -> B -> Prop) (l : list B) :
  Forall (fun y => exists x, P x y) l -> exists k, Forall2 P k l.
Proof.
  induction 1 as [|y l [x Hx] _ [k Hk]]; [by exists []|].
  exists (x :: k). by constructor.
Qed.

Lemma analyze_with_typed scorer (spans : list pydict) (query : string) (event : pydict)
    (q : Q) (top_k : Z) :
  event_type_ok event ->
  CausalAnalyzer.analyze_causal_spans_with scorer spans query
    (dict_get event "event_type" (VStr "")) (VNum q) top_k
  = match spans with
    | [] => Some []
    | _ => CausalAnalyzer.analyze_causal_spans scorer spans query
             (Some (event_type_of event)) (Some q) top_k
    end.
Proof.
  unfold event_type_ok, event_type_of, dict_get, CausalAnalyzer.analyze_causal_spans_with.
  intros Hok. destruct spans; [done|].
  by destruct (event !! "event_type") as [[]|].
Qed.

(** X25: for a transcript of N well-formed turns and an event at the integer
    turn index e >= 1, [extract_causal_rationale] returns a rationale over
    the windows of five turns between the turns max(0, e - 10) and
    min(N - 1, e + 5): it holds the min(top_k, number of windows) windows of
    highest evidence, in non-increasing order of evidence; each of them is
    a window of the transcript with a pattern score between 0 and 1, the
    temporal score of its distance to the event turn, and the evidence score
    that these two give, the spans having no relevance or similarity score;
    the top spans are all of them, and the average evidence score times
    their number is the sum of their evidence scores. *)
Theorem extract_causal_rationale_windows (scorer : EvidenceScorer.t)
    (transcript event : pydict) (turns : list pydict) (tid query : string) (e top_k : Z) :
  transcript !! "turns" = Some (VList (VDict <$> turns)) ->
  Forall (fun t => turn_ok t) turns ->
  Forall (fun t => turn_hashable t) turns ->
  as_str (dict_get transcript "transcript_id" (VStr "unknown")) = Some tid ->
  event_type_ok event ->
  event !! "turn_index" = Some (VNum (inject_Z e)) ->
  (1 <= e)%Z ->
  (0 <= top_k)%Z ->
  exists r,
    CausalAnalyzer.extract_causal_rationale scorer transcript event query top_k = Some r /\
    CausalAnalyzer.num_spans r
    = Nat.min (Z.to_nat top_k)
        (Z.to_nat (Z.min (Z.of_nat (length turns)) (e + 6) - Z.max 0 (e - 10) - 4)) /\
    length (CausalAnalyzer.causal_spans r) = CausalAnalyzer.num_spans r /\
    CausalAnalyzer.top_spans r = CausalAnalyzer.causal_spans r /\
    EvidenceScorer.spans (CausalAnalyzer.aggregated_evidence r)
    = CausalAnalyzer.causal_spans r /\
    StronglySorted (fun a b => evidence_of b <= evidence_of a)
                   (CausalAnalyzer.causal_spans r) /\
    Forall (fun s' => exists first : nat,
              (e - 10 <= Z.of_nat first)%Z /\ (Z.of_nat first + 4 <= e + 5)%Z /\
              (first + 5 <= length turns)%nat /\
              analyzed_window scorer turns first
                (PatternDetector.temporal_score_of (distance_of (inject_Z e) s')) s')
           (CausalAnalyzer.causal_spans r) /\
    CausalAnalyzer.avg_evidence_score r * num_of_nat (CausalAnalyzer.num_spans r)
    == total_evidence (CausalAnalyzer.causal_spans r).
Proof.
  intros Hturns Hok Hhash Htid Hetype Hindex He Hk.
  destruct (extract_causal_spans_at transcript turns tid Hturns Hok Htid event
              (inject_Z e) e 10 5) as (windows & Hwindows & Hlen & Hmade & Hwin);
    [by unfold SpanExtractor.event_position; rewrite Hindex | done | lia |].
  cbv zeta in Hlen, Hwin.
  assert (Forall2 (fun first s => span_made tid s /\ transcript_window turns first s /\
                                  (first + 5 <= length turns)%nat)
                  ((fun i => (Z.to_nat (Z.max 0 (e - 10)) + i)%nat) <$> seq 0 (length windows))
                  windows)
    as Hstarts.
  { apply Forall2_same_length_lookup. split; [by rewrite length_fmap, length_seq|].
    intros i first s Hfirst Hs. rewrite list_lookup_fmap in Hfirst.
    assert (i < length windows)%nat as Hi by (by eapply lookup_lt_Some).
    rewrite lookup_seq_lt in Hfirst by done. injection Hfirst as <-.
    destruct (Hwin i Hi) as (s0 & Hs0 & Hw). rewrite Hs in Hs0. injection Hs0 as <-.
    split; [by eapply Forall_lookup_1 in Hmade|]. split; [done|].
    rewrite Hlen in Hi. lia. }
  destruct (analyze_windows scorer turns tid windows _ query (Some (event_type_of event))
              (Some (inject_Z e)) top_k Hhash Hstarts Hk)
    as (out & agg & Hrun & Hagg & Hout_len & Hslice & Hspans & Hnum & Hsorted & Hout & Havg).
  unfold CausalAnalyzer.extract_causal_rationale. rewrite Hwindows.
  cbn [mbind option_bind].
  assert (CausalAnalyzer.py_or (dict_get event "turn_index" VNone)
                               (dict_get event "turn_id" VNone) = VNum (inject_Z e)) as ->.
  { unfold CausalAnalyzer.py_or, dict_get. rewrite Hindex. cbn [truthy].
    assert (Qeq_bool (inject_Z e) 0 = false) as ->; [|done].
    apply not_true_iff_false. intros Hz%Qeq_bool_iff.
    unfold Qeq in Hz. cbn in Hz. lia. }
  rewrite (analyze_with_typed scorer windows query event (inject_Z e) top_k Hetype).
  assert (match windows with
          | [] => Some []
          | _ => CausalAnalyzer.analyze_causal_spans scorer windows query
                   (Some (event_type_of event)) (Some (inject_Z e)) top_k
          end = Some out) as ->.
  { destruct windows; [|done]. cbn in Hout_len. rewrite Nat.min_0_r in Hout_len.
    by destruct out. }
  cbn [mbind option_bind]. rewrite Hagg. cbn [mbind option_bind].
  eexists. split; [done|]. cbn.
  split. { rewrite Hout_len, Hlen. do 3 f_equal. lia. }
  split; [done|]. split; [done|]. split; [done|]. split; [done|].
  split; [|done].
  eapply Forall_impl; [exact Hout|].
  intros s' (first & s & Hfirst & Hs & Hm & Hw & Hrel & Haw).
  apply list_elem_of_fmap in Hfirst as (i & -> & Hi%elem_of_seq).
  exists (Z.to_nat (Z.max 0 (e - 10)) + i)%nat.
  split; [lia|]. split; [lia|]. split; [lia|].
  assert (distance_of (inject_Z e) s' = distance_of (inject_Z e) s) as ->; [|done].
  destruct Hrel as (Hc & _).
  destruct (carried_indexed analysis_keys s s' Hc) as (_ & Hstart & Hend);
    [not_analysis_key | not_analysis_key |].
  by apply distance_of_ext.
Qed.

Lemma extract_causal_rationale_windows_witness :
  SampleTranscript.transcript !! "turns"
  = Some (VList (VDict <$> SampleTranscript.turn_dicts)) /\
  Forall (fun t => turn_ok t) SampleTranscript.turn_dicts /\
  Forall (fun t => turn_hashable t) SampleTranscript.turn_dicts /\
  as_str (dict_get SampleTranscript.transcript "transcript_id" (VStr "unknown"))
  = Some "call-1"%string /\
  event_type_ok SampleTranscript.refund_event /\
  SampleTranscript.refund_event !! "turn_index" = Some (VNum (inject_Z 6)) /\
  (1 <= 6)%Z /\ (0 <= 10)%Z /\
  exists r,
    CausalAnalyzer.extract_causal_rationale EvidenceScorer.default
      SampleTranscript.transcript SampleTranscript.refund_event "why" 10 = Some r /\
    CausalAnalyzer.num_spans r
    = Nat.min (Z.to_nat 10)
        (Z.to_nat (Z.min (Z.of_nat (length SampleTranscript.turn_dicts)) (6 + 6)
                   - Z.max 0 (6 - 10) - 4)) /\
    length (CausalAnalyzer.causal_spans r) = CausalAnalyzer.num_spans r /\
    CausalAnalyzer.top_spans r = CausalAnalyzer.causal_spans r /\
    EvidenceScorer.spans (CausalAnalyzer.aggregated_evidence r)
    = CausalAnalyzer.causal_spans r /\
    StronglySorted (fun a b => evidence_of b <= evidence_of a)
                   (CausalAnalyzer.causal_spans r) /\
    Forall (fun s' => exists first : nat,
              (6 - 10 <= Z.of_nat first)%Z /\ (Z.of_nat first + 4 <= 6 + 5)%Z /\
              (first + 5 <= length SampleTranscript.turn_dicts)%nat /\
              analyzed_window EvidenceScorer.default SampleTranscript.turn_dicts first
                (PatternDetector.temporal_score_of (distance_of (inject_Z 6) s')) s')
           (CausalAnalyzer.causal_spans r) /\
    CausalAnalyzer.avg_evidence_score r * num_of_nat (CausalAnalyzer.num_spans r)
    == total_evidence (CausalAnalyzer.causal_spans r).
Proof.
  assert (SampleTranscript.transcript !! "turns"
          = Some (VList (VDict <$> SampleTranscript.turn_dicts))) as Hturns by reflexivity.
  assert (Forall (fun t => turn_ok t) SampleTranscript.turn_dicts) as Hok
    by (apply Forall_forallb; vm_compute; reflexivity).
  assert (Forall (fun t => turn_hashable t) SampleTranscript.turn_dicts) as Hhash
    by (apply Forall_forallb; vm_compute; reflexivity).
  assert (as_str (dict_get SampleTranscript.transcript "transcript_id" (VStr "unknown"))
          = Some "call-1"%string) as Htid by reflexivity.
  assert (event_type_ok SampleTranscript.refund_event) as Hetype by (vm_compute; exact I).
  assert (SampleTranscript.refund_event !! "turn_index" = Some (VNum (inject_Z 6))) as Hindex
    by reflexivity.
  assert (1 <= 6)%Z as He by lia.
  assert (0 <= 10)%Z as Hk by lia.
  do 8 (split; [assumption|]).
  exact (extract_causal_rationale_windows EvidenceScorer.default SampleTranscript.transcript
           SampleTranscript.refund_event SampleTranscript.turn_dicts "call-1" "why" 6 10
           Hturns Hok Hhash Htid Hetype Hindex He Hk).
Defined.

(** X26: an event that is found through a turn identifier that is no number
    cannot be analyzed: when the turn is found and at least one window lies
    around it, [extract_causal_rationale] raises, because the identifier is
    handed to the temporal analysis as the event turn index. *)
Theorem extract_causal_rationale_turn_id_raises (scorer : EvidenceScorer.t)
    (transcript event : pydict) (turns : list pydict) (tid query : string)
    (id : value) (k : nat) (top_k : Z) :
  transcript !! "turns" = Some (VList (VDict <$> turns)) ->
  Forall (fun t => turn_ok t) turns ->
  as_str (dict_get transcript "transcript_id" (VStr "unknown")) = Some tid ->
  event !! "turn_index" = None ->
  event !! "turn_id" = Some id ->
  id <> VNone ->
  as_num id = None ->
  first_with_id turns id k ->
  (5 <= Z.min (Z.of_nat (length turns)) (Z.of_nat k + 6) - Z.max 0 (Z.of_nat k - 10))%Z ->
  CausalAnalyzer.extract_causal_rationale scorer transcript event query top_k = None.
Proof.
  intros Hturns Hok Htid Hindex Hid Hnone Hnum Hfirst Hroom.
  destruct (extract_causal_spans_at transcript turns tid Hturns Hok Htid event
              (num_of_nat k) (Z.of_nat k) 10 5) as (windows & Hwindows & Hlen & _);
    [|done|lia|].
  { unfold SpanExtractor.event_position. rewrite Hindex, Hid.
    cbn [as_iter mbind option_bind]. by rewrite (find_turn_first id 0 k turns Hfirst). }
  cbv zeta in Hlen.
  unfold CausalAnalyzer.extract_causal_rationale. rewrite Hwindows.
  cbn [mbind option_bind].
  assert (CausalAnalyzer.py_or (dict_get event "turn_index" VNone)
                               (dict_get event "turn_id" VNone) = id) as ->
    by (unfold CausalAnalyzer.py_or, dict_get; by rewrite Hindex, Hid).
  destruct windows as [|w windows]; [cbn in Hlen; lia|].
  unfold CausalAnalyzer.analyze_causal_spans_with.
  destruct (match dict_get event "event_type" (VStr "") with
            | VStr s => Some (Some s)
            | _ => _
            end) as [et|]; [|done].
  cbn [mbind option_bind]. by destruct id.
Qed.

Lemma extract_causal_rationale_turn_id_raises_witness :
  SampleTranscript.transcript !! "turns"
  = Some (VList (VDict <$> SampleTranscript.turn_dicts)) /\
  Forall (fun t => turn_ok t) SampleTranscript.turn_dicts /\
  as_str (dict_get SampleTranscript.transcript "transcript_id" (VStr "unknown"))
  = Some "call-1"%string /\
  SampleTranscript.refund_by_id !! "turn_index" = None /\
  SampleTranscript.refund_by_id !! "turn_id" = Some (VStr "t6") /\
  VStr "t6" <> VNone /\
  as_num (VStr "t6") = None /\
  first_with_id SampleTranscript.turn_dicts (VStr "t6") 6 /\
  (5 <= Z.min (Z.of_nat (length SampleTranscript.turn_dicts)) (Z.of_nat 6 + 6)
        - Z.max 0 (Z.of_nat 6 - 10))%Z /\
  CausalAnalyzer.extract_causal_rationale EvidenceScorer.default
    SampleTranscript.transcript SampleTranscript.refund_by_id "why" 10 = None.
Proof.
  assert (SampleTranscript.transcript !! "turns"
          = Some (VList (VDict <$> SampleTranscript.turn_dicts))) as Hturns by reflexivity.
  assert (Forall (fun t => turn_ok t) SampleTranscript.turn_dicts) as Hok
    by (apply Forall_forallb; vm_compute; reflexivity).
  assert (as_str (dict_get SampleTranscript.transcript "transcript_id" (VStr "unknown"))
          = Some "call-1"%string) as Htid by reflexivity.
  assert (SampleTranscript.refund_by_id !! "turn_index" = None) as Hindex by reflexivity.
  assert (SampleTranscript.refund_by_id !! "turn_id" = Some (VStr "t6")) as Hid
    by reflexivity.
  assert (VStr "t6" <> VNone) as Hnone by discriminate.
  assert (as_num (VStr "t6") = None) as Hnum by reflexivity.
  assert (first_with_id SampleTranscript.turn_dicts (VStr "t6") 6) as Hfirst.
  { split; [eexists; split; reflexivity|].
    intros j turn Hj Hturn.
    do 6 (destruct j as [|j]; [injection Hturn as <-; reflexivity|]). lia. }
  assert (5 <= Z.min (Z.of_nat (length SampleTranscript.turn_dicts)) (Z.of_nat 6 + 6)
               - Z.max 0 (Z.of_nat 6 - 10))%Z as Hroom by (vm_compute; discriminate).
  do 9 (split; [assumption|]).
  exact (extract_causal_rationale_turn_id_raises EvidenceScorer.default
           SampleTranscript.transcript SampleTranscript.refund_by_id
           SampleTranscript.turn_dicts "call-1" "why" (VStr "t6") 6 10
           Hturns Hok Htid Hindex Hid Hnone Hnum Hfirst Hroom).
Defined.

(** ** The patterns of an event type *)

Lemma filter_length_le {A} (f g : A -> bool) (l : list A) :
  (forall x, f x = true -> g x = true) ->
  (length (List.filter f l) <= length (List.filter g l))%nat.
Proof.
  intros Hfg. induction l as [|x l IH]; [done|]. cbn.
  destruct (f x) eqn:Hf.
  - rewrite (Hfg x Hf). cbn. lia.
  - destruct (g x); cbn; lia.
Qed.

Lemma has_event_type_of_type event_type ev :
  CausalAnalyzer.has_event_type event_type ev = true -> of_type event_type ev = true.
Proof.
  unfold CausalAnalyzer.has_event_type, of_type, event_type_of, dict_get.
  destruct (ev !! "event_type") as [[]|]; try done. cbn.
  intros ->%String.eqb_eq. apply String.eqb_refl.
Qed.

(** X27: on a well-formed transcript [analyze_event_patterns] returns an
    analysis over the windows of five turns that precede the events of the
    type asked for (case apart): it holds at most [top_k] of them, in
    non-increasing order of evidence; each is a window of the transcript
    that ends at the turn of such an event or before it, analyzed without
    an event turn, so that its temporal score counts as 0.5; the average
    evidence score times their number is the sum of their evidence scores;
    and [num_events] counts the events whose type is exactly the one asked
    for, which are among the events whose windows were taken. *)
Theorem analyze_event_patterns_windows (scorer : EvidenceScorer.t) (transcript : pydict)
    (turns events : list pydict) (tid event_type query : string) (top_k : Z) :
  transcript !! "turns" = Some (VList (VDict <$> turns)) ->
  Forall (fun t => turn_ok t) turns ->
  Forall (fun t => turn_hashable t) turns ->
  as_str (dict_get transcript "transcript_id" (VStr "unknown")) = Some tid ->
  transcript !! "events" = Some (VList (VDict <$> events)) ->
  Forall (fun ev => event_ok ev) events ->
  (0 <= top_k)%Z ->
  exists r,
    CausalAnalyzer.analyze_event_patterns scorer transcript event_type query top_k = Some r /\
    length (CausalAnalyzer.pa_causal_spans r) = CausalAnalyzer.pa_num_spans r /\
    (CausalAnalyzer.pa_num_spans r <= Z.to_nat top_k)%nat /\
    EvidenceScorer.spans (CausalAnalyzer.pa_aggregated_evidence r)
    = CausalAnalyzer.pa_causal_spans r /\
    StronglySorted (fun a b => evidence_of b <= evidence_of a)
                   (CausalAnalyzer.pa_causal_spans r) /\
    Forall (fun s' => exists event e (first : nat),
              event ∈ events /\ of_type event_type event = true /\
              event_index event = Some e /\
              (e - 10 <= Z.of_nat first)%Z /\ (Z.of_nat first + 4 <= e)%Z /\
              analyzed_window scorer turns first 0.5 s')
           (CausalAnalyzer.pa_causal_spans r) /\
    CausalAnalyzer.pa_avg_evidence_score r * num_of_nat (CausalAnalyzer.pa_num_spans r)
    == total_evidence (CausalAnalyzer.pa_causal_spans r) /\
    CausalAnalyzer.pa_num_events r
    = length (List.filter (CausalAnalyzer.has_event_type event_type) events) /\
    (CausalAnalyzer.pa_num_events r
     <= length (List.filter (of_type event_type) events))%nat.
Proof.
  intros Hturns Hok Hhash Htid Hevents Hevs Hk.
  destruct (extract_event_specific_spans_total transcript turns events tid event_type 10
              Hturns Hok Htid Hevents Hevs) as (windows & Hwindows & Hsound & _).
  destruct (Forall_exists_Forall2
              (fun first s => span_made tid s /\ transcript_window turns first s /\
                              (first + 5 <= length turns)%nat) windows) as (starts & Hstarts).
  { apply Forall_forall. intros s Hs.
    destruct (Hsound s Hs) as (_ & _ & first & _ & _ & _ & Hm & Hw & _ & _ & Hfit).
    by exists first. }
  destruct (analyze_windows scorer turns tid windows starts query (Some event_type) None
              top_k Hhash Hstarts Hk)
    as (out & agg & Hrun & Hagg & Hout_len & Hslice & Hspans & Hnum & Hsorted & Hout & Havg).
  unfold CausalAnalyzer.analyze_event_patterns. rewrite Hwindows.
  cbn [mbind option_bind]. rewrite Hrun. cbn [mbind option_bind]. rewrite Hagg.
  cbn [mbind option_bind].
  assert (dict_get transcript "events" (VList []) = VList (VDict <$> events)) as ->
    by (unfold dict_get; by rewrite Hevents).
  cbn [as_iter mbind option_bind]. rewrite mapM_as_dict. cbn [mbind option_bind].
  eexists. split; [done|]. cbn.
  split; [done|]. split; [lia|]. split; [done|]. split; [done|].
  split.
  { eapply Forall_impl; [exact Hout|].
    intros s' (_ & s & _ & Hs & _ & _ & Hrel & _).
    destruct (Hsound s Hs) as (ev & e & first & Hev & Htype & He & Hm & Hw & Hlo & Hhi & _).
    exists ev, e, first. do 5 (split; [done|]).
    pose proof (analyzed_window_of scorer (Some event_type) None tid turns first s s'
                  Hm Hw Hrel) as Haw.
    assert (analyzed_temporal_score None s = 0.5) as Ht; [|by rewrite Ht in Haw].
    unfold analyzed_temporal_score, num_field. destruct Hm as (Hkeys & _).
    rewrite Hkeys; [done|]. cbv [span_keys]. intros H.
    repeat (apply elem_of_cons in H as [H|H]; [discriminate H|]). by apply elem_of_nil in H. }
  split; [done|]. split; [done|].
  apply filter_length_le, has_event_type_of_type.
Qed.

Lemma analyze_event_patterns_windows_witness :
  SampleTranscript.transcript !! "turns"
  = Some (VList (VDict <$> SampleTranscript.turn_dicts)) /\
  Forall (fun t => turn_ok t) SampleTranscript.turn_dicts /\
  Forall (fun t => turn_hashable t) SampleTranscript.turn_dicts /\
  as_str (dict_get SampleTranscript.transcript "transcript_id" (VStr "unknown"))
  = Some "call-1"%string /\
  SampleTranscript.transcript !! "events"
  = Some (VList (VDict <$> [SampleTranscript.refund_event])) /\
  Forall (fun ev => event_ok ev) [SampleTranscript.refund_event] /\
  (0 <= 10)%Z /\
  exists r,
    CausalAnalyzer.analyze_event_patterns EvidenceScorer.default
      SampleTranscript.transcript "refund" "why" 10 = Some r /\
    length (CausalAnalyzer.pa_causal_spans r) = CausalAnalyzer.pa_num_spans r /\
    (CausalAnalyzer.pa_num_spans r <= Z.to_nat 10)%nat /\
    EvidenceScorer.spans (CausalAnalyzer.pa_aggregated_evidence r)
    = CausalAnalyzer.pa_causal_spans r /\
    StronglySorted (fun a b => evidence_of b <= evidence_of a)
                   (CausalAnalyzer.pa_causal_spans r) /\
    Forall (fun s' => exists event e (first : nat),
              event ∈ [SampleTranscript.refund_event] /\ of_type "refund" event = true /\
              event_index event = Some e /\
              (e - 10 <= Z.of_nat first)%Z /\ (Z.of_nat first + 4 <= e)%Z /\
              analyzed_window EvidenceScorer.default SampleTranscript.turn_dicts first 0.5 s')
           (CausalAnalyzer.pa_causal_spans r) /\
    CausalAnalyzer.pa_avg_evidence_score r * num_of_nat (CausalAnalyzer.pa_num_spans r)
    == total_evidence (CausalAnalyzer.pa_causal_spans r) /\
    CausalAnalyzer.pa_num_events r
    = length (List.filter (CausalAnalyzer.has_event_type "refund")
                          [SampleTranscript.refund_event]) /\
    (CausalAnalyzer.pa_num_events r
     <= length (List.filter (of_type "refund") [SampleTranscript.refund_event]))%nat.
Proof.
  assert (SampleTranscript.transcript !! "turns"
          = Some (VList (VDict <$> SampleTranscript.turn_dicts))) as Hturns by reflexivity.
  assert (Forall (fun t => turn_ok t) SampleTranscript.turn_dicts) as Hok
    by (apply Forall_forallb; vm_compute; reflexivity).
  assert (Forall (fun t => turn_hashable t) SampleTranscript.turn_dicts) as Hhash
    by (apply Forall_forallb; vm_compute; reflexivity).
  assert (as_str (dict_get SampleTranscript.transcript "transcript_id" (VStr "unknown"))
          = Some "call-1"%string) as Htid by reflexivity.
  assert (SampleTranscript.transcript !! "events"
          = Some (VList (VDict <$> [SampleTranscript.refund_event]))) as Hevents
    by reflexivity.
  assert (Forall (fun ev => event_ok ev) [SampleTranscript.refund_event]) as Hevs
    by (apply Forall_forallb; vm_compute; reflexivity).
  assert (0 <= 10)%Z as Hk by lia.
  do 7 (split; [assumption|]).
  exact (analyze_event_patterns_windows EvidenceScorer.default SampleTranscript.transcript
           SampleTranscript.turn_dicts [SampleTranscript.refund_event] "call-1" "refund"
           "why" 10 Hturns Hok Hhash Htid Hevents Hevs Hk).
Defined.

(** ** The summary of a conversation *)

(** X28: [get_context_summary] never raises and returns the lines
    "Q: query" and "A: first 200 characters of the response..." of the last
    three turns of the conversation, the empty string when there is no
    turn; it changes no turn log, yet it registers a conversation that was
    not known, with an empty log, and leaves the other conversations as
    they were. *)
Theorem get_context_summary_reads (pf : ContextManager.Platform) (cid : string)
    (w : ContextManager.World) :
  exists w',
    ContextManager.get_context_summary pf cid w
    = (Returned (summary_of (ContextManager.turn_log w cid)), w') /\
    (ContextManager.turn_log w cid = [] -> summary_of (ContextManager.turn_log w cid) = ""%string) /\
    same_logs w w' /\
    is_Some (ContextManager.conversations w' !! cid) /\
    forall cid', cid' <> cid ->
      ContextManager.conversations w' !! cid' = ContextManager.conversations w !! cid'.
Proof.
  destruct (get_or_create_known pf cid w) as (c & w1 & Hc & Hstored & Hturns & Hother).
  exists w1. unfold ContextManager.get_context_summary.
  rewrite (bind_step _ _ _ _ _ Hc). split.
  { unfold mret, ContextManager.M_ret. do 2 f_equal.
    unfold ContextManager.context_summary_of, summary_of. rewrite <- Hturns.
    destruct (ContextManager.turns c) as [|t l] eqn:Hlog; [done|].
    rewrite <- Hlog. f_equal.
    assert (ContextManager.get_recent_turns c 3
            = drop (length (ContextManager.turns c) - 3) (ContextManager.turns c)) as ->; [|done].
    unfold ContextManager.get_recent_turns, slice_from, norm_index.
    destruct (3 <? Z.of_nat (length (ContextManager.turns c)))%Z eqn:Hlt.
    - apply Z.ltb_lt in Hlt. change (- (3) <? 0)%Z with true. cbv iota. f_equal. lia.
    - apply Z.ltb_ge in Hlt.
      replace (length (ContextManager.turns c) - 3)%nat with 0%nat by lia. done. }
  split; [by intros ->|].
  split.
  { pose proof (preserves_get_or_create pf (Some cid) w) as Hlogs.
    by rewrite Hc in Hlogs. }
  split; [by eexists | done].
Qed.

(** ** The evidence of an answer *)

Lemma analyze_causal_spans_at_most scorer spans query event_type event_turn_index top_k out :
  CausalAnalyzer.analyze_causal_spans scorer spans query event_type event_turn_index top_k
  = Some out ->
  (0 <= top_k)%Z ->
  (length out <= Z.to_nat top_k)%nat /\
  StronglySorted (fun a b => evidence_of b <= evidence_of a) out.
Proof.
  unfold CausalAnalyzer.analyze_causal_spans. intros H Hk.
  destruct (mapM _ spans) as [a1|]; [|done]. cbn [mbind option_bind] in H.
  destruct (match event_turn_index with Some _ => _ | None => _ end) as [a2|]; [|done].
  cbn [mbind option_bind] in H.
  destruct (PatternDetector.detect_sequential_patterns a2) as [a3|]; [|done].
  cbn [mbind option_bind] in H.
  destruct (EvidenceScorer.score_evidence _ _ _ _ _) as [a4|]; [|done].
  cbn [mbind option_bind] in H. unfold EvidenceScorer.rank_evidence in H.
  destruct (if forallb _ a4 then Some a4 else _) as [a5|]; [|done].
  cbn [mbind option_bind] in H.
  destruct (sort_by_key true EvidenceScorer.evidence_key a5) as [ranked|] eqn:Hranked; [|done].
  cbn [mbind option_bind] in H. injection H as <-.
  split.
  - rewrite slice_to_length by done. lia.
  - unfold slice_to. apply StronglySorted_take. by apply sort_by_key_sorted in Hranked.
Qed.

Lemma process_followup_evidence cs query cid context w resp w' :
  FollowUpProcessor.process_followup cs query cid context w = (Returned resp, w') ->
  exists spans q event_type,
    CausalAnalyzer.analyze_causal_spans (scorer cs) spans q event_type None 10
    = Some (FollowUpProcessor.r_evidence resp) /\
    FollowUpProcessor.r_evidence_count resp = length (FollowUpProcessor.r_evidence resp).
Proof.
  unfold FollowUpProcessor.process_followup. intros H.
  do 5 (apply bind_Returned in H as (? & ? & _ & H)).
  apply bind_Returned in H as (analyzed & ? & Han & H).
  apply lift_Returned in Han as [Han ->].
  do 2 (apply bind_Returned in H as (? & ? & _ & H)).
  apply bind_Returned in H as ([] & ? & _ & H). injection H as <- _.
  by eexists _, _, _.
Qed.

Lemma formatted_all (f : nat * pydict -> option pydict) (evidence entries : list pydict) :
  mapM f (imap (fun i span => (i, span)) (slice_to 10 evidence)) = Some entries ->
  (length evidence <= 10)%nat ->
  length entries = length evidence.
Proof.
  intros H%mapM_Some%Forall2_length Hle.
  rewrite length_imap, slice_to_length in H by done. lia.
Qed.

(** X29: the response to a request that [process_query] answers carries at
    most ten evidence entries, one for each span that the analysis kept, and
    the evidence count of its metadata is the number of these entries: the
    cut to ten entries in [format_response] never drops evidence. *)
Theorem task2_answer_lists_all_evidence (cs : Collaborators) (query cid : string)
    (context : option (list pydict)) (w w' : ContextManager.World) (d : pydict) :
  Task2Processor.process_query cs query (Some cid) context w = (Returned d, w') ->
  exists (entries : list pydict) (md : pydict),
    d !! "evidence" = Some (VList (VDict <$> entries)) /\
    d !! "metadata" = Some (VDict md) /\
    md !! "evidence_count" = Some (VNum (num_of_nat (length entries))) /\
    (length entries <= 10)%nat.
Proof.
  rewrite task2_route. destruct (followup_decision w query cid); intros H.
  2: { by destruct (task1_process_query_raises cs query w) as [e He]; rewrite He in H. }
  apply bind_Returned in H as (resp & w1 & Hrun & H).
  apply lift_Returned in H as [Hfmt ->].
  destruct (process_followup_evidence _ _ _ _ _ _ _ Hrun) as (? & ? & ? & Han & Hcount).
  destruct (analyze_causal_spans_at_most _ _ _ _ _ _ _ Han) as [Hle _]; [lia|].
  unfold FollowUpProcessor.format_response in Hfmt.
  destruct (mapM _ _) as [entries|] eqn:Hentries; [|done]. injection Hfmt as <-.
  apply formatted_all in Hentries; [|lia].
  exists entries. eexists. split; [by lookup_inserts|]. split; [by lookup_inserts|].
  split; [|lia]. lookup_inserts. by rewrite Hcount, Hentries.
Qed.

Lemma task2_answer_lists_all_evidence_witness :
  Task2Processor.process_query SampleWorld.answering "what about that?"
    (Some "c"%string) None SampleWorld.one_turn
  = (Returned SampleRun.followup_answer, SampleRun.followup_world) /\
  exists (entries : list pydict) (md : pydict),
    SampleRun.followup_answer !! "evidence" = Some (VList (VDict <$> entries)) /\
    SampleRun.followup_answer !! "metadata" = Some (VDict md) /\
    md !! "evidence_count" = Some (VNum (num_of_nat (length entries))) /\
    (length entries <= 10)%nat.
Proof.
  assert (Task2Processor.process_query SampleWorld.answering "what about that?"
            (Some "c"%string) None SampleWorld.one_turn
          = (Returned SampleRun.followup_answer, SampleRun.followup_world)) as Hrun
    by reflexivity.
  split; [exact Hrun|].
  exact (task2_answer_lists_all_evidence SampleWorld.answering "what about that?" "c" None
           SampleWorld.one_turn SampleRun.followup_world SampleRun.followup_answer Hrun).
Defined.
